(** * FLAC compression-level estimation

    A shallow embedding of the two estimator modules of the converter,
    [flac_analyzer.py] and [flac_level_detection.py], and the properties
    of the level estimator, of the probe, of the caller API and of the
    printed report.

    Conventions of the embedding.
    - A Python [dict] with string keys is a [gmap string _].
    - Python values stored in the [info] dictionary are [pyval]s.
    - Python [int] is [Z].  Python [float] is embedded in [Q]: arithmetic and
      comparisons are exact, so binary64 rounding, infinities and NaN are
      outside the model.  Division by zero raises [ZeroDivisionError], as it
      does in Python for both [int] and [float] operands.  The statements
      that depend on it keep the numbers within the range of binary64
      ([float_range]) and away from the ratios at which two roundings decide
      ([clear_of_steps]).
    - The derived statistics of the probes are computed as binary64 does:
      every step of the product behind the uncompressed size, which [int]
      then truncates, and the quotient that is the compression ratio are
      rounded to the nearest binary64 number ([round64]); [int] raises on an
      infinity and on a NaN, and a quotient beyond the floats raises.
    - Exceptions are values of [exn]; a computation that may raise has type
      [result A], and [try ... except] is [try_except].
    - Text is ASCII; the output captured from a subprocess is a [string].
    - Code that prints has type [printing A]: the texts given to [print], in
      order, and how the code ended. *)

From Stdlib Require Import ZArith QArith Qround Qabs Lia Lqa String Ascii List
  DecimalString.
From stdpp Require Import base option gmap strings.

Open Scope Q_scope.

(** ** Python values, exceptions and built-ins *)

Module Py.

Inductive exn : Type :=
  | FileNotFoundError
  | PermissionError
  | CalledProcessError (cmd : list string) (returncode : Z)
  | KeyError (key : string)
  | TypeError
  | ValueError
  | ZeroDivisionError
  | AttributeError
  | OverflowError.

Inductive result (A : Type) : Type :=
  | Ok (a : A)
  | Raise (e : exn).
Arguments Ok {A} a.
Arguments Raise {A} e.

#[global] Instance result_ret : MRet result := @Ok.
#[global] Instance result_bind : MBind result :=
  fun A B f m => match m with Ok a => f a | Raise e => Raise e end.

(** [try: body except e: handler e]; a handler that does not catch [e]
    re-raises it. *)
Definition try_except {A} (body : result A) (handler : exn -> result A) : result A :=
  match body with
  | Ok a => Ok a
  | Raise e => handler e
  end.

Inductive pyval : Type :=
  | VNone
  | VBool (b : bool)
  | VInt (n : Z)
  | VFloat (x : Q)
  | VStr (s : string).

Definition Qlt_bool (x y : Q) : bool := negb (Qle_bool y x).

(** The number a value stands for in arithmetic ([bool] is a subclass of
    [int]); [None] for values that are not numbers. *)
Definition as_num (v : pyval) : option Q :=
  match v with
  | VBool b => Some (if b then 1 else 0)
  | VInt n => Some (inject_Z n)
  | VFloat x => Some x
  | VNone | VStr _ => None
  end.

Definition num (v : pyval) : result Q :=
  match as_num v with
  | Some x => Ok x
  | None => Raise TypeError
  end.

(** [bool(v)] *)
Definition truthy (v : pyval) : bool :=
  match v with
  | VNone => false
  | VBool b => b
  | VInt n => negb (n =? 0)%Z
  | VFloat x => negb (Qeq_bool x 0)
  | VStr s => negb (String.eqb s "")
  end.

(** [v == w] *)
Definition py_eq (v w : pyval) : bool :=
  match as_num v, as_num w with
  | Some x, Some y => Qeq_bool x y
  | _, _ =>
      match v, w with
      | VNone, VNone => true
      | VStr s, VStr t => String.eqb s t
      | _, _ => false
      end
  end.

(** [v / w] *)
Definition py_truediv (v w : pyval) : result Q :=
  x ← num v; y ← num w;
  if Qeq_bool y 0 then Raise ZeroDivisionError else Ok (x / y).

(** [v > w] and [v < w] between numbers; any other operand is a [TypeError]. *)
Definition py_gt (v w : pyval) : result bool :=
  x ← num v; y ← num w; Ok (Qlt_bool y x).

Definition py_lt (v w : pyval) : result bool :=
  x ← num v; y ← num w; Ok (Qlt_bool x y).

(** [d[key]], [key in d] and [d.get(key, default)] *)
Definition getitem {V} (d : gmap string V) (key : string) : result V :=
  match d !! key with
  | Some v => Ok v
  | None => Raise (KeyError key)
  end.

Definition contains {V} (d : gmap string V) (key : string) : bool :=
  match d !! key with
  | Some _ => true
  | None => false
  end.

Definition get {V} (d : gmap string V) (key : string) (default : V) : V :=
  match d !! key with
  | Some v => v
  | None => default
  end.

(** [min(a, b)] of two numbers: the first one unless the second is smaller. *)
Definition min2 (a b : Q) : Q := if Qlt_bool b a then b else a.

(** [max(l, key=key)] and [min(l, key=key)]: the first element with the
    largest (smallest) key; [ValueError] on an empty sequence. *)
Definition keep_max {A} (key : A -> Q) (best y : A) : A :=
  if Qlt_bool (key best) (key y) then y else best.

Definition keep_min {A} (key : A -> Q) (best y : A) : A :=
  if Qlt_bool (key y) (key best) then y else best.

Definition max_by {A} (key : A -> Q) (l : list A) : result A :=
  match l with
  | [] => Raise ValueError
  | x :: xs => Ok (fold_left (keep_max key) xs x)
  end.

Definition min_by {A} (key : A -> Q) (l : list A) : result A :=
  match l with
  | [] => Raise ValueError
  | x :: xs => Ok (fold_left (keep_min key) xs x)
  end.

(** [enumerate(l)] and [range(n)] *)
Fixpoint enumerate_from {A} (i : Z) (l : list A) : list (Z * A) :=
  match l with
  | [] => []
  | x :: xs => (i, x) :: enumerate_from (i + 1)%Z xs
  end.

Definition enumerate {A} (l : list A) : list (Z * A) := enumerate_from 0%Z l.

Definition range (n : nat) : list Z := map Z.of_nat (seq 0 n).

(** [l[i]] for an index that is in range; [d] stands for the [IndexError]
    that no call of this development reaches. *)
Definition index {A} (d : A) (l : list A) (i : Z) : A := nth (Z.to_nat i) l d.

(** [int(x)] of a float: truncation towards zero. *)
Definition int_of_float (x : Q) : Z := Z.quot (Qnum x) (Zpos (Qden x)).

(** *** Strings (ASCII) *)

Definition code (c : ascii) : nat := nat_of_ascii c.

(** [c.isspace()]: tab, the line breaks, the separators 28-31 and the space. *)
Definition is_space (c : ascii) : bool :=
  let n := code c in
  ((9 <=? n) && (n <=? 13) || (28 <=? n) && (n <=? 31) || (n =? 32))%nat.

(** The line boundaries of [str.splitlines]. *)
Definition is_linebreak (c : ascii) : bool :=
  let n := code c in
  ((10 <=? n) && (n <=? 13) || (28 <=? n) && (n <=? 30))%nat.

Fixpoint lstrip (s : string) : string :=
  match s with
  | EmptyString => EmptyString
  | String c s' => if is_space c then lstrip s' else s
  end.

Fixpoint rstrip (s : string) : string :=
  match s with
  | EmptyString => EmptyString
  | String c s' =>
      match rstrip s' with
      | EmptyString => if is_space c then EmptyString else String c EmptyString
      | t => String c t
      end
  end.

(** [s.strip()] *)
Definition strip (s : string) : string := rstrip (lstrip s).

(** [s.splitlines()]: a carriage return followed by a line feed is one
    boundary, and a final boundary opens no line. *)
Fixpoint splitlines (s : string) : list string :=
  match s with
  | EmptyString => []
  | String c rest =>
      if is_linebreak c then
        match rest with
        | String c' rest' =>
            if ((code c =? 13) && (code c' =? 10))%nat
            then EmptyString :: splitlines rest'
            else EmptyString :: splitlines rest
        | EmptyString => [EmptyString]
        end
      else
        match splitlines rest with
        | [] => [String c EmptyString]
        | line :: lines => String c line :: lines
        end
  end.

(** [sep in s] for a one-character [sep], and [s.split(sep, 1)] when it is. *)
Fixpoint has_char (sep : ascii) (s : string) : bool :=
  match s with
  | EmptyString => false
  | String c s' => Ascii.eqb c sep || has_char sep s'
  end.

Fixpoint split_once (sep : ascii) (s : string) : string * string :=
  match s with
  | EmptyString => (EmptyString, EmptyString)
  | String c s' =>
      if Ascii.eqb c sep then (EmptyString, s')
      else let '(k, v) := split_once sep s' in (String c k, v)
  end.

(** [s.lower()] *)
Definition lower_char (c : ascii) : ascii :=
  let n := code c in
  if ((65 <=? n) && (n <=? 90))%nat then ascii_of_nat (n + 32) else c.

Fixpoint lower (s : string) : string :=
  match s with
  | EmptyString => EmptyString
  | String c s' => String (lower_char c) (lower s')
  end.

(** [s.replace(old, new)] for a non-empty [old]: the occurrences are
    replaced from the left and do not overlap. *)
Fixpoint replace_fuel (fuel : nat) (old new s : string) : string :=
  match fuel with
  | O => s
  | S fuel' =>
      match s with
      | EmptyString => EmptyString
      | String c s' =>
          if String.prefix old s
          then new +:+ replace_fuel fuel' old new (String.substring (String.length old) (String.length s) s)
          else String c (replace_fuel fuel' old new s')
      end
  end.

Definition replace (old new s : string) : string :=
  replace_fuel (String.length s) old new s.

(** [int(s)] of a string: surrounding whitespace, an optional sign, then
    decimal digits that single underscores may separate. *)
Definition is_digit (c : ascii) : bool := ((48 <=? code c) && (code c <=? 57))%nat.

Fixpoint digits_value (s : string) (acc : Z) (after_digit : bool) : option Z :=
  match s with
  | EmptyString => if after_digit then Some acc else None
  | String c s' =>
      if is_digit c then digits_value s' (10 * acc + Z.of_nat (code c - 48))%Z true
      else if ((code c =? 95)%nat && after_digit) then digits_value s' acc false
      else None
  end.

Definition int_of_str (s : string) : result Z :=
  let value :=
    match strip s with
    | String c s' =>
        if (code c =? 45)%nat then Z.opp <$> digits_value s' 0%Z false
        else if (code c =? 43)%nat then digits_value s' 0%Z false
        else digits_value (String c s') 0%Z false
    | EmptyString => None
    end in
  match value with
  | Some n => Ok n
  | None => Raise ValueError
  end.

(** [int(v)] *)
Definition int (v : pyval) : result Z :=
  match v with
  | VNone => Raise TypeError
  | VBool b => Ok (if b then 1 else 0)%Z
  | VInt n => Ok n
  | VFloat x => Ok (int_of_float x)
  | VStr s => int_of_str s
  end.

(** [bool(d)] of a dictionary: false when it is empty. *)
Definition dict_truthy {V} (d : gmap string V) : bool := negb (size d =? 0)%nat.

(** *** Text of numbers *)

(** [str(n)] of an integer. *)
Definition str_of_int (n : Z) : string := NilZero.string_of_int (Z.to_int n).

(** [s * n] *)
Definition repeat_str (s : string) (n : nat) : string := String.concat "" (repeat s n).

(** The nearest integer, a tie going to the even one. *)
Definition round_half_even (x : Q) : Z :=
  let n := Qnum x in
  let d := Zpos (Qden x) in
  let below := (n / d)%Z in
  match (2 * (n mod d) ?= d)%Z with
  | Lt => below
  | Gt => (below + 1)%Z
  | Eq => if Z.even below then below else (below + 1)%Z
  end.

(** The text of [units / 10 ^ digits] with [digits] decimals, [digits > 0]. *)
Definition fixed_text (digits : nat) (negative : bool) (units : Z) : string :=
  let scale := (10 ^ Z.of_nat digits)%Z in
  let decimals := str_of_int (units mod scale) in
  (if negative then "-" else "") +:+ str_of_int (units / scale) +:+ "." +:+
  repeat_str "0" (digits - String.length decimals) +:+ decimals.

(** [f"{x:.2f}"] and the like, for a positive number of decimals: the
    decimal nearest to [x], a tie going to the even last digit. *)
Definition format_fixed (digits : nat) (x : Q) : string :=
  fixed_text digits (Qlt_bool x 0)
    (round_half_even (Qabs x * inject_Z (10 ^ Z.of_nat digits))).

(** The format [.Nf] on a value: text has no such format, [None] has no
    format at all. *)
Definition format_f (digits : nat) (v : pyval) : result string :=
  match v with
  | VStr _ => Raise ValueError
  | VNone => Raise TypeError
  | _ => x ← num v; Ok (format_fixed digits x)
  end.

(** [str(v)], which is also [f"{v}"].  The text of a float (the shortest
    decimal that reads back as the same binary64 number) is outside the
    model and is the parameter [repr_float]. *)
Definition str (repr_float : Q -> string) (v : pyval) : string :=
  match v with
  | VNone => "None"
  | VBool b => if b then "True" else "False"
  | VInt n => str_of_int n
  | VFloat x => repr_float x
  | VStr s => s
  end.

(** [os.path.basename(p)] of [posixpath]: what follows the last slash. *)
Fixpoint basename (p : string) : string :=
  match p with
  | EmptyString => EmptyString
  | String c p' =>
      if has_char "/" p' then basename p'
      else if Ascii.eqb c "/" then p' else p
  end.

(** *** binary64

    The floats of the derived statistics. *)

Inductive float64 : Type :=
  | Finite (x : Q)
  | Infinity (negative : bool)
  | NaN.

(** [x * 2 ^ e] *)
Definition scale2 (x : Q) (e : Z) : Q :=
  match e with
  | Z0 => x
  | Zpos p => x * inject_Z (2 ^ Zpos p)
  | Zneg p => x / inject_Z (2 ^ Zpos p)
  end.

(** The binary64 number nearest to [x], a tie going to the even significand:
    53 bits, exponents from -1074 on, an infinity from 2^1024 on. *)
Definition round64 (x : Q) : float64 :=
  if Qeq_bool x 0 then Finite 0
  else
    let n := Z.abs (Qnum x) in
    let d := Zpos (Qden x) in
    let k0 := (Z.log2 n - Z.log2 d)%Z in
    let reaches :=
      if (0 <=? k0)%Z then (d * 2 ^ k0 <=? n)%Z else (d <=? n * 2 ^ (- k0))%Z in
    let k := if reaches : bool then k0 else (k0 - 1)%Z in
    let e := Z.max (k - 52) (-1074) in
    let m := round_half_even (scale2 (n # Qden x) (- e)) in
    let r := Qred (scale2 (inject_Z m) e) in
    if Qle_bool (inject_Z (2 ^ 1024)) r then Infinity (Qlt_bool x 0)
    else Finite (if Qlt_bool x 0 then - r else r).

(** The float of an [int] operand of float arithmetic. *)
Definition float64_of_int (n : Z) : result Q :=
  match round64 (inject_Z n) with
  | Finite x => Ok x
  | _ => Raise OverflowError
  end.

(** [a * b] of two floats. *)
Definition float64_mul (a b : float64) : float64 :=
  match a, b with
  | NaN, _ | _, NaN => NaN
  | Finite x, Finite y => round64 (x * y)
  | Infinity negative, Finite y | Finite y, Infinity negative =>
      if Qeq_bool y 0 then NaN else Infinity (xorb negative (Qlt_bool y 0))
  | Infinity negative, Infinity negative' => Infinity (xorb negative negative')
  end.

(** [a / b] of two integers. *)
Definition int_truediv (a b : Z) : result Q :=
  if (b =? 0)%Z then Raise ZeroDivisionError
  else
    match round64 (inject_Z a / inject_Z b) with
    | Finite x => Ok x
    | _ => Raise OverflowError
    end.

(** [int(x)] of a float of this kind. *)
Definition int_of_float64 (x : float64) : result Z :=
  match x with
  | Finite x => Ok (int_of_float x)
  | Infinity _ => Raise OverflowError
  | NaN => Raise ValueError
  end.

(** *** Printing *)

(** The texts printed, in order, and the outcome. *)
Definition printing (A : Type) : Type := list string * result A.

#[global] Instance printing_ret : MRet printing := fun A a => ([], Ok a).
#[global] Instance printing_bind : MBind printing :=
  fun A B f m =>
    match m with
    | (out, Ok a) => let '(out', r) := f a in (out ++ out', r)
    | (out, Raise e) => (out, Raise e)
    end.

(** [print(text)] *)
Definition print (text : string) : printing unit := ([text], Ok tt).

(** Code that prints nothing. *)
Definition quiet {A} (r : result A) : printing A := ([], r).

(** [try: body except Exception as e: handler e] around code that prints. *)
Definition try_printing {A} (body : printing A) (handler : exn -> printing A)
  : printing A :=
  match body with
  | (out, Ok a) => (out, Ok a)
  | (out, Raise e) => let '(out', r) := handler e in (out ++ out', r)
  end.

(** [for x in l: body x] *)
Fixpoint for_each {A} (l : list A) (body : A -> printing unit) : printing unit :=
  match l with
  | [] => mret tt
  | x :: xs => body x;; for_each xs body
  end.

End Py.
Import Py.

(** ** The world outside the interpreter

    What a probe observes: the file system, the outcome of running a command
    line, and two built-ins whose text format plays no part here: the number
    that a string denotes, which [float] rounds to binary64 (the texts of an
    infinity and of a NaN are left out: they make the [int] of the next line
    raise, inside the same [try]), and [str] on an exception.
    [getsize] is taken to succeed on a path that exists. *)

Inductive process : Type :=
  | Exited (returncode : Z) (stdout stderr : string)
  | NotInstalled
  | NotExecutable.

Record world : Type := {
  path_exists : string -> bool;
  getsize : string -> Z;
  spawn : list string -> process;
  float_of_str : string -> result Q;
  str_of_exn : exn -> string
}.

(** [subprocess.run(cmd, capture_output=True, check=True).stdout] *)
Definition subprocess_run (w : world) (cmd : list string) : result string :=
  match spawn w cmd with
  | Exited returncode stdout _ =>
      if (returncode =? 0)%Z then Ok stdout
      else Raise (CalledProcessError cmd returncode)
  | NotInstalled => Raise FileNotFoundError
  | NotExecutable => Raise PermissionError
  end.

(** ** flac_analyzer.py *)

Module flac_analyzer.

(** Lines 44-51: the [key: value] lines of the output of [flac]. *)
Definition parse_basic_info (stdout : string) (info : gmap string pyval)
  : gmap string pyval :=
  fold_left (fun (info : gmap string pyval) line =>
    let line := strip line in
    if has_char ":" line then
      let '(key, value) := split_once ":" line in
      let key := replace " " "_" (lower (strip key)) in
      let value := strip value in
      <[key := VStr value]> info
    else info) (splitlines stdout) info.

(** Lines 53-59: the four integer lines of the output of [metaflac]. *)
Definition parse_blocksize_info (stdout : string) (info : gmap string pyval)
  : result (gmap string pyval) :=
  let lines := splitlines stdout in
  if (4 <=? length lines)%nat then
    n ← int_of_str (strip (nth 0 lines ""%string));
    let info := <["min_blocksize" := VInt n]> info in
    n ← int_of_str (strip (nth 1 lines ""%string));
    let info := <["max_blocksize" := VInt n]> info in
    n ← int_of_str (strip (nth 2 lines ""%string));
    let info := <["min_framesize" := VInt n]> info in
    n ← int_of_str (strip (nth 3 lines ""%string));
    let info := <["max_framesize" := VInt n]> info in
    Ok info
  else Ok info.

(** Lines 61-74: the derived statistics. *)
Definition calculate_derived_statistics (w : world) (file_size : Z)
    (info : gmap string pyval) : result (gmap string pyval) :=
  if contains info "sample_rate" && contains info "channels"
     && contains info "bits_per_sample" then
    v ← getitem info "sample_rate"; sample_rate ← int v;
    let info := <["sample_rate" := VInt sample_rate]> info in
    v ← getitem info "channels"; channels ← int v;
    let info := <["channels" := VInt channels]> info in
    v ← getitem info "bits_per_sample"; bits_per_sample ← int v;
    let info := <["bits_per_sample" := VInt bits_per_sample]> info in
    duration ←
      match get info "duration" (VStr "0") with
      | VStr s => float_of_str w (replace " s" "" s)
      | _ => Raise AttributeError
      end;
    let duration_seconds := round64 duration in
    rate ← float64_of_int sample_rate;
    let product := float64_mul duration_seconds (Finite rate) in
    count ← float64_of_int channels;
    let product := float64_mul product (Finite count) in
    bytes_per_sample ← int_truediv bits_per_sample 8;
    let product := float64_mul product (Finite bytes_per_sample) in
    uncompressed_bytes ← int_of_float64 product;
    let info := <["uncompressed_size" := VInt uncompressed_bytes]> info in
    if (0 <? uncompressed_bytes)%Z then
      ratio ← int_truediv file_size uncompressed_bytes;
      Ok (<["compression_ratio" := VFloat ratio]> info)
    else Ok info
  else Ok info.

Definition analyze_flac_file (w : world) (flac_file : string)
  : result (option (gmap string pyval)) :=
  if negb (path_exists w flac_file) then Raise FileNotFoundError
  else
    let file_size := getsize w flac_file in
    try_except
      (flac_info ← subprocess_run w
         ["flac"; "--analyze"; "--show-format"; "--show-streaminfo"; flac_file]%string;
       metaflac_info ← subprocess_run w
         ["metaflac"; "--show-min-blocksize"; "--show-max-blocksize";
          "--show-min-framesize"; "--show-max-framesize"; flac_file]%string;
       let info : gmap string pyval := ∅ in
       let info := <["file_size" := VInt file_size]> info in
       let info := parse_basic_info flac_info info in
       info ← parse_blocksize_info metaflac_info info;
       info ← calculate_derived_statistics w file_size info;
       Ok (Some info))
      (fun e =>
         match e with
         | CalledProcessError _ _ => Ok None
         | _ => Ok None
         end).

Definition level_ranges : list (Q * Q) :=
  [ (0.70, 1.00);  (* Level 0 *)
    (0.67, 0.75);
    (0.65, 0.70);
    (0.62, 0.67);
    (0.60, 0.65);
    (0.58, 0.63);  (* Level 5 *)
    (0.56, 0.60);
    (0.54, 0.58);
    (0.50, 0.56) ].

(** Lines 140-144: how central the ratio is in a range that holds it. *)
Definition centrality (ratio min_ratio max_ratio : Q) : Q :=
  let range_size := max_ratio - min_ratio in
  if Qlt_bool 0 range_size
  then 1 - Qabs ((ratio - min_ratio) / range_size - 0.5) * 2
  else 0.

(** Lines 136-145: the levels whose range holds the ratio. *)
Definition find_matches (ratio : Q) : list (Z * Q) :=
  fold_left (fun (matches : list (Z * Q)) '(level, (min_ratio, max_ratio)) =>
    if Qle_bool min_ratio ratio && Qle_bool ratio max_ratio then
      matches ++ [(level, centrality ratio min_ratio max_ratio)]
    else matches) (enumerate level_ranges) [].

(** Line 149: the key of the search for the closest range, and the search. *)
Definition boundary_distance (ratio : Q) (l : Z) : Q :=
  min2 (Qabs (ratio - fst (index (0, 0) level_ranges l)))
       (Qabs (ratio - snd (index (0, 0) level_ranges l))).

Definition closest_level (ratio : Q) : result Z :=
  min_by (boundary_distance ratio) (range 9).

Definition estimate_compression_level (info : gmap string pyval)
  : result (option Z * Q * (string + gmap string Q)) :=
  let required_keys := ["compression_ratio"; "min_blocksize"; "max_blocksize"]%string in
  if negb (forallb (contains info) required_keys) then
    Ok (None, 0, inl "Missing required information"%string)
  else
    let metrics : gmap string Q := ∅ in
    compression_ratio ← getitem info "compression_ratio";
    ratio ← num compression_ratio;
    let metrics := <["compression_ratio" := ratio]> metrics in
    let metrics := <["ratio_score" := 1 - ratio]> metrics in
    min_blocksize ← getitem info "min_blocksize";
    max_blocksize ← getitem info "max_blocksize";
    blocksize_variability ←
      (if py_eq min_blocksize max_blocksize then Ok 0
       else py_truediv max_blocksize min_blocksize);
    let metrics := <["blocksize_variability" := blocksize_variability]> metrics in
    max_framesize ← getitem info "max_framesize";
    positive ← py_gt max_framesize (VInt 0);
    framesize_efficiency ←
      (if positive : bool then
         min_framesize ← getitem info "min_framesize";
         q ← py_truediv min_framesize max_framesize;
         Ok (1 - q)
       else Ok 0);
    let metrics := <["framesize_efficiency" := framesize_efficiency]> metrics in
    let matches := find_matches ratio in
    match matches with
    | [] =>
        closest_level ← closest_level ratio;
        let confidence := 0.5 in
        Ok (Some closest_level, confidence, inr metrics)
    | _ =>
        best_match ← max_by (fun m : Z * Q => snd m) matches;
        let '(level, confidence) := best_match in
        let confidence :=
          0.7 * confidence + 0.2 * framesize_efficiency
          + 0.1 * min2 1 blocksize_variability in
        Ok (Some level, confidence, inr metrics)
    end.

Section Printing.

Variable repr_float : Q -> string.

(** Lines 162-171. *)
Definition format_size (size_bytes : pyval) : result string :=
  small ← py_lt size_bytes (VInt 1024);
  if small : bool then Ok (str repr_float size_bytes +:+ " bytes")
  else
    small ← py_lt size_bytes (VInt (1024 * 1024));
    if small : bool then
      q ← py_truediv size_bytes (VInt 1024);
      Ok (format_fixed 2 q +:+ " KB")
    else
      small ← py_lt size_bytes (VInt (1024 * 1024 * 1024));
      if small : bool then
        q ← py_truediv size_bytes (VInt (1024 * 1024));
        Ok (format_fixed 2 q +:+ " MB")
      else
        q ← py_truediv size_bytes (VInt (1024 * 1024 * 1024));
        Ok (format_fixed 2 q +:+ " GB").

(** Line 227: [metrics.items()] goes through the keys in the order in which
    lines 97-114 insert them. *)
Definition metrics_items (metrics : gmap string Q) : list (string * Q) :=
  omap (fun key => pair key <$> metrics !! key)
    ["compression_ratio"; "ratio_score"; "blocksize_variability";
     "framesize_efficiency"]%string.

(** Lines 173-231. *)
Definition print_flac_analysis (w : world) (flac_file : string) : printing unit :=
  print (String "010" "Analyzing FLAC file: " +:+ basename flac_file);;
  print (repeat_str "-" 60);;
  try_printing
    (info ← quiet (analyze_flac_file w flac_file);
     match info with
     | None => print "Analysis failed."
     | Some info =>
     if negb (dict_truthy info) then print "Analysis failed."
     else
       let file_size := get info "file_size" (VInt 0) in
       text ← quiet (format_size file_size);
       print ("File size: " +:+ text);;
       print (String "010" "Audio Properties:");;
       (if contains info "channels" then
          v ← quiet (getitem info "channels");
          print ("  Channels: " +:+ str repr_float v)
        else mret tt);;
       (if contains info "sample_rate" then
          v ← quiet (getitem info "sample_rate");
          print ("  Sample Rate: " +:+ str repr_float v +:+ " Hz")
        else mret tt);;
       (if contains info "bits_per_sample" then
          v ← quiet (getitem info "bits_per_sample");
          print ("  Bit Depth: " +:+ str repr_float v +:+ " bits")
        else mret tt);;
       (if contains info "duration" then
          v ← quiet (getitem info "duration");
          print ("  Duration: " +:+ str repr_float v)
        else mret tt);;
       print (String "010" "FLAC Properties:");;
       (if contains info "min_blocksize" && contains info "max_blocksize" then
          lo ← quiet (getitem info "min_blocksize");
          hi ← quiet (getitem info "max_blocksize");
          print ("  Block Size: " +:+ str repr_float lo +:+ " to " +:+ str repr_float hi)
        else mret tt);;
       (if contains info "min_framesize" && contains info "max_framesize" then
          lo ← quiet (getitem info "min_framesize");
          hi ← quiet (getitem info "max_framesize");
          print ("  Frame Size: " +:+ str repr_float lo +:+ " to " +:+ str repr_float hi
                 +:+ " bytes")
        else mret tt);;
       print (String "010" "Compression Analysis:");;
       (if contains info "uncompressed_size" then
          uncompressed_size ← quiet (getitem info "uncompressed_size");
          text ← quiet (format_size uncompressed_size);
          print ("  Uncompressed Size: " +:+ text);;
          if contains info "compression_ratio" then
            ratio ← quiet (getitem info "compression_ratio");
            shown ← quiet (format_f 4 ratio);
            x ← quiet (num ratio);
            print ("  Compression Ratio: " +:+ shown +:+ " (" +:+ format_fixed 1 (x * 100)
                   +:+ "% of original)")
          else mret tt
        else mret tt);;
       '(level, confidence, metrics) ← quiet (estimate_compression_level info);
       print (String "010" "Compression Level Estimation:");;
       match level with
       | Some level =>
           let confidence_desc :=
             if Qlt_bool confidence 0.3 then "Very Low"
             else if Qlt_bool confidence 0.5 then "Low"
             else if Qlt_bool confidence 0.7 then "Medium"
             else if Qlt_bool confidence 0.9 then "High"
             else "Very High" in
           print ("  Estimated Level: " +:+ str_of_int level +:+ " (Confidence: "
                  +:+ confidence_desc +:+ ", " +:+ format_fixed 2 confidence +:+ ")");;
           print "  Note: FLAC compression level is an estimation as it's not stored in the file";;
           print (String "010" "Metrics Used for Estimation:");;
           match metrics with
           | inr metrics =>
               for_each (metrics_items metrics) (fun '(key, value) =>
                 print ("  " +:+ key +:+ ": " +:+ format_fixed 4 value))
           | inl _ => quiet (Raise AttributeError)
           end
       | None => print "  Could not estimate compression level"
       end
     end)
    (fun e => print ("Error: " +:+ str_of_exn w e)).

End Printing.

End flac_analyzer.

(** ** flac_level_detection.py *)

Module flac_level_detection.

Definition parse_basic_info (stdout : string) (info : gmap string pyval)
  : gmap string pyval :=
  fold_left (fun (info : gmap string pyval) line =>
    let line := strip line in
    if has_char ":" line then
      let '(key, value) := split_once ":" line in
      let key := replace " " "_" (lower (strip key)) in
      let value := strip value in
      <[key := VStr value]> info
    else info) (splitlines stdout) info.

Definition parse_blocksize_info (stdout : string) (info : gmap string pyval)
  : result (gmap string pyval) :=
  let lines := splitlines stdout in
  if (4 <=? length lines)%nat then
    n ← int_of_str (strip (nth 0 lines ""%string));
    let info := <["min_blocksize" := VInt n]> info in
    n ← int_of_str (strip (nth 1 lines ""%string));
    let info := <["max_blocksize" := VInt n]> info in
    n ← int_of_str (strip (nth 2 lines ""%string));
    let info := <["min_framesize" := VInt n]> info in
    n ← int_of_str (strip (nth 3 lines ""%string));
    let info := <["max_framesize" := VInt n]> info in
    Ok info
  else Ok info.

(** Lines 71-84: the derived statistics. *)
Definition calculate_derived_statistics (w : world) (file_size : Z)
    (info : gmap string pyval) : result (gmap string pyval) :=
  if contains info "sample_rate" && contains info "channels"
     && contains info "bits_per_sample" then
    v ← getitem info "sample_rate"; sample_rate ← int v;
    let info := <["sample_rate" := VInt sample_rate]> info in
    v ← getitem info "channels"; channels ← int v;
    let info := <["channels" := VInt channels]> info in
    v ← getitem info "bits_per_sample"; bits_per_sample ← int v;
    let info := <["bits_per_sample" := VInt bits_per_sample]> info in
    duration ←
      match get info "duration" (VStr "0") with
      | VStr s => float_of_str w (replace " s" "" s)
      | _ => Raise AttributeError
      end;
    let duration_seconds := round64 duration in
    rate ← float64_of_int sample_rate;
    let product := float64_mul duration_seconds (Finite rate) in
    count ← float64_of_int channels;
    let product := float64_mul product (Finite count) in
    bytes_per_sample ← int_truediv bits_per_sample 8;
    let product := float64_mul product (Finite bytes_per_sample) in
    uncompressed_bytes ← int_of_float64 product;
    let info := <["uncompressed_size" := VInt uncompressed_bytes]> info in
    if (0 <? uncompressed_bytes)%Z then
      ratio ← int_truediv file_size uncompressed_bytes;
      Ok (<["compression_ratio" := VFloat ratio]> info)
    else Ok info
  else Ok info.

Definition analyze_flac_file (w : world) (flac_file : string)
  : result (option (gmap string pyval)) :=
  if negb (path_exists w flac_file) then Ok None
  else
    let file_size := getsize w flac_file in
    try_except
      (available ←
         try_except
           (_ ← subprocess_run w ["flac"; "--version"]%string;
            _ ← subprocess_run w ["metaflac"; "--version"]%string;
            Ok true)
           (fun e =>
              match e with
              | CalledProcessError _ _ | FileNotFoundError => Ok false
              | _ => Raise e
              end);
       if negb available then
         Ok (Some (<["limited_analysis" := VBool true]>
                     (<["file_size" := VInt file_size]> ∅)))
       else
         flac_info ← subprocess_run w
           ["flac"; "--analyze"; "--show-format"; "--show-streaminfo"; flac_file]%string;
         metaflac_info ← subprocess_run w
           ["metaflac"; "--show-min-blocksize"; "--show-max-blocksize";
            "--show-min-framesize"; "--show-max-framesize"; flac_file]%string;
         let info : gmap string pyval := ∅ in
         let info := <["file_size" := VInt file_size]> info in
         let info := parse_basic_info flac_info info in
         info ← parse_blocksize_info metaflac_info info;
         info ← calculate_derived_statistics w file_size info;
         Ok (Some info))
      (fun e =>
         match e with
         | CalledProcessError _ _ =>
             Ok (Some (<["limited_analysis" := VBool true]>
                         (<["error" := VStr (str_of_exn w e)]>
                            (<["file_size" := VInt file_size]> ∅))))
         | _ => Ok None
         end).

Definition estimate_level_from_file_size (info : gmap string pyval) : Z * Q :=
  (5%Z, 0.1).

Definition level_ranges : list (Q * Q) :=
  [ (0.70, 1.00);  (* Level 0 *)
    (0.67, 0.75);
    (0.65, 0.70);
    (0.62, 0.67);
    (0.60, 0.65);
    (0.58, 0.63);  (* Level 5 *)
    (0.56, 0.60);
    (0.54, 0.58);
    (0.50, 0.56) ].

(** Lines 140-144. *)
Definition centrality (ratio min_ratio max_ratio : Q) : Q :=
  let range_size := max_ratio - min_ratio in
  if Qlt_bool 0 range_size
  then 1 - Qabs ((ratio - min_ratio) / range_size - 0.5) * 2
  else 0.

(** Lines 136-145. *)
Definition find_matches (ratio : Q) : list (Z * Q) :=
  fold_left (fun (matches : list (Z * Q)) '(level, (min_ratio, max_ratio)) =>
    if Qle_bool min_ratio ratio && Qle_bool ratio max_ratio then
      matches ++ [(level, centrality ratio min_ratio max_ratio)]
    else matches) (enumerate level_ranges) [].

(** Line 149. *)
Definition boundary_distance (ratio : Q) (l : Z) : Q :=
  min2 (Qabs (ratio - fst (index (0, 0) level_ranges l)))
       (Qabs (ratio - snd (index (0, 0) level_ranges l))).

Definition closest_level (ratio : Q) : result Z :=
  min_by (boundary_distance ratio) (range 9).

Definition estimate_compression_level (info : gmap string pyval) : result (Z * Q) :=
  if truthy (get info "limited_analysis" (VBool false)) then
    Ok (estimate_level_from_file_size info)
  else
    let required_keys := ["compression_ratio"; "min_blocksize"; "max_blocksize"]%string in
    if negb (forallb (contains info) required_keys) then Ok (5%Z, 0.1)
    else
      compression_ratio ← getitem info "compression_ratio";
      ratio ← num compression_ratio;
      let matches := find_matches ratio in
      match matches with
      | [] =>
          closest_level ← closest_level ratio;
          let confidence := 0.5 in
          Ok (closest_level, confidence)
      | _ =>
          best_match ← max_by (fun m : Z * Q => snd m) matches;
          let '(level, confidence) := best_match in
          min_blocksize ← getitem info "min_blocksize";
          max_blocksize ← getitem info "max_blocksize";
          let confidence :=
            if py_eq min_blocksize max_blocksize then
              if (level <=? 2)%Z then min2 (confidence * 1.2) 1.0
              else confidence * 0.8
            else
              if (3 <=? level)%Z then min2 (confidence * 1.2) 1.0
              else confidence * 0.8 in
          Ok (level, confidence)
      end.

Definition default_threshold : pyval := VFloat 0.7.

Definition get_flac_compression_level (w : world) (flac_file : string)
    (threshold : pyval) : result Z :=
  try_except
    (info ← analyze_flac_file w flac_file;
     match info with
     | None => Ok 5%Z
     | Some info =>
         if negb (dict_truthy info) then Ok 5%Z
         else
           '(level, confidence) ← estimate_compression_level info;
           low ← py_lt (VFloat confidence) threshold;
           if low : bool then Ok 5%Z else Ok level
     end)
    (fun _ => Ok 5%Z).

End flac_level_detection.

(** ** Vocabulary of the statements and sample inputs *)

Import flac_analyzer.

(** One range contributes at most one match. *)
Definition hit (ratio : Q) (item : Z * (Q * Q)) : list (Z * Q) :=
  let '(level, (min_ratio, max_ratio)) := item in
  if Qle_bool min_ratio ratio && Qle_bool ratio max_ratio
  then [(level, centrality ratio min_ratio max_ratio)] else [].

(** [info[key]] is present and is the number [x]. *)
Definition numeric (info : gmap string pyval) (key : string) (x : Q) : Prop :=
  exists v, info !! key = Some v /\ as_num v = Some x.

(** The [metrics] dictionary of [flac_analyzer]. *)
Definition metrics_of (ratio bv fe : Q) : gmap string Q :=
  <["framesize_efficiency"%string := fe]>
    (<["blocksize_variability"%string := bv]>
       (<["ratio_score"%string := 1 - ratio]>
          (<["compression_ratio"%string := ratio]> ∅))).

(** A [float] for plain decimal strings, enough to run the samples. *)
Definition float_of_decimal (s : string) : result Q :=
  let '(int_part, frac_part) := split_once "." (strip s) in
  match digits_value (int_part +:+ frac_part) 0%Z false with
  | Some n => Ok (inject_Z n / inject_Z (10 ^ Z.of_nat (String.length frac_part)))
  | None => Raise ValueError
  end.

(** A world with one file of 1000 bytes, [track.flac], in which every command
    line has the outcome [tools]. *)
Definition sample_world (tools : list string -> process) : world :=
  {| path_exists := fun path => String.eqb path "track.flac";
     getsize := fun _ => 1000%Z;
     spawn := tools;
     float_of_str := float_of_decimal;
     str_of_exn := fun _ => "Command returned non-zero exit status."%string |}.

(** The metrics of the scenario: ratio 0.59, block sizes 4096 and 4096, frame
    sizes 10 and 20. *)
Definition scenario : gmap string pyval :=
  {[ "compression_ratio"%string := VFloat 0.59;
     "min_blocksize"%string := VInt 4096; "max_blocksize"%string := VInt 4096;
     "min_framesize"%string := VInt 10; "max_framesize"%string := VInt 20 ]}.

(** Command lines with no tool behind them. *)
Definition no_tools (cmd : list string) : process := NotInstalled.

(** Metrics whose minimum frame size exceeds the maximum. *)
Definition inverted_frames : gmap string pyval :=
  {[ "compression_ratio"%string := VFloat 0.59;
     "min_blocksize"%string := VInt 4096; "max_blocksize"%string := VInt 4096;
     "min_framesize"%string := VInt 1000; "max_framesize"%string := VInt 10 ]}.

(** Metrics with the three required keys and no frame sizes. *)
Definition no_framesizes : gmap string pyval :=
  {[ "compression_ratio"%string := VFloat 0.59;
     "min_blocksize"%string := VInt 4096; "max_blocksize"%string := VInt 4096 ]}.

(** The command lines of the probes. *)
Definition version_cmd (tool : string) : list string := [tool; "--version"%string].

Definition analyze_cmd (flac_file : string) : list string :=
  ["flac"; "--analyze"; "--show-format"; "--show-streaminfo"; flac_file]%string.

Definition show_cmd (flac_file : string) : list string :=
  ["metaflac"; "--show-min-blocksize"; "--show-max-blocksize";
   "--show-min-framesize"; "--show-max-framesize"; flac_file]%string.

(** The command runs and exits with status 0. *)
Definition succeeds (w : world) (cmd : list string) : Prop :=
  exists stdout stderr, spawn w cmd = Exited 0 stdout stderr.

(** The command runs and exits with another status. *)
Definition fails (w : world) (cmd : list string) : Prop :=
  exists returncode stdout stderr,
    spawn w cmd = Exited returncode stdout stderr /\ returncode <> 0%Z.

(** The limited-analysis dictionaries of [flac_level_detection]. *)
Definition limited_info (file_size : Z) : gmap string pyval :=
  <["limited_analysis"%string := VBool true]>
    (<["file_size"%string := VInt file_size]> ∅).

Definition limited_info_error (file_size : Z) (message : string) : gmap string pyval :=
  <["limited_analysis"%string := VBool true]>
    (<["error"%string := VStr message]>
       (<["file_size"%string := VInt file_size]> ∅)).

(** Tools that run: [flac] reports the stream with the lines of [streaminfo],
    [metaflac] the four sizes. *)
Definition sample_tools (streaminfo : string) (cmd : list string) : process :=
  match cmd with
  | tool :: arg :: _ =>
      if String.eqb arg "--version" then Exited 0 "1.4.3" ""
      else if String.eqb tool "flac" then Exited 0 streaminfo ""
      else Exited 0 "4096
4096
14
14000
" ""
  | _ => NotInstalled
  end.

(** A report of [flac] that has no duration line, and one that has it. *)
Definition report_without_duration : string :=
  "Sample Rate: 44100
Channels: 2
Bits per sample: 16
".

Definition report_with_duration : string :=
  "Sample Rate: 100
Channels: 2
Bits per sample: 16
Duration: 12.5 s
".

(** [float(info.get('duration', '0').replace(' s', ''))] *)
Definition duration_seconds (w : world) (info : gmap string pyval) : result float64 :=
  duration ←
    match get info "duration" (VStr "0") with
    | VStr s => float_of_str w (replace " s" "" s)
    | _ => Raise AttributeError
    end;
  Ok (round64 duration).

(** Line 69: the product
    [duration_seconds * sample_rate * channels * (bits_per_sample / 8)]. *)
Definition float_product (duration_seconds : float64)
    (sample_rate channels bits_per_sample : Z) : result float64 :=
  rate ← float64_of_int sample_rate;
  let product := float64_mul duration_seconds (Finite rate) in
  count ← float64_of_int channels;
  let product := float64_mul product (Finite count) in
  bytes_per_sample ← int_truediv bits_per_sample 8;
  Ok (float64_mul product (Finite bytes_per_sample)).

(** What both probes return for a stream reported without its duration. *)
Definition probed_without_duration : gmap string pyval :=
  {[ "file_size"%string := VInt 1000;
     "sample_rate"%string := VInt 44100; "channels"%string := VInt 2;
     "bits_per_sample"%string := VInt 16;
     "min_blocksize"%string := VInt 4096; "max_blocksize"%string := VInt 4096;
     "min_framesize"%string := VInt 14; "max_framesize"%string := VInt 14000;
     "uncompressed_size"%string := VInt 0 ]}.

(** A stream as the report of [flac] gives it, before the derivation. *)
Definition parsed_stream : gmap string pyval :=
  {[ "sample_rate"%string := VStr "100"; "channels"%string := VStr "2";
     "bits_per_sample"%string := VStr "16"; "duration"%string := VStr "12.5 s" ]}.

(** Lines 147-155 of both files, without the confidence. *)
Definition select_level (ratio : Q) : result Z :=
  match find_matches ratio with
  | [] => closest_level ratio
  | ms => best ← max_by (fun m : Z * Q => snd m) ms; Ok (fst best)
  end.

(** Metrics with a ratio below every range. *)
Definition low_ratio : gmap string pyval :=
  {[ "compression_ratio"%string := VFloat 0.45;
     "min_blocksize"%string := VInt 4096; "max_blocksize"%string := VInt 4096;
     "min_framesize"%string := VInt 10; "max_framesize"%string := VInt 20 ]}.

(** Metrics with a minimum block size of zero. *)
Definition zero_min_blocksize : gmap string pyval :=
  {[ "compression_ratio"%string := VFloat 0.59;
     "min_blocksize"%string := VInt 0; "max_blocksize"%string := VInt 4096;
     "min_framesize"%string := VInt 10; "max_framesize"%string := VInt 20 ]}.

(** Metrics on which neither estimator raises: the analysis is not limited,
    the five metrics are numbers, and the minimum block size is not a zero
    that differs from the maximum. *)
Definition numeric_metrics (info : gmap string pyval) (ratio : Q) : Prop :=
  truthy (get info "limited_analysis" (VBool false)) = false /\
  numeric info "compression_ratio" ratio /\
  exists min_b max_b min_f max_f,
    numeric info "min_blocksize" min_b /\ numeric info "max_blocksize" max_b /\
    numeric info "min_framesize" min_f /\ numeric info "max_framesize" max_f /\
    (min_b == max_b \/ ~ min_b == 0).

(** Both estimators return the level [l]. *)
Definition both_estimate (info : gmap string pyval) (l : Z) : Prop :=
  (exists c, flac_level_detection.estimate_compression_level info = Ok (l, c)) /\
  (exists c m, flac_analyzer.estimate_compression_level info = Ok (Some l, c, inr m)).

(** The level as a step function of the ratio. *)
Definition threshold_level (ratio : Q) : Z :=
  if Qlt_bool ratio (137 # 250) then 8
  else if Qlt_bool ratio (57 # 100) then 7
  else if Qlt_bool ratio (133 # 225) then 6
  else if Qlt_bool ratio (123 # 200) then 5
  else if Qlt_bool ratio (127 # 200) then 4
  else if Qlt_bool ratio (33 # 50) then 3
  else if Qlt_bool ratio (179 # 260) then 2
  else if Qlt_bool ratio (281 # 380) then 1
  else 0.

(** The body of both probes once the two analysis runs have succeeded: the
    dictionary built from the output of [flac] and of [metaflac]. *)
Definition parse_outputs (w : world) (file_size : Z)
    (flac_stdout metaflac_stdout : string) : result (gmap string pyval) :=
  let info : gmap string pyval := ∅ in
  let info := <["file_size"%string := VInt file_size]> info in
  let info := parse_basic_info flac_stdout info in
  info ← parse_blocksize_info metaflac_stdout info;
  calculate_derived_statistics w file_size info.

(** [float] raises nothing but [ValueError]. *)
Definition float_raises_ValueError (w : world) : Prop :=
  forall s e, float_of_str w s = Raise e -> e = ValueError.

(** What both probes return for the stream of [report_with_duration]. *)
Definition probed_with_duration : gmap string pyval :=
  {[ "file_size"%string := VInt 1000;
     "sample_rate"%string := VInt 100; "channels"%string := VInt 2;
     "bits_per_sample"%string := VInt 16; "duration"%string := VStr "12.5 s";
     "min_blocksize"%string := VInt 4096; "max_blocksize"%string := VInt 4096;
     "min_framesize"%string := VInt 14; "max_framesize"%string := VInt 14000;
     "uncompressed_size"%string := VInt 5000;
     "compression_ratio"%string := VFloat (3602879701896397 # 18014398509481984) ]}.

(** The four keys that the probes take from [metaflac]. *)
Definition size_keys : list string :=
  ["min_blocksize"; "max_blocksize"; "min_framesize"; "max_framesize"]%string.

(** Lines 46-50 of [flac_analyzer.py]: the key and the value that one line of
    the output of [flac] gives, if it has a colon. *)
Definition line_entry (line : string) : option (string * string) :=
  let line := strip line in
  if has_char ":" line then
    let '(key, value) := split_once ":" line in
    Some (replace " " "_" (lower (strip key)), strip value)
  else None.

(** The line gives no entry for [key]. *)
Definition silent_on (key : string) (line : string) : Prop :=
  forall value, line_entry line <> Some (key, value).

(** A key with no space and no ASCII capital letter. *)
Definition normal_key (key : string) : Prop :=
  forall c, In c (list_ascii_of_string key) ->
    c <> " "%char /\ ~ (65 <= code c <= 90)%nat.

(** [format_size] shows the [n] bytes as [h] hundredths of the unit of
    [bytes] bytes, and [h] is nearest to the exact quotient. *)
Definition shown_in (repr_float : Q -> string) (n : Z) (unit : string) (bytes : Z)
    (h : Z) : Prop :=
  format_size repr_float (VInt n) = Ok (fixed_text 2 false h +:+ " " +:+ unit) /\
  Qabs (inject_Z h / 100 - inject_Z n / inject_Z bytes) <= 1 # 200.

(** The two lines that open every report of [print_flac_analysis]. *)
Definition report_head (flac_file : string) : list string :=
  [String "010" "Analyzing FLAC file: " +:+ basename flac_file; repeat_str "-" 60].

(** The sizes and the ratio are numbers, where the dictionary has them. *)
Definition numbers_where_present (info : gmap string pyval) : Prop :=
  forall key v,
    In key ["file_size"; "uncompressed_size"; "compression_ratio"]%string ->
    info !! key = Some v -> is_Some (as_num v).

Definition estimation_heading : string := String "010" "Compression Level Estimation:".

Definition not_heading (line : string) : Prop := line <> estimation_heading.

(** Line 219 of [flac_analyzer.py]: the word for a confidence, and the five
    words. *)
Definition confidence_word (confidence : Q) : string :=
  if Qlt_bool confidence 0.3 then "Very Low"
  else if Qlt_bool confidence 0.5 then "Low"
  else if Qlt_bool confidence 0.7 then "Medium"
  else if Qlt_bool confidence 0.9 then "High"
  else "Very High".

Definition confidence_words : list string :=
  ["Very Low"; "Low"; "Medium"; "High"; "Very High"]%string.

(** The keys of [metrics], in the order in which lines 97-114 insert them. *)
Definition metric_keys : list string :=
  ["compression_ratio"; "ratio_score"; "blocksize_variability";
   "framesize_efficiency"]%string.

(** Lines 217-228: what the report says of a level: the heading, the level
    with the word and the two decimals of its confidence, the note, and a
    line for each metric with its four decimals. *)
Definition level_lines (level : Z) (word decimals : string) (values : list string)
  : list string :=
  [ estimation_heading;
    "  Estimated Level: " +:+ str_of_int level +:+ " (Confidence: "
      +:+ word +:+ ", " +:+ decimals +:+ ")";
    "  Note: FLAC compression level is an estimation as it's not stored in the file";
    String "010" "Metrics Used for Estimation:" ] ++
  zip_with (fun key value => "  " +:+ key +:+ ": " +:+ value) metric_keys values.

(** A number well within the range of binary64: the code makes a float of
    it, and divides an integer by another, without an [OverflowError]. *)
Definition float_range (x : Q) : Prop := Qabs x <= inject_Z (2 ^ 1023).

(** Every number of the dictionary is within that range. *)
Definition in_float_range (info : gmap string pyval) : Prop :=
  forall key x, numeric info key x -> float_range x.

(** The ratios at which the centralities of two levels tie, and the distance
    that keeps a ratio clear of them: nearer to a tie the rounding of the two
    centralities in binary64 decides which of the two levels is returned. *)
Definition level_steps : list Q :=
  [137 # 250; 57 # 100; 133 # 225; 123 # 200; 127 # 200; 33 # 50; 179 # 260; 281 # 380].

Definition step_margin : Q := 1 # 1000000000.

Definition clear_of_steps (ratio : Q) : Prop :=
  0 <= ratio /\
  Forall (fun step => step_margin <= Qabs (ratio - step)) level_steps.

(** ** Order on [Q] as the code tests it *)

Lemma Qlt_bool_iff (x y : Q) : Qlt_bool x y = true <-> x < y.
Proof.
  unfold Qlt_bool. rewrite negb_true_iff, <- not_true_iff_false, Qle_bool_iff.
  split; [apply Qnot_le_lt | apply Qlt_not_le].
Qed.

Lemma Qlt_bool_false (x y : Q) : Qlt_bool x y = false <-> y <= x.
Proof.
  unfold Qlt_bool. rewrite negb_false_iff. apply Qle_bool_iff.
Qed.

Lemma min2_le_l (a b : Q) : min2 a b <= a.
Proof.
  unfold min2. destruct (Qlt_bool b a) eqn:E.
  - apply Qlt_bool_iff in E. lra.
  - lra.
Qed.

Lemma min2_le_r (a b : Q) : min2 a b <= b.
Proof.
  unfold min2. destruct (Qlt_bool b a) eqn:E.
  - lra.
  - apply Qlt_bool_false in E. lra.
Qed.

Lemma min2_glb (a b c : Q) : c <= a -> c <= b -> c <= min2 a b.
Proof. intros Ha Hb. unfold min2. destruct (Qlt_bool b a); assumption. Qed.

(** ** [min] and [max] with a key *)

Section Selection.
Context {A : Type} (key : A -> Q).

Lemma fold_min_spec (xs : list A) (x : A) :
  let r := fold_left (keep_min key) xs x in
  In r (x :: xs) /\ forall y, In y (x :: xs) -> key r <= key y.
Proof.
  revert x. induction xs as [|z xs IH]; intros x; cbn.
  - split; [now left |]. intros y [<- | []]. lra.
  - specialize (IH (keep_min key x z)). cbn in IH. destruct IH as [Hin Hle].
    assert (Hk : key (keep_min key x z) <= key x /\ key (keep_min key x z) <= key z).
    { unfold keep_min. destruct (Qlt_bool (key z) (key x)) eqn:E.
      - apply Qlt_bool_iff in E. lra.
      - apply Qlt_bool_false in E. lra. }
    split.
    + destruct Hin as [Hin | Hin]; [| now right; right].
      rewrite <- Hin. unfold keep_min.
      destruct (Qlt_bool (key z) (key x)); [right; now left | now left].
    + intros y [<- | [<- | Hy]].
      * specialize (Hle _ (or_introl eq_refl)). lra.
      * specialize (Hle _ (or_introl eq_refl)). lra.
      * apply Hle. now right.
Qed.

Lemma fold_max_spec (xs : list A) (x : A) :
  let r := fold_left (keep_max key) xs x in
  In r (x :: xs) /\ forall y, In y (x :: xs) -> key y <= key r.
Proof.
  revert x. induction xs as [|z xs IH]; intros x; cbn.
  - split; [now left |]. intros y [<- | []]. lra.
  - specialize (IH (keep_max key x z)). cbn in IH. destruct IH as [Hin Hle].
    assert (Hk : key x <= key (keep_max key x z) /\ key z <= key (keep_max key x z)).
    { unfold keep_max. destruct (Qlt_bool (key x) (key z)) eqn:E.
      - apply Qlt_bool_iff in E. lra.
      - apply Qlt_bool_false in E. lra. }
    split.
    + destruct Hin as [Hin | Hin]; [| now right; right].
      rewrite <- Hin. unfold keep_max.
      destruct (Qlt_bool (key x) (key z)); [right; now left | now left].
    + intros y [<- | [<- | Hy]].
      * specialize (Hle _ (or_introl eq_refl)). lra.
      * specialize (Hle _ (or_introl eq_refl)). lra.
      * apply Hle. now right.
Qed.

(** [min(l, key=key)] returns an element of [l] with the least key. *)
Lemma min_by_spec (l : list A) :
  l <> [] ->
  exists r, min_by key l = Ok r /\ In r l /\ forall y, In y l -> key r <= key y.
Proof.
  destruct l as [|x xs]; [congruence | intros _].
  eexists. split; [reflexivity |]. apply fold_min_spec.
Qed.

(** [max(l, key=key)] returns an element of [l] with the greatest key. *)
Lemma max_by_spec (l : list A) :
  l <> [] ->
  exists r, max_by key l = Ok r /\ In r l /\ forall y, In y l -> key y <= key r.
Proof.
  destruct l as [|x xs]; [congruence | intros _].
  eexists. split; [reflexivity |]. apply fold_max_spec.
Qed.

(** Ties go to the element seen first: a later element replaces the
    current best only when its key is strictly larger. *)
Lemma max_by_first (x : A) (xs : list A) :
  (forall y, In y xs -> key y <= key x) -> max_by key (x :: xs) = Ok x.
Proof.
  intros H. cbn. f_equal. induction xs as [|z xs IH]; cbn; [reflexivity |].
  assert (E : keep_max key x z = x).
  { unfold keep_max.
    now rewrite (proj2 (Qlt_bool_false (key x) (key z)) (H z (or_introl eq_refl))). }
  rewrite E. apply IH. intros y Hy. apply H. now right.
Qed.

End Selection.

(** ** The two copies of the level search

    Both files carry the same table and the same search; the lemmas below are
    stated on the copy of [flac_analyzer] and carried over. *)

Lemma find_matches_same (ratio : Q) :
  flac_level_detection.find_matches ratio = flac_analyzer.find_matches ratio.
Proof. reflexivity. Qed.

Lemma closest_level_same (ratio : Q) :
  flac_level_detection.closest_level ratio = flac_analyzer.closest_level ratio.
Proof. reflexivity. Qed.

Lemma find_matches_flat_map (ratio : Q) :
  find_matches ratio = flat_map (hit ratio) (enumerate level_ranges).
Proof.
  unfold find_matches.
  enough (G : forall items acc,
    fold_left (fun (matches : list (Z * Q)) '(level, (min_ratio, max_ratio)) =>
      if Qle_bool min_ratio ratio && Qle_bool ratio max_ratio
      then matches ++ [(level, centrality ratio min_ratio max_ratio)]
      else matches) items acc = acc ++ flat_map (hit ratio) items)
    by apply (G _ []).
  induction items as [|[level [lo hi]] items IH]; intros acc; cbn.
  - now rewrite app_nil_r.
  - rewrite IH. destruct (Qle_bool lo ratio && Qle_bool ratio hi); cbn.
    + now rewrite <- app_assoc.
    + reflexivity.
Qed.

Lemma centrality_bounds (ratio lo hi : Q) :
  lo <= ratio <= hi -> 0 <= centrality ratio lo hi <= 1.
Proof.
  intros [Hlo Hhi]. unfold centrality.
  destruct (Qlt_bool 0 (hi - lo)) eqn:E; [| lra].
  apply Qlt_bool_iff in E.
  assert (H0 : 0 <= (ratio - lo) / (hi - lo)).
  { apply Qle_shift_div_l; [exact E | lra]. }
  assert (H1 : (ratio - lo) / (hi - lo) <= 1).
  { apply Qle_shift_div_r; [exact E | lra]. }
  assert (Ha : Qabs ((ratio - lo) / (hi - lo) - 0.5) <= 0.5).
  { apply Qabs_Qle_condition. lra. }
  pose proof (Qabs_nonneg ((ratio - lo) / (hi - lo) - 0.5)). lra.
Qed.

(** Every match is one of the nine levels, and its centrality is in [0,1]. *)
Lemma find_matches_In (ratio : Q) (level : Z) (c : Q) :
  In (level, c) (find_matches ratio) ->
  (0 <= level <= 8)%Z /\ 0 <= c <= 1.
Proof.
  rewrite find_matches_flat_map. intros H.
  apply in_flat_map in H. destruct H as [[l [lo hi]] [Hitem Hhit]].
  unfold hit in Hhit.
  destruct (Qle_bool lo ratio && Qle_bool ratio hi) eqn:E; [| contradiction].
  destruct Hhit as [Heq | []]. injection Heq as <- <-.
  apply andb_true_iff in E. destruct E as [E1 E2].
  apply Qle_bool_iff in E1, E2.
  split; [| now apply centrality_bounds].
  cbn in Hitem.
  repeat (destruct Hitem as [Hitem | Hitem]; [injection Hitem as <- _ _; lia |]).
  contradiction.
Qed.

(** The closest level is one of the nine, and no level is closer. *)
Lemma closest_level_spec (ratio : Q) :
  exists l, closest_level ratio = Ok l /\ (0 <= l <= 8)%Z /\
    forall l', (0 <= l' <= 8)%Z ->
      boundary_distance ratio l <= boundary_distance ratio l'.
Proof.
  destruct (min_by_spec (boundary_distance ratio) (range 9)) as (l & Hl & Hin & Hmin);
    [discriminate |].
  exists l. split; [exact Hl |]. split.
  - cbn in Hin. repeat (destruct Hin as [<- | Hin]; [lia |]). contradiction.
  - intros l' Hl'. apply Hmin.
    assert (E : l' = Z.of_nat (Z.to_nat l')) by lia. rewrite E.
    apply in_map, in_seq. lia.
Qed.

Ltac run_binds := cbn [mbind result_bind mret result_ret].

(** ** Levels and confidences of [flac_level_detection] *)

Lemma detection_estimate_bounds (info : gmap string pyval) (level : Z) (c : Q) :
  flac_level_detection.estimate_compression_level info = Ok (level, c) ->
  (0 <= level <= 8)%Z /\ 0 <= c <= 1.
Proof.
  unfold flac_level_detection.estimate_compression_level.
  destruct (truthy _).
  { intros [= <- <-]. split; [lia | lra]. }
  destruct (negb _).
  { intros [= <- <-]. split; [lia | lra]. }
  destruct (getitem info "compression_ratio") as [v|]; run_binds; [| discriminate].
  destruct (num v) as [ratio|]; run_binds; [| discriminate].
  rewrite find_matches_same, closest_level_same.
  destruct (find_matches ratio) as [|m ms] eqn:Hm.
  - destruct (closest_level_spec ratio) as (l & -> & Hl & _). run_binds.
    intros [= <- <-]. split; [exact Hl | lra].
  - destruct (max_by_spec (fun m : Z * Q => snd m) (m :: ms)) as ([l c0] & -> & Hin & _);
      [discriminate |].
    run_binds. rewrite <- Hm in Hin. apply find_matches_In in Hin.
    destruct Hin as [Hl Hc].
    destruct (getitem info "min_blocksize"); run_binds; [| discriminate].
    destruct (getitem info "max_blocksize"); run_binds; [| discriminate].
    intros [= <- <-]. split; [exact Hl |].
    pose proof (min2_le_r (c0 * 1.2) 1.0).
    assert (0 <= min2 (c0 * 1.2) 1.0) by (apply min2_glb; lra).
    destruct (py_eq _ _); [destruct (_ <=? 2)%Z | destruct (3 <=? _)%Z]; lra.
Qed.

(** ** The estimators on numeric metrics *)

Lemma num_numeric (v : pyval) (x : Q) : as_num v = Some x -> num v = Ok x.
Proof. intros H. unfold num. now rewrite H. Qed.

Lemma getitem_lookup {V} (d : gmap string V) (key : string) (v : V) :
  d !! key = Some v -> getitem d key = Ok v.
Proof. intros H. unfold getitem. now rewrite H. Qed.

Lemma contains_lookup {V} (d : gmap string V) (key : string) (v : V) :
  d !! key = Some v -> contains d key = true.
Proof. intros H. unfold contains. now rewrite H. Qed.

(** What [flac_analyzer.estimate_compression_level] computes from numeric
    metrics, unless the block-size division is by zero. *)
Lemma analyzer_estimate_numeric (info : gmap string pyval)
    (ratio min_b max_b min_f max_f : Q) :
  numeric info "compression_ratio" ratio ->
  numeric info "min_blocksize" min_b -> numeric info "max_blocksize" max_b ->
  numeric info "min_framesize" min_f -> numeric info "max_framesize" max_f ->
  Qeq_bool min_b max_b = true \/ ~ min_b == 0 ->
  flac_analyzer.estimate_compression_level info =
    let bv := if Qeq_bool min_b max_b then 0 else max_b / min_b in
    let fe := if Qlt_bool 0 max_f then 1 - min_f / max_f else 0 in
    match find_matches ratio with
    | [] => l ← closest_level ratio; Ok (Some l, 0.5, inr (metrics_of ratio bv fe))
    | ms =>
        best ← max_by (fun m : Z * Q => snd m) ms;
        Ok (Some (fst best), 0.7 * snd best + 0.2 * fe + 0.1 * min2 1 bv,
            inr (metrics_of ratio bv fe))
    end.
Proof.
  intros (vr & Hr & Nr) (vb1 & Hb1 & Nb1) (vb2 & Hb2 & Nb2)
         (vf1 & Hf1 & Nf1) (vf2 & Hf2 & Nf2) Hdiv.
  unfold flac_analyzer.estimate_compression_level.
  cbn [forallb].
  rewrite (contains_lookup _ _ _ Hr), (contains_lookup _ _ _ Hb1),
    (contains_lookup _ _ _ Hb2).
  cbn [andb negb].
  rewrite (getitem_lookup _ _ _ Hr), (getitem_lookup _ _ _ Hb1),
    (getitem_lookup _ _ _ Hb2), (getitem_lookup _ _ _ Hf2),
    (getitem_lookup _ _ _ Hf1).
  run_binds. rewrite (num_numeric _ _ Nr). run_binds.
  unfold py_truediv, py_gt, py_eq.
  rewrite Nb1, Nb2, (num_numeric _ _ Nb1), (num_numeric _ _ Nb2),
    (num_numeric _ _ Nf1), (num_numeric _ _ Nf2).
  change (num (VInt 0)) with (Ok (inject_Z 0)). run_binds.
  change (inject_Z 0) with 0.
  assert (Ediv : Qeq_bool min_b max_b = false -> Qeq_bool min_b 0 = false).
  { intros E. destruct Hdiv as [H | H]; [congruence |].
    apply not_true_iff_false. intros E0. apply H. now apply Qeq_bool_iff. }
  assert (Efr : Qlt_bool 0 max_f = true -> Qeq_bool max_f 0 = false).
  { intros Ef. apply not_true_iff_false. intros E0. apply Qeq_bool_iff in E0.
    apply Qlt_bool_iff in Ef. lra. }
  unfold metrics_of.
  destruct (Qeq_bool min_b max_b) eqn:Eb; [| rewrite (Ediv eq_refl)]; run_binds;
    (destruct (Qlt_bool 0 max_f) eqn:Ef; [rewrite (Efr eq_refl) |]; run_binds;
     (destruct (find_matches ratio) as [|m0 ms]; [reflexivity |];
      destruct (max_by _ (m0 :: ms)) as [[level c]|]; reflexivity)).
Qed.

(** What [flac_level_detection.estimate_compression_level] computes when the
    analysis is not limited and the ratio is a number. *)
Lemma detection_estimate_numeric (info : gmap string pyval) (ratio : Q)
    (vmin vmax : pyval) :
  truthy (get info "limited_analysis" (VBool false)) = false ->
  numeric info "compression_ratio" ratio ->
  info !! "min_blocksize"%string = Some vmin ->
  info !! "max_blocksize"%string = Some vmax ->
  flac_level_detection.estimate_compression_level info =
    match find_matches ratio with
    | [] => l ← closest_level ratio; Ok (l, 0.5)
    | ms =>
        best ← max_by (fun m : Z * Q => snd m) ms;
        Ok (fst best,
            if py_eq vmin vmax then
              if (fst best <=? 2)%Z then min2 (snd best * 1.2) 1.0 else snd best * 0.8
            else
              if (3 <=? fst best)%Z then min2 (snd best * 1.2) 1.0 else snd best * 0.8)
    end.
Proof.
  intros Hl (vr & Hr & Nr) Hb1 Hb2.
  unfold flac_level_detection.estimate_compression_level.
  rewrite Hl. cbn [forallb].
  rewrite (contains_lookup _ _ _ Hr), (contains_lookup _ _ _ Hb1),
    (contains_lookup _ _ _ Hb2).
  cbn [andb negb].
  rewrite (getitem_lookup _ _ _ Hr), (getitem_lookup _ _ _ Hb1),
    (getitem_lookup _ _ _ Hb2).
  run_binds. rewrite (num_numeric _ _ Nr). run_binds.
  rewrite find_matches_same, closest_level_same.
  destruct (find_matches ratio) as [|m0 ms]; [reflexivity |].
  destruct (max_by _ (m0 :: ms)) as [[level c]|]; reflexivity.
Qed.

(** ** C1: the scenario with ratio 0.59 *)

Ltac numeric_fact := eexists; split; reflexivity.

Ltac compute_matches :=
  match goal with
  | |- context [find_matches ?b] =>
      let x := eval vm_compute in (find_matches b) in
      change (find_matches b) with x
  end.

Ltac compute_best :=
  match goal with
  | |- context [max_by ?f ?l] =>
      let x := eval vm_compute in (max_by f l) in
      change (max_by f l) with x
  end.

Lemma metrics_of_lookup (ratio bv fe : Q) :
  metrics_of ratio bv fe !! "framesize_efficiency"%string = Some fe /\
  metrics_of ratio bv fe !! "blocksize_variability"%string = Some bv.
Proof.
  unfold metrics_of. split.
  - apply lookup_insert_eq.
  - rewrite lookup_insert_ne by discriminate. apply lookup_insert_eq.
Qed.

(** What the two estimators return for the scenario. *)
Lemma scenario_estimates :
  flac_analyzer.estimate_compression_level scenario
    = Ok (Some 6%Z,
          0.7 * (20000000 # 40000000) + 0.2 * (1 - 10 / 20) + 0.1 * min2 1 0,
          inr (metrics_of 0.59 0 (1 - 10 / 20))) /\
  flac_level_detection.estimate_compression_level scenario
    = Ok (6%Z, (20000000 # 40000000) * 0.8).
Proof.
  split.
  - rewrite (analyzer_estimate_numeric scenario 0.59 4096 4096 10 20)
      by (try numeric_fact; left; reflexivity).
    compute_matches. cbv beta iota zeta. compute_best. reflexivity.
  - rewrite (detection_estimate_numeric scenario 0.59 (VInt 4096) (VInt 4096))
      by (try numeric_fact; reflexivity).
    compute_matches. cbv beta iota zeta. compute_best. reflexivity.
Qed.

(** C1, as stated, fails: the ratio 0.59 lies in the range of level 5 and in
    the range [0.56,0.60] of level 6, and neither estimator returns level 5
    for the scenario. *)
Lemma scenario_is_not_level_5 :
  map fst (find_matches 0.59) = [5%Z; 6%Z] /\
  ~ (exists c m, flac_analyzer.estimate_compression_level scenario = Ok (Some 5%Z, c, m)) /\
  ~ (exists c, flac_level_detection.estimate_compression_level scenario = Ok (5%Z, c)).
Proof.
  destruct scenario_estimates as [Ha Hd].
  split; [vm_compute; reflexivity |]. split.
  - intros (c & m & H). rewrite Ha in H. discriminate H.
  - intros (c & H). rewrite Hd in H. discriminate H.
Qed.

(** C1, amended: for ratio 0.59, block sizes 4096 and 4096 and frame sizes 10
    and 20, the matches are level 5 with centrality 0.4 and level 6 with
    centrality 0.5; level 6, the more central one, is returned.  In
    [flac_analyzer] the frame-size efficiency is 0.5, the block-size
    variability is 0 and the confidence is 0.7*0.5 + 0.2*0.5 + 0.1*0 = 0.45;
    in [flac_level_detection] the confidence is 0.5*0.8 = 0.4. *)
Theorem scenario_is_level_6 :
  (exists c5 c6,
      find_matches 0.59 = [(5%Z, c5); (6%Z, c6)] /\ c5 == 0.4 /\ c6 == 0.5) /\
  (exists c m fe bv,
      flac_analyzer.estimate_compression_level scenario = Ok (Some 6%Z, c, inr m) /\
      c == 0.45 /\
      m !! "framesize_efficiency"%string = Some fe /\ fe == 0.5 /\
      m !! "blocksize_variability"%string = Some bv /\ bv == 0) /\
  (exists c,
      flac_level_detection.estimate_compression_level scenario = Ok (6%Z, c) /\
      c == 0.4).
Proof.
  destruct scenario_estimates as [Ha Hd].
  split; [| split].
  - exists (20000000 # 50000000), (20000000 # 40000000).
    split; [vm_compute; reflexivity |]. split; vm_compute; reflexivity.
  - eexists _, _, _, _. split; [exact Ha |].
    split; [vm_compute; reflexivity |].
    split; [apply metrics_of_lookup |]. split; [vm_compute; reflexivity |].
    split; [apply metrics_of_lookup | reflexivity].
  - eexists. split; [exact Hd | vm_compute; reflexivity].
Qed.

(** ** C2: the caller API *)

Lemma try_except_total {A} (body : result A) (handler : exn -> result A) :
  (forall e, exists a, handler e = Ok a) -> exists a, try_except body handler = Ok a.
Proof.
  intros H. destruct body as [a | e]; cbn; [now exists a | apply H].
Qed.

(** The probe of [flac_level_detection] raises nothing. *)
Lemma detection_analyze_total (w : world) (flac_file : string) :
  exists r, flac_level_detection.analyze_flac_file w flac_file = Ok r.
Proof.
  unfold flac_level_detection.analyze_flac_file.
  destruct (negb _); [now eexists |].
  apply try_except_total. intros e. destruct e; now eexists.
Qed.

(** Without the [flac] binary the probe of [flac_level_detection] gives the
    file size and the limited-analysis flag. *)
Lemma detection_analyze_no_flac (w : world) (flac_file : string) :
  path_exists w flac_file = true ->
  spawn w ["flac"; "--version"]%string = NotInstalled ->
  flac_level_detection.analyze_flac_file w flac_file =
    Ok (Some (<["limited_analysis"%string := VBool true]>
                (<["file_size"%string := VInt (getsize w flac_file)]> ∅))).
Proof.
  intros He Hs. unfold flac_level_detection.analyze_flac_file, subprocess_run.
  rewrite He, Hs. reflexivity.
Qed.

Lemma detection_estimate_limited (info : gmap string pyval) :
  info !! "limited_analysis"%string = Some (VBool true) ->
  flac_level_detection.estimate_compression_level info = Ok (5%Z, 0.1).
Proof.
  intros H. unfold flac_level_detection.estimate_compression_level, get.
  rewrite H. reflexivity.
Qed.

(** C2: for every path and every threshold value,
    [get_flac_compression_level] raises nothing and returns an integer in
    [0,8]; it returns the default level 5 when the file cannot be analysed,
    when the analysis is limited, when the estimation raises, and, whatever
    the threshold, when the [flac] binary is absent. *)
Theorem get_flac_compression_level_total (w : world) (flac_file : string) (threshold : pyval) :
  (exists level,
      flac_level_detection.get_flac_compression_level w flac_file threshold = Ok level /\
      (0 <= level <= 8)%Z) /\
  (flac_level_detection.analyze_flac_file w flac_file = Ok None ->
   flac_level_detection.get_flac_compression_level w flac_file threshold = Ok 5%Z) /\
  (forall info,
      flac_level_detection.analyze_flac_file w flac_file = Ok (Some info) ->
      info !! "limited_analysis"%string = Some (VBool true) ->
      flac_level_detection.get_flac_compression_level w flac_file threshold = Ok 5%Z) /\
  (forall info e,
      flac_level_detection.analyze_flac_file w flac_file = Ok (Some info) ->
      flac_level_detection.estimate_compression_level info = Raise e ->
      flac_level_detection.get_flac_compression_level w flac_file threshold = Ok 5%Z) /\
  (spawn w ["flac"; "--version"]%string = NotInstalled ->
   flac_level_detection.get_flac_compression_level w flac_file threshold = Ok 5%Z).
Proof.
  assert (Hlimited : forall info,
    flac_level_detection.analyze_flac_file w flac_file = Ok (Some info) ->
    info !! "limited_analysis"%string = Some (VBool true) ->
    flac_level_detection.get_flac_compression_level w flac_file threshold = Ok 5%Z).
  { intros info Ha Hl. unfold flac_level_detection.get_flac_compression_level.
    rewrite Ha. run_binds. destruct (negb (dict_truthy info)); [reflexivity |].
    rewrite (detection_estimate_limited _ Hl). run_binds.
    destruct (py_lt _ threshold) as [[|]|]; reflexivity. }
  split; [| split; [| split; [exact Hlimited | split]]].
  - unfold flac_level_detection.get_flac_compression_level.
    destruct (detection_analyze_total w flac_file) as [[info|] ->]; run_binds;
      [| exists 5%Z; split; [reflexivity | lia]].
    destruct (negb (dict_truthy info)); [exists 5%Z; split; [reflexivity | lia] |].
    destruct (flac_level_detection.estimate_compression_level info) as [[level c]|e] eqn:He;
      run_binds; [| exists 5%Z; split; [reflexivity | lia]].
    apply detection_estimate_bounds in He. destruct He as [Hl _].
    destruct (py_lt _ threshold) as [[|]|]; cbn.
    + exists 5%Z; split; [reflexivity | lia].
    + exists level; split; [reflexivity | exact Hl].
    + exists 5%Z; split; [reflexivity | lia].
  - intros Ha. unfold flac_level_detection.get_flac_compression_level.
    rewrite Ha. reflexivity.
  - intros info e Ha He. unfold flac_level_detection.get_flac_compression_level.
    rewrite Ha. run_binds. destruct (negb (dict_truthy info)); [reflexivity |].
    rewrite He. reflexivity.
  - intros Hs. destruct (path_exists w flac_file) eqn:Hp.
    + apply (Hlimited _ (detection_analyze_no_flac w flac_file Hp Hs)).
      reflexivity.
    + unfold flac_level_detection.get_flac_compression_level,
        flac_level_detection.analyze_flac_file.
      rewrite Hp. reflexivity.
Qed.

(** A run of C2: one file, no tools, the default threshold. *)
Lemma get_flac_compression_level_total_witness :
  spawn (sample_world no_tools) ["flac"; "--version"]%string = NotInstalled /\
  flac_level_detection.get_flac_compression_level
    (sample_world no_tools) "track.flac" flac_level_detection.default_threshold = Ok 5%Z.
Proof.
  split; [reflexivity |].
  apply (get_flac_compression_level_total (sample_world no_tools) "track.flac"
           flac_level_detection.default_threshold).
  reflexivity.
Defined.

(** ** C3: the range of the confidence *)

(** C3, as stated, fails: [flac_analyzer] does not clamp the blend, and
    for finite metrics with frame sizes 1000 and 10 the confidence is
    0.7*0.5 + 0.2*(1 - 1000/10) = -19.45. *)
Lemma confidence_below_zero :
  exists level c m,
    flac_analyzer.estimate_compression_level inverted_frames = Ok (level, c, m) /\
    c == -19.45 /\ ~ (0 <= c <= 1).
Proof.
  eexists _, _, _. split.
  - rewrite (analyzer_estimate_numeric inverted_frames 0.59 4096 4096 1000 10)
      by (try numeric_fact; left; reflexivity).
    compute_matches. cbv beta iota zeta. compute_best. reflexivity.
  - split; [vm_compute; reflexivity |]. intros [H _]. revert H.
    apply Qlt_not_le. vm_compute. reflexivity.
Qed.

(** C3, amended: the confidence of [flac_level_detection] lies in [0,1] for
    every input; the confidence of [flac_analyzer], a blend that is not
    clamped, lies in [0,1] for numeric metrics with positive block sizes and
    0 <= min_framesize <= max_framesize. *)
Theorem confidence_in_unit_interval :
  (forall info level c,
      flac_level_detection.estimate_compression_level info = Ok (level, c) ->
      0 <= c <= 1) /\
  (forall info ratio min_b max_b min_f max_f,
      numeric info "compression_ratio" ratio ->
      numeric info "min_blocksize" min_b -> numeric info "max_blocksize" max_b ->
      numeric info "min_framesize" min_f -> numeric info "max_framesize" max_f ->
      0 < min_b -> 0 < max_b -> 0 <= min_f <= max_f ->
      exists level c m,
        flac_analyzer.estimate_compression_level info = Ok (level, c, m) /\
        0 <= c <= 1).
Proof.
  split.
  { intros info level c H. now apply detection_estimate_bounds in H. }
  intros info ratio min_b max_b min_f max_f Hr Hb1 Hb2 Hf1 Hf2 Pb1 Pb2 [Pf1 Pf2].
  rewrite (analyzer_estimate_numeric info ratio min_b max_b min_f max_f)
    by (try assumption; right; lra).
  cbv zeta.
  destruct (find_matches ratio) as [|m0 ms] eqn:Hm.
  - destruct (closest_level_spec ratio) as (l & -> & _ & _). run_binds.
    eexists _, _, _. split; [reflexivity | lra].
  - destruct (max_by_spec (fun m : Z * Q => snd m) (m0 :: ms)) as ([l c0] & -> & Hin & _);
      [discriminate |].
    run_binds. rewrite <- Hm in Hin. apply find_matches_In in Hin.
    destruct Hin as [_ Hc]. cbn [fst snd].
    eexists _, _, _. split; [reflexivity |].
    set (bv := if Qeq_bool min_b max_b then 0 else max_b / min_b).
    set (fe := if Qlt_bool 0 max_f then 1 - min_f / max_f else 0).
    assert (Hbv : 0 <= bv).
    { unfold bv. destruct (Qeq_bool min_b max_b); [lra |].
      apply Qle_shift_div_l; lra. }
    assert (Hfe : 0 <= fe <= 1).
    { unfold fe. destruct (Qlt_bool 0 max_f) eqn:Ef; [| lra].
      apply Qlt_bool_iff in Ef.
      assert (0 <= min_f / max_f) by (apply Qle_shift_div_l; lra).
      assert (min_f / max_f <= 1) by (apply Qle_shift_div_r; lra).
      lra. }
    pose proof (min2_le_l 1 bv).
    assert (0 <= min2 1 bv) by (apply min2_glb; lra).
    lra.
Qed.

(** A run of C3 on the scenario. *)
Lemma confidence_in_unit_interval_witness :
  exists level c m,
    flac_analyzer.estimate_compression_level scenario = Ok (level, c, m) /\
    0 <= c <= 1.
Proof.
  apply (proj2 confidence_in_unit_interval scenario 0.59 4096 4096 10 20).
  - exists (VFloat 0.59). split; reflexivity.
  - exists (VInt 4096). split; reflexivity.
  - exists (VInt 4096). split; reflexivity.
  - exists (VInt 10). split; reflexivity.
  - exists (VInt 20). split; reflexivity.
  - reflexivity.
  - reflexivity.
  - split; discriminate.
Defined.

(** ** C4: exceptions of the estimator *)

(** C4 at its failing input: with the three required keys present and the
    frame sizes missing, [flac_analyzer.estimate_compression_level] passes its
    own check of the required keys and then raises [KeyError] on
    [info['max_framesize']]; the copy in [flac_level_detection] returns. *)
Theorem estimate_without_framesizes_raises :
  flac_analyzer.estimate_compression_level no_framesizes
    = Raise (KeyError "max_framesize") /\
  exists c, flac_level_detection.estimate_compression_level no_framesizes = Ok (6%Z, c).
Proof.
  split; [vm_compute; reflexivity |]. eexists. vm_compute. reflexivity.
Qed.

(** ** C5 and C6: the probe *)

Lemma subprocess_run_succeeds (w : world) (cmd : list string) :
  succeeds w cmd -> exists stdout, subprocess_run w cmd = Ok stdout.
Proof.
  intros (out & err & H). unfold subprocess_run. rewrite H. now exists out.
Qed.

Lemma subprocess_run_fails (w : world) (cmd : list string) :
  fails w cmd -> exists returncode, subprocess_run w cmd = Raise (CalledProcessError cmd returncode).
Proof.
  intros (code & out & err & H & Hne). unfold subprocess_run. rewrite H.
  apply Z.eqb_neq in Hne. rewrite Hne. now exists code.
Qed.

Lemma subprocess_run_not_installed (w : world) (cmd : list string) :
  spawn w cmd = NotInstalled -> subprocess_run w cmd = Raise FileNotFoundError.
Proof. intros H. unfold subprocess_run. now rewrite H. Qed.

Lemma subprocess_run_not_executable (w : world) (cmd : list string) :
  spawn w cmd = NotExecutable -> subprocess_run w cmd = Raise PermissionError.
Proof. intros H. unfold subprocess_run. now rewrite H. Qed.

(** The probe of [flac_analyzer] raises only for a path that does not exist. *)
Lemma analyzer_analyze_raises (w : world) (flac_file : string) (e : exn) :
  flac_analyzer.analyze_flac_file w flac_file = Raise e ->
  e = FileNotFoundError /\ path_exists w flac_file = false.
Proof.
  unfold flac_analyzer.analyze_flac_file.
  destruct (path_exists w flac_file); cbn [negb].
  - intros H. exfalso.
    match type of H with
    | try_except ?body ?handler = _ =>
        destruct (try_except_total body handler) as [a Ha];
          [intros e'; exists None; now destruct e' | congruence]
    end.
  - intros [= <-]. now split.
Qed.

(** C5, as stated, fails for the probe of [flac_level_detection]: for a path
    that does not exist it returns [None] to its caller and raises nothing. *)
Lemma detection_probe_does_not_raise :
  path_exists (sample_world no_tools) "missing.flac" = false /\
  flac_level_detection.analyze_flac_file (sample_world no_tools) "missing.flac" = Ok None /\
  flac_level_detection.analyze_flac_file (sample_world no_tools) "missing.flac"
    <> Raise FileNotFoundError.
Proof. split; [reflexivity |]. split; [reflexivity | discriminate]. Qed.

(** C5, amended: for every path that does not exist, the probe of
    [flac_analyzer] raises [FileNotFoundError] to its caller, and this is the
    only exception it lets through; the probe of [flac_level_detection]
    returns [None] instead and never raises; [get_flac_compression_level]
    returns the default level 5. *)
Theorem probe_of_missing_path (w : world) (flac_file : string) :
  (path_exists w flac_file = false ->
     flac_analyzer.analyze_flac_file w flac_file = Raise FileNotFoundError /\
     flac_level_detection.analyze_flac_file w flac_file = Ok None /\
     forall threshold,
       flac_level_detection.get_flac_compression_level w flac_file threshold = Ok 5%Z) /\
  (forall e,
     flac_analyzer.analyze_flac_file w flac_file = Raise e ->
     e = FileNotFoundError /\ path_exists w flac_file = false) /\
  (exists r, flac_level_detection.analyze_flac_file w flac_file = Ok r).
Proof.
  split; [| split].
  - intros H.
    assert (Hd : flac_level_detection.analyze_flac_file w flac_file = Ok None).
    { unfold flac_level_detection.analyze_flac_file. now rewrite H. }
    split; [| split].
    + unfold flac_analyzer.analyze_flac_file. now rewrite H.
    + exact Hd.
    + intros threshold.
      unfold flac_level_detection.get_flac_compression_level. now rewrite Hd.
  - apply analyzer_analyze_raises.
  - apply detection_analyze_total.
Qed.

(** A run of C5 on a path that does not exist. *)
Lemma probe_of_missing_path_witness :
  flac_analyzer.analyze_flac_file (sample_world no_tools) "missing.flac"
    = Raise FileNotFoundError /\
  flac_level_detection.analyze_flac_file (sample_world no_tools) "missing.flac" = Ok None /\
  forall threshold,
    flac_level_detection.get_flac_compression_level
      (sample_world no_tools) "missing.flac" threshold = Ok 5%Z.
Proof.
  apply (proj1 (probe_of_missing_path (sample_world no_tools) "missing.flac")).
  reflexivity.
Defined.

(** C6, as stated, fails: without the tools the probe of [flac_analyzer]
    returns [None] for an existing file, and what the probe of
    [flac_level_detection] returns has the limited-analysis flag beside the
    file size. *)
Lemma probe_returns_nothing :
  path_exists (sample_world no_tools) "track.flac" = true /\
  flac_analyzer.analyze_flac_file (sample_world no_tools) "track.flac" = Ok None /\
  exists info,
    flac_level_detection.analyze_flac_file (sample_world no_tools) "track.flac"
      = Ok (Some info) /\
    info !! "limited_analysis"%string = Some (VBool true).
Proof.
  split; [reflexivity |]. split; [reflexivity |].
  exists (limited_info 1000). split; reflexivity.
Qed.

(** What the availability check of lines 25-35 of [flac_level_detection.py]
    does not catch: a tool that is present but cannot be executed raises
    [PermissionError], which goes to the outer handler, and the probe
    returns [None]. *)
Lemma probe_not_executable (w : world) (flac_file : string) :
  path_exists w flac_file = true ->
  spawn w (version_cmd "flac") = NotExecutable \/
  (succeeds w (version_cmd "flac") /\
   spawn w (version_cmd "metaflac") = NotExecutable) ->
  flac_level_detection.analyze_flac_file w flac_file = Ok None.
Proof.
  intros Hp H. unfold flac_level_detection.analyze_flac_file. rewrite Hp. cbn [negb].
  fold (version_cmd "flac") (version_cmd "metaflac").
  destruct H as [H | [H1 H]].
  - rewrite (subprocess_run_not_executable _ _ H). reflexivity.
  - destruct (subprocess_run_succeeds _ _ H1) as [out ->].
    rewrite (subprocess_run_not_executable _ _ H). reflexivity.
Qed.

Lemma limited_info_lookup (file_size : Z) :
  limited_info file_size !! "file_size"%string = Some (VInt file_size) /\
  limited_info file_size !! "limited_analysis"%string = Some (VBool true) /\
  forall key, key <> "file_size"%string -> key <> "limited_analysis"%string ->
    limited_info file_size !! key = None.
Proof.
  unfold limited_info. split; [reflexivity |]. split; [reflexivity |].
  intros key H1 H2. now rewrite !lookup_insert_ne, lookup_empty by congruence.
Qed.

Lemma limited_info_error_lookup (file_size : Z) (message : string) :
  limited_info_error file_size message !! "file_size"%string = Some (VInt file_size) /\
  limited_info_error file_size message !! "limited_analysis"%string = Some (VBool true) /\
  limited_info_error file_size message !! "error"%string = Some (VStr message) /\
  forall key, key <> "file_size"%string -> key <> "limited_analysis"%string ->
    key <> "error"%string ->
    limited_info_error file_size message !! key = None.
Proof.
  unfold limited_info_error. split; [reflexivity |]. split; [reflexivity |].
  split; [reflexivity |].
  intros key H1 H2 H3. now rewrite !lookup_insert_ne, lookup_empty by congruence.
Qed.

(** C6, amended: for every existing path, the probe of
    [flac_level_detection] returns the file size and the limited-analysis
    flag, and no stream field, when [flac] or [metaflac] is not installed or
    fails its version check; it returns these with the error message when an
    analysis run exits with a non-zero status.  The probe of [flac_analyzer]
    returns [None] as soon as one of its two runs does not succeed. *)
Theorem probe_without_tools (w : world) (flac_file : string) :
  path_exists w flac_file = true ->
  let file_size := getsize w flac_file in
  ((spawn w (version_cmd "flac") = NotInstalled \/ fails w (version_cmd "flac") \/
    (succeeds w (version_cmd "flac") /\
     (spawn w (version_cmd "metaflac") = NotInstalled \/
      fails w (version_cmd "metaflac")))) ->
   flac_level_detection.analyze_flac_file w flac_file = Ok (Some (limited_info file_size))) /\
  (succeeds w (version_cmd "flac") -> succeeds w (version_cmd "metaflac") ->
   fails w (analyze_cmd flac_file) \/
   (succeeds w (analyze_cmd flac_file) /\ fails w (show_cmd flac_file)) ->
   exists message,
     flac_level_detection.analyze_flac_file w flac_file
       = Ok (Some (limited_info_error file_size message))) /\
  (~ succeeds w (analyze_cmd flac_file) \/ ~ succeeds w (show_cmd flac_file) ->
   flac_analyzer.analyze_flac_file w flac_file = Ok None) /\
  (limited_info file_size !! "file_size"%string = Some (VInt file_size) /\
   forall key, key <> "file_size"%string -> key <> "limited_analysis"%string ->
     limited_info file_size !! key = None).
Proof.
  intros Hp file_size.
  split; [| split; [| split]].
  - intros H. unfold flac_level_detection.analyze_flac_file. rewrite Hp. cbn [negb].
    fold (version_cmd "flac") (version_cmd "metaflac").
    destruct H as [H | [H | [H1 H]]].
    + rewrite (subprocess_run_not_installed _ _ H). reflexivity.
    + destruct (subprocess_run_fails _ _ H) as [code ->]. reflexivity.
    + destruct (subprocess_run_succeeds _ _ H1) as [out ->].
      destruct H as [H | H].
      * rewrite (subprocess_run_not_installed _ _ H). reflexivity.
      * destruct (subprocess_run_fails _ _ H) as [code ->]. reflexivity.
  - intros H1 H2 H. unfold flac_level_detection.analyze_flac_file. rewrite Hp. cbn [negb].
    fold (version_cmd "flac") (version_cmd "metaflac")
      (analyze_cmd flac_file) (show_cmd flac_file).
    destruct (subprocess_run_succeeds _ _ H1) as [out1 ->].
    destruct (subprocess_run_succeeds _ _ H2) as [out2 ->].
    destruct H as [H | [H3 H]].
    + destruct (subprocess_run_fails _ _ H) as [code ->]. eexists. reflexivity.
    + destruct (subprocess_run_succeeds _ _ H3) as [out3 ->].
      destruct (subprocess_run_fails _ _ H) as [code ->]. eexists. reflexivity.
  - intros H. unfold flac_analyzer.analyze_flac_file. rewrite Hp. cbn [negb].
    fold (analyze_cmd flac_file) (show_cmd flac_file).
    assert (Hrun : forall cmd, ~ succeeds w cmd -> exists e, subprocess_run w cmd = Raise e).
    { intros cmd Hn. unfold subprocess_run.
      destruct (spawn w cmd) as [code out err | |] eqn:E; [| now eexists ..].
      destruct (code =? 0)%Z eqn:Ec; [| now eexists].
      apply Z.eqb_eq in Ec. subst code. exfalso. apply Hn. now exists out, err. }
    destruct (subprocess_run w (analyze_cmd flac_file)) as [out1 | e1] eqn:E1.
    + destruct H as [H | H].
      * destruct (Hrun _ H) as [e He]. congruence.
      * destruct (Hrun _ H) as [e ->]. now destruct e.
    + now destruct e1.
  - destruct (limited_info_lookup file_size) as (H1 & _ & H3). now split.
Qed.

(** A run of C6: one file and no tools. *)
Lemma probe_without_tools_witness :
  flac_level_detection.analyze_flac_file (sample_world no_tools) "track.flac"
    = Ok (Some (limited_info 1000)).
Proof.
  apply (proj1 (probe_without_tools (sample_world no_tools) "track.flac" eq_refl)).
  left. reflexivity.
Defined.

(** ** C7: the uncompressed size *)

Lemma calculate_derived_statistics_same (w : world) (file_size : Z)
    (info : gmap string pyval) :
  flac_level_detection.calculate_derived_statistics w file_size info
  = flac_analyzer.calculate_derived_statistics w file_size info.
Proof. reflexivity. Qed.

(** On a float that is not negative, [int] rounds down. *)
Lemma int_of_float_floor (x : Q) : 0 <= x -> int_of_float x = Qfloor x.
Proof.
  intros H. unfold int_of_float. destruct x as [n d]. cbn.
  apply Z.quot_div_nonneg; [| lia].
  unfold Qle in H. cbn in H. lia.
Qed.

(** The derivation once the three integers and the duration are read. *)
Lemma derived_after_reading (w : world) (file_size : Z) (info : gmap string pyval)
    (v1 v2 v3 : pyval) (sample_rate channels bits_per_sample : Z) (duration : float64) :
  info !! "sample_rate"%string = Some v1 -> int v1 = Ok sample_rate ->
  info !! "channels"%string = Some v2 -> int v2 = Ok channels ->
  info !! "bits_per_sample"%string = Some v3 -> int v3 = Ok bits_per_sample ->
  duration_seconds w info = Ok duration ->
  flac_analyzer.calculate_derived_statistics w file_size info
  = (product ← float_product duration sample_rate channels bits_per_sample;
     uncompressed_bytes ← int_of_float64 product;
     let info :=
       <["uncompressed_size"%string := VInt uncompressed_bytes]>
         (<["bits_per_sample"%string := VInt bits_per_sample]>
            (<["channels"%string := VInt channels]>
               (<["sample_rate"%string := VInt sample_rate]> info))) in
     if (0 <? uncompressed_bytes)%Z then
       ratio ← int_truediv file_size uncompressed_bytes;
       Ok (<["compression_ratio"%string := VFloat ratio]> info)
     else Ok info).
Proof.
  intros H1 I1 H2 I2 H3 I3 Hd.
  unfold flac_analyzer.calculate_derived_statistics.
  rewrite (contains_lookup _ _ _ H1), (contains_lookup _ _ _ H2),
    (contains_lookup _ _ _ H3).
  cbn [andb].
  rewrite (getitem_lookup _ _ _ H1). run_binds. rewrite I1. run_binds.
  rewrite (getitem_lookup (<["sample_rate":=VInt sample_rate]> info) "channels" v2)
    by now rewrite lookup_insert_ne.
  run_binds. rewrite I2. run_binds.
  rewrite (getitem_lookup _ "bits_per_sample" v3)
    by now rewrite !lookup_insert_ne.
  run_binds. rewrite I3. run_binds.
  unfold duration_seconds, get in Hd. unfold get.
  rewrite !lookup_insert_ne by discriminate.
  destruct (match info !! "duration"%string with Some v => v | None => VStr "0" end)
    as [| | | |s]; try discriminate Hd.
  destruct (float_of_str w (replace " s" "" s)) as [d | e]; [| discriminate Hd].
  cbn [mbind result_bind mret result_ret] in Hd. injection Hd as <-. run_binds.
  unfold float_product.
  destruct (float64_of_int sample_rate) as [rate | e]; run_binds; [| reflexivity].
  destruct (float64_of_int channels) as [count | e]; run_binds; [| reflexivity].
  destruct (int_truediv bits_per_sample 8) as [bytes | e]; run_binds; reflexivity.
Qed.

Lemma round64_zero_product (x : Q) : round64 (0 * x) = Finite 0.
Proof.
  unfold round64. replace (Qeq_bool (0 * x) 0) with true; [reflexivity |].
  symmetry. apply Qeq_bool_iff. ring.
Qed.

(** A product that starts from the float 0 is the float 0. *)
Lemma float_product_of_zero (sample_rate channels bits_per_sample : Z) (p : float64) :
  float_product (Finite 0) sample_rate channels bits_per_sample = Ok p -> p = Finite 0.
Proof.
  unfold float_product. intros H.
  destruct (float64_of_int sample_rate) as [rate | e]; [| discriminate H].
  destruct (float64_of_int channels) as [count | e]; [| discriminate H].
  destruct (int_truediv bits_per_sample 8) as [bytes | e]; [| discriminate H].
  cbn [mbind result_bind mret result_ret float64_mul] in H.
  rewrite !round64_zero_product in H. now injection H as <-.
Qed.

Lemma int_of_float_sign (x : Q) :
  (x < 1 -> (int_of_float x <= 0)%Z) /\ (1 <= x -> (0 < int_of_float x)%Z).
Proof.
  unfold int_of_float, Qlt, Qle. destruct x as [n d]. cbn.
  rewrite Z.quot_div by lia. split; intros H.
  - destruct (Z.le_gt_cases 0 n) as [Hn | Hn].
    + rewrite Z.abs_eq, Z.div_small by lia. lia.
    + pose proof (Z.div_pos (Z.abs n) (Z.abs (Z.pos d)) ltac:(lia) ltac:(lia)). nia.
  - assert (Hq : (1 <= Z.abs n / Z.abs (Z.pos d))%Z)
      by (apply Z.div_le_lower_bound; lia).
    assert (Z.sgn n = 1%Z) by lia. nia.
Qed.

(** C7, as stated, fails: a stream reported without its duration still gets
    an uncompressed size, the number 0, from both probes. *)
Lemma uncompressed_size_without_duration :
  let w := sample_world (sample_tools report_without_duration) in
  flac_level_detection.analyze_flac_file w "track.flac"
    = Ok (Some probed_without_duration) /\
  flac_analyzer.analyze_flac_file w "track.flac" = Ok (Some probed_without_duration) /\
  probed_without_duration !! "duration"%string = None /\
  probed_without_duration !! "sample_rate"%string = Some (VInt 44100) /\
  probed_without_duration !! "uncompressed_size"%string = Some (VInt 0).
Proof.
  cbv zeta. repeat split; vm_compute; reflexivity.
Qed.

(** C7, amended: the uncompressed size is derived as soon as sample_rate,
    channels and bits_per_sample are present and convert to integers: it is
    int(duration * sample_rate * channels * (bits_per_sample / 8)) in
    binary64 arithmetic, every step of the product rounded to the nearest
    float, so it is the product as the floats give it, rounded down when it
    is not negative.  A compression ratio, the float of file_size divided by
    that size, is added when the product is at least 1, and none when it is
    below 1.  A product that is an infinity or a NaN, or an integer beyond
    the floats, makes the derivation raise.  A missing duration counts as 0
    and then gives the product 0: the size 0 and no compression ratio.  When
    one of the three is absent the dictionary is returned as it is, without
    an uncompressed size of the probe's making.  The two files carry the
    same derivation. *)
Theorem uncompressed_size_derivation (w : world) (file_size : Z)
    (info : gmap string pyval) :
  flac_level_detection.calculate_derived_statistics w file_size info
    = flac_analyzer.calculate_derived_statistics w file_size info /\
  (forall v1 v2 v3 sample_rate channels bits_per_sample duration,
      info !! "sample_rate"%string = Some v1 -> int v1 = Ok sample_rate ->
      info !! "channels"%string = Some v2 -> int v2 = Ok channels ->
      info !! "bits_per_sample"%string = Some v3 -> int v3 = Ok bits_per_sample ->
      duration_seconds w info = Ok duration ->
      (forall product,
         float_product duration sample_rate channels bits_per_sample = Ok (Finite product) ->
         (0 <= product -> int_of_float product = Qfloor product) /\
         (product < 1 ->
          exists info',
            flac_analyzer.calculate_derived_statistics w file_size info = Ok info' /\
            info' !! "uncompressed_size"%string = Some (VInt (int_of_float product)) /\
            info' !! "compression_ratio"%string = info !! "compression_ratio"%string) /\
         (1 <= product ->
          forall ratio,
            int_truediv file_size (int_of_float product) = Ok ratio ->
            exists info',
              flac_analyzer.calculate_derived_statistics w file_size info = Ok info' /\
              info' !! "uncompressed_size"%string = Some (VInt (int_of_float product)) /\
              info' !! "compression_ratio"%string = Some (VFloat ratio))) /\
      (forall negative,
         float_product duration sample_rate channels bits_per_sample
           = Ok (Infinity negative) ->
         flac_analyzer.calculate_derived_statistics w file_size info
           = Raise OverflowError) /\
      (float_product duration sample_rate channels bits_per_sample = Ok NaN ->
       flac_analyzer.calculate_derived_statistics w file_size info = Raise ValueError) /\
      (forall e,
         float_product duration sample_rate channels bits_per_sample = Raise e ->
         flac_analyzer.calculate_derived_statistics w file_size info = Raise e)) /\
  (info !! "duration"%string = None -> float_of_str w "0" = Ok 0 ->
   duration_seconds w info = Ok (Finite 0) /\
   forall v1 v2 v3 sample_rate channels bits_per_sample product,
     info !! "sample_rate"%string = Some v1 -> int v1 = Ok sample_rate ->
     info !! "channels"%string = Some v2 -> int v2 = Ok channels ->
     info !! "bits_per_sample"%string = Some v3 -> int v3 = Ok bits_per_sample ->
     float_product (Finite 0) sample_rate channels bits_per_sample = Ok product ->
     exists info',
       flac_analyzer.calculate_derived_statistics w file_size info = Ok info' /\
       info' !! "uncompressed_size"%string = Some (VInt 0) /\
       info' !! "compression_ratio"%string = info !! "compression_ratio"%string) /\
  (info !! "sample_rate"%string = None \/ info !! "channels"%string = None \/
   info !! "bits_per_sample"%string = None ->
   flac_analyzer.calculate_derived_statistics w file_size info = Ok info).
Proof.
  split; [reflexivity |]. split; [| split].
  - intros v1 v2 v3 sr ch bps d H1 I1 H2 I2 H3 I3 Hd.
    rewrite (derived_after_reading w file_size info v1 v2 v3 sr ch bps d H1 I1 H2 I2 H3 I3 Hd).
    split; [| split; [| split]];
      [intros product H; split; [| split] | ..].
    + apply int_of_float_floor.
    + intros Hc. rewrite H. run_binds. cbn [int_of_float64]. run_binds. cbv beta zeta.
      destruct (int_of_float_sign product) as [Hsmall _]. specialize (Hsmall Hc).
      rewrite (proj2 (Z.ltb_ge 0 (int_of_float product))) by lia.
      eexists. split; [reflexivity |]. split; [apply lookup_insert_eq |].
      now rewrite !lookup_insert_ne by discriminate.
    + intros Hc ratio Hr. rewrite H. run_binds. cbn [int_of_float64]. run_binds.
      cbv beta zeta.
      destruct (int_of_float_sign product) as [_ Hlarge]. specialize (Hlarge Hc).
      rewrite (proj2 (Z.ltb_lt 0 (int_of_float product))) by lia.
      rewrite Hr. run_binds.
      eexists. split; [reflexivity |].
      split; [rewrite lookup_insert_ne by discriminate |]; apply lookup_insert_eq.
    + intros negative Hp. rewrite Hp. reflexivity.
    + intros Hp. rewrite Hp. reflexivity.
    + intros e Hp. rewrite Hp. reflexivity.
  - intros Hn H0.
    assert (Hd : duration_seconds w info = Ok (Finite 0)).
    { unfold duration_seconds, get. rewrite Hn.
      change (replace " s" "" "0") with "0"%string. rewrite H0. reflexivity. }
    split; [exact Hd |].
    intros v1 v2 v3 sr ch bps p H1 I1 H2 I2 H3 I3 Hp.
    rewrite (derived_after_reading w file_size info v1 v2 v3 sr ch bps _
               H1 I1 H2 I2 H3 I3 Hd).
    rewrite Hp, (float_product_of_zero _ _ _ _ Hp). run_binds. eexists.
    split; [reflexivity |]. split; [apply lookup_insert_eq |].
    now rewrite !lookup_insert_ne by discriminate.
  - intros H. unfold flac_analyzer.calculate_derived_statistics, contains.
    destruct (info !! "sample_rate"%string), (info !! "channels"%string),
      (info !! "bits_per_sample"%string); cbn [andb]; try reflexivity.
    exfalso. destruct H as [H | [H | H]]; discriminate H.
Qed.

(** The probe and the caller API on a stream of 12.5 seconds in a file of
    1000 bytes: 5000 uncompressed bytes, ratio 1000/5000, closest to level 8. *)
Example probe_with_duration :
  let w := sample_world (sample_tools report_with_duration) in
  (exists info,
      flac_level_detection.analyze_flac_file w "track.flac" = Ok (Some info) /\
      info !! "uncompressed_size"%string = Some (VInt 5000) /\
      info !! "compression_ratio"%string = Some (VFloat (3602879701896397 # 18014398509481984))) /\
  flac_level_detection.get_flac_compression_level w "track.flac" (VFloat 0.5) = Ok 8%Z /\
  flac_level_detection.get_flac_compression_level w "track.flac"
    flac_level_detection.default_threshold = Ok 5%Z.
Proof.
  cbv zeta. split; [| split; vm_compute; reflexivity].
  exists (<["compression_ratio"%string := VFloat (3602879701896397 # 18014398509481984)]>
            (<["uncompressed_size"%string := VInt 5000]>
               (<["duration"%string := VStr "12.5 s"]>
                  (<["sample_rate"%string := VInt 100]> probed_without_duration)))).
  repeat split; vm_compute; reflexivity.
Qed.

(** A run of C7: 12.5 seconds of 100 Hz, 2 channels, 16 bits are 5000 bytes. *)
Lemma uncompressed_size_derivation_witness :
  exists info',
    flac_analyzer.calculate_derived_statistics (sample_world no_tools) 1000 parsed_stream
      = Ok info' /\
    info' !! "uncompressed_size"%string = Some (VInt 5000).
Proof.
  destruct (proj1 (proj1 (proj2 (uncompressed_size_derivation
              (sample_world no_tools) 1000 parsed_stream))
              (VStr "100") (VStr "2") (VStr "16") 100%Z 2%Z 16%Z (Finite (25 # 2))
              eq_refl eq_refl eq_refl eq_refl eq_refl eq_refl eq_refl) 5000 eq_refl)
    as (_ & _ & H).
  destruct (H ltac:(discriminate) (3602879701896397 # 18014398509481984) eq_refl)
    as (info' & H1 & H2 & _).
  exists info'. split; [exact H1 | exact H2].
Defined.

(** The rounding of each step decides the size.  The float of 0.7 is below
    0.7: at 10 Hz, one channel and 8 bits its product with 10 rounds to the
    float 7, and the size is 7 although the exact product is below 7; at
    90 Hz the product rounds to a float below 63, and the size is 62.  For
    0.35 seconds at 44100 Hz, 2 channels and 16 bits the size is 61739. *)
Example product_is_rounded :
  (exists x, round64 (7 # 10) = Finite x /\ x < 7 # 10 /\ Qfloor (x * 10) = 6%Z) /\
  float_product (round64 (7 # 10)) 10 1 8 = Ok (Finite 7) /\
  (exists p, float_product (round64 (7 # 10)) 90 1 8 = Ok (Finite p) /\
             int_of_float p = 62%Z) /\
  (exists p, float_product (round64 (35 # 100)) 44100 2 16 = Ok (Finite p) /\
             int_of_float p = 61739%Z).
Proof.
  split; [| split; [| split]].
  - eexists. split; [vm_compute; reflexivity |]. split; vm_compute; reflexivity.
  - vm_compute. reflexivity.
  - eexists. split; vm_compute; reflexivity.
  - eexists. split; vm_compute; reflexivity.
Qed.

(** ** The level both estimators select *)

Lemma select_level_total (ratio : Q) :
  exists l, select_level ratio = Ok l /\ (0 <= l <= 8)%Z.
Proof.
  unfold select_level. destruct (find_matches ratio) as [|m0 ms] eqn:Hm.
  - destruct (closest_level_spec ratio) as (l & Hl & Hb & _). now exists l.
  - destruct (max_by_spec (fun m : Z * Q => snd m) (m0 :: ms)) as ([l c] & -> & Hin & _);
      [discriminate |].
    rewrite <- Hm in Hin. apply find_matches_In in Hin. exists l.
    split; [reflexivity | apply Hin].
Qed.

(** On numeric metrics, and unless [flac_analyzer] divides by a zero block
    size, the two estimators return the selected level. *)
Lemma estimators_agree (info : gmap string pyval)
    (ratio min_b max_b min_f max_f : Q) :
  truthy (get info "limited_analysis" (VBool false)) = false ->
  numeric info "compression_ratio" ratio ->
  numeric info "min_blocksize" min_b -> numeric info "max_blocksize" max_b ->
  numeric info "min_framesize" min_f -> numeric info "max_framesize" max_f ->
  min_b == max_b \/ ~ min_b == 0 ->
  exists l c1 c2 m,
    select_level ratio = Ok l /\
    flac_analyzer.estimate_compression_level info = Ok (Some l, c1, inr m) /\
    flac_level_detection.estimate_compression_level info = Ok (l, c2).
Proof.
  intros Hl Hr Hb1 Hb2 Hf1 Hf2 Hdiv.
  rewrite (analyzer_estimate_numeric info ratio min_b max_b min_f max_f)
    by (first [assumption | destruct Hdiv as [H | H]; [left; now apply Qeq_bool_iff | now right]]).
  destruct Hb1 as (vmin & Hmin & Nmin). destruct Hb2 as (vmax & Hmax & Nmax).
  rewrite (detection_estimate_numeric info ratio vmin vmax Hl Hr Hmin Hmax).
  cbv zeta. unfold select_level.
  destruct (find_matches ratio) as [|m0 ms] eqn:Hm.
  - destruct (closest_level_spec ratio) as (l & -> & _). run_binds.
    now eexists l, _, _, _.
  - destruct (max_by_spec (fun m : Z * Q => snd m) (m0 :: ms)) as ([l c] & -> & _);
      [discriminate |].
    run_binds. now eexists l, _, _, _.
Qed.

(** ** C8: a ratio on a boundary that two ranges share *)

(** C8, as stated, fails: 0.70 is the minimum of level 0 and the maximum of
    level 2, both match with centrality 0, and the level returned is neither
    the lower one nor the other: level 1 holds 0.70 with centrality 0.75. *)
Lemma boundary_070_returns_level_1 :
  (exists c0 c1 c2,
      find_matches 0.70 = [(0%Z, c0); (1%Z, c1); (2%Z, c2)] /\
      c0 == 0 /\ c1 == 0.75 /\ c2 == 0) /\
  select_level 0.70 = Ok 1%Z /\
  select_level 0.70 <> Ok 0%Z.
Proof.
  split; [| split].
  - eexists _, _, _. split; [vm_compute; reflexivity |]. repeat split.
  - vm_compute. reflexivity.
  - vm_compute. discriminate.
Qed.

(** The boundaries that two ranges share, with the two levels. *)
Lemma shared_boundaries (l1 l2 : Z) (lo1 hi1 lo2 hi2 b : Q) :
  In (l1, (lo1, hi1)) (enumerate level_ranges) ->
  In (l2, (lo2, hi2)) (enumerate level_ranges) ->
  (l1 < l2)%Z ->
  b = lo1 \/ b = hi1 ->
  b == lo2 \/ b == hi2 ->
  In (l1, l2, b)
     [ (0%Z, 2%Z, 0.70); (1%Z, 3%Z, 0.67); (2%Z, 4%Z, 0.65);
       (4%Z, 6%Z, 0.60); (5%Z, 7%Z, 0.58); (6%Z, 8%Z, 0.56) ].
Proof.
  intros H1 H2 Hlt Hb1 Hb2.
  assert (G : forall x y : Q, Qeq_bool x y = false -> x == y -> False).
  { intros x y E H. apply Qeq_bool_iff in H. congruence. }
  cbv [enumerate enumerate_from level_ranges In Z.add Pos.add Pos.succ] in H1, H2.
  repeat (destruct H1 as [H1 | H1]; [injection H1 as <- <- <- |]); try contradiction;
    repeat (destruct H2 as [H2 | H2]; [injection H2 as <- <- <- |]); try contradiction;
    try (exfalso; clear - Hlt; vm_compute in Hlt; discriminate Hlt);
    destruct Hb1 as [-> | ->]; destruct Hb2 as [Hb2 | Hb2];
    try (exfalso; refine (G _ _ _ Hb2); reflexivity);
    cbv [In]; auto 10.
Qed.

Ltac find_member := compute_matches; cbv [In]; repeat first [left; reflexivity | right].

(** C8, amended: when the ranges of two levels share a boundary, a ratio on
    that boundary matches both with centrality 0; [max] keeps the first of
    matches of equal centrality, but in this table the range of the level
    between the two holds the boundary with a positive centrality, and that
    level is the one both estimators return. *)
Theorem shared_boundary_selects_level_between
    (l1 l2 : Z) (lo1 hi1 lo2 hi2 b : Q) :
  In (l1, (lo1, hi1)) (enumerate level_ranges) ->
  In (l2, (lo2, hi2)) (enumerate level_ranges) ->
  (l1 < l2)%Z ->
  b = lo1 \/ b = hi1 ->
  b == lo2 \/ b == hi2 ->
  (exists c1 c2,
      In (l1, c1) (find_matches b) /\ In (l2, c2) (find_matches b) /\
      c1 == 0 /\ c2 == 0) /\
  (exists l c,
      max_by (fun m : Z * Q => snd m) (find_matches b) = Ok (l, c) /\
      (l1 < l < l2)%Z /\ 0 < c /\
      select_level b = Ok l /\
      forall info min_b max_b min_f max_f,
        truthy (get info "limited_analysis" (VBool false)) = false ->
        numeric info "compression_ratio" b ->
        numeric info "min_blocksize" min_b -> numeric info "max_blocksize" max_b ->
        numeric info "min_framesize" min_f -> numeric info "max_framesize" max_f ->
        min_b == max_b \/ ~ min_b == 0 ->
        exists c1 c2 m,
          flac_analyzer.estimate_compression_level info = Ok (Some l, c1, inr m) /\
          flac_level_detection.estimate_compression_level info = Ok (l, c2)) /\
  (forall (x : Z * Q) (xs : list (Z * Q)),
      (forall y, In y xs -> snd y <= snd x) ->
      max_by (fun m : Z * Q => snd m) (x :: xs) = Ok x).
Proof.
  intros H1 H2 Hlt Hb1 Hb2.
  pose proof (shared_boundaries l1 l2 lo1 hi1 lo2 hi2 b H1 H2 Hlt Hb1 Hb2) as Hin.
  clear H1 H2 Hlt Hb1 Hb2.
  split; [| split; [| intros x xs; apply max_by_first]].
  - cbv [In] in Hin.
    repeat (destruct Hin as [Hin | Hin]; [injection Hin as <- <- <- |]);
      try contradiction;
      (eexists _, _; split; [find_member | split; [find_member | split; reflexivity]]).
  - assert (Hsel : exists l c,
      max_by (fun m : Z * Q => snd m) (find_matches b) = Ok (l, c) /\
      (l1 < l < l2)%Z /\ 0 < c /\ select_level b = Ok l).
    { cbv [In] in Hin.
      repeat (destruct Hin as [Hin | Hin]; [injection Hin as <- <- <- |]);
        try contradiction;
        (eexists _, _; split; [vm_compute; reflexivity |];
         split; [split; reflexivity |]; split; [reflexivity |];
         vm_compute; reflexivity). }
    destruct Hsel as (l & c & Hmax & Hl & Hc & Hs).
    exists l, c. repeat (split; [assumption |]).
    intros info min_b max_b min_f max_f Hlim Hr Hm1 Hm2 Hf1 Hf2 Hdiv.
    destruct (estimators_agree info b min_b max_b min_f max_f Hlim Hr Hm1 Hm2 Hf1 Hf2 Hdiv)
      as (l' & c1 & c2 & m & Hs' & Ha & Hd).
    assert (l' = l) by congruence. subst l'. now exists c1, c2, m.
Qed.

(** A run of C8 on the boundary 0.70 of levels 0 and 2. *)
Lemma shared_boundary_selects_level_between_witness :
  exists c1 c2,
    In (0%Z, c1) (find_matches 0.70) /\ In (2%Z, c2) (find_matches 0.70) /\
    c1 == 0 /\ c2 == 0.
Proof.
  apply (proj1 (shared_boundary_selects_level_between
                  0 2 0.70 1.00 0.65 0.70 0.70
                  ltac:(left; reflexivity)
                  ltac:(right; right; left; reflexivity)
                  ltac:(reflexivity)
                  ltac:(left; reflexivity)
                  ltac:(right; reflexivity))).
Defined.

(** ** C9: a ratio outside every range *)

Lemma distance_below (r lo hi : Q) :
  r <= lo -> lo <= hi -> min2 (Qabs (r - lo)) (Qabs (r - hi)) == lo - r.
Proof.
  intros H1 H2.
  assert (E1 : Qabs (r - lo) == lo - r) by (rewrite Qabs_neg; lra).
  assert (E2 : Qabs (r - hi) == hi - r) by (rewrite Qabs_neg; lra).
  unfold min2. destruct (Qlt_bool _ _) eqn:E.
  - apply Qlt_bool_iff in E. lra.
  - exact E1.
Qed.

Lemma distance_above (r lo hi : Q) :
  hi <= r -> lo <= hi -> min2 (Qabs (r - lo)) (Qabs (r - hi)) == r - hi.
Proof.
  intros H1 H2.
  assert (E1 : Qabs (r - lo) == r - lo) by (rewrite Qabs_pos; lra).
  assert (E2 : Qabs (r - hi) == r - hi) by (rewrite Qabs_pos; lra).
  unfold min2. destruct (Qlt_bool _ _) eqn:E.
  - exact E2.
  - apply Qlt_bool_false in E. lra.
Qed.

(** The nine ranges cover the ratios from 0.50 to 1.00. *)
Lemma no_match_outside (ratio : Q) :
  find_matches ratio = [] -> ratio < 0.50 \/ 1.00 < ratio.
Proof.
  rewrite find_matches_flat_map. cbn [enumerate enumerate_from level_ranges flat_map hit].
  intros H.
  repeat match type of H with
  | (if ?c then _ else _) ++ _ = [] =>
      let E := fresh "E" in
      destruct c eqn:E; [discriminate H |];
      apply andb_false_iff in E; rewrite <- !not_true_iff_false, !Qle_bool_iff in E;
      cbn [app] in H
  end.
  lra.
Qed.

Lemma level_cases (l : Z) :
  (0 <= l <= 8)%Z ->
  l = 0%Z \/ l = 1%Z \/ l = 2%Z \/ l = 3%Z \/ l = 4%Z \/ l = 5%Z \/ l = 6%Z \/
  l = 7%Z \/ l = 8%Z.
Proof. lia. Qed.

Ltac each_level H :=
  destruct H as [-> | [-> | [-> | [-> | [-> | [-> | [-> | [-> | ->]]]]]]]].

Ltac compute_index :=
  repeat match goal with
  | |- context [index ?d ?l ?i] =>
      let x := eval vm_compute in (index d l i) in
      change (index d l i) with x
  end;
  cbn [fst snd].

Ltac compute_index_in H :=
  repeat match type of H with
  | context [index ?d ?l ?i] =>
      let x := eval vm_compute in (index d l i) in
      change (index d l i) with x in H
  end;
  cbn [fst snd] in H.

(** Below every range a level is as far as its minimum, above every range as
    far as its maximum. *)
Lemma boundary_distance_below (ratio : Q) (l : Z) :
  (0 <= l <= 8)%Z -> ratio < 0.50 ->
  boundary_distance ratio l == fst (index (0, 0) level_ranges l) - ratio.
Proof.
  intros Hl Hr. unfold boundary_distance.
  pose proof (level_cases l Hl) as Hc. each_level Hc;
    compute_index; apply distance_below; lra.
Qed.

Lemma boundary_distance_above (ratio : Q) (l : Z) :
  (0 <= l <= 8)%Z -> 1.00 < ratio ->
  boundary_distance ratio l == ratio - snd (index (0, 0) level_ranges l).
Proof.
  intros Hl Hr. unfold boundary_distance.
  pose proof (level_cases l Hl) as Hc. each_level Hc;
    compute_index; apply distance_above; lra.
Qed.

(** Below every range the closest boundary is the minimum of level 8. *)
Lemma closest_level_below (ratio : Q) : ratio < 0.50 -> closest_level ratio = Ok 8%Z.
Proof.
  intros Hr. destruct (closest_level_spec ratio) as (l & Hl & Hb & Hmin).
  rewrite Hl. f_equal.
  specialize (Hmin 8%Z ltac:(lia)).
  pose proof (boundary_distance_below ratio l Hb Hr) as E.
  pose proof (boundary_distance_below ratio 8 ltac:(lia) Hr) as E8.
  pose proof (level_cases l Hb) as Hc. each_level Hc; try reflexivity; exfalso;
    compute_index_in E; compute_index_in E8; lra.
Qed.

(** Above every range the closest boundary is the maximum of level 0. *)
Lemma closest_level_above (ratio : Q) : 1.00 < ratio -> closest_level ratio = Ok 0%Z.
Proof.
  intros Hr. destruct (closest_level_spec ratio) as (l & Hl & Hb & Hmin).
  rewrite Hl. f_equal.
  specialize (Hmin 0%Z ltac:(lia)).
  pose proof (boundary_distance_above ratio l Hb Hr) as E.
  pose proof (boundary_distance_above ratio 0 ltac:(lia) Hr) as E0.
  pose proof (level_cases l Hb) as Hc. each_level Hc; try reflexivity; exfalso;
    compute_index_in E; compute_index_in E0; lra.
Qed.

(** C9: for every ratio that no range holds, both estimators return the level
    whose nearer range boundary is closest to the ratio (level 8 below 0.50,
    level 0 above 1.00), with the confidence 0.5 as it is, not blended with
    the frame-size efficiency or the block-size variability. *)
Theorem closest_level_outside_ranges (ratio : Q) :
  find_matches ratio = [] ->
  exists l,
    closest_level ratio = Ok l /\ (0 <= l <= 8)%Z /\
    (forall l', (0 <= l' <= 8)%Z ->
       boundary_distance ratio l <= boundary_distance ratio l') /\
    (ratio < 0.50 /\ l = 8%Z \/ 1.00 < ratio /\ l = 0%Z) /\
    (forall info vmin vmax,
       truthy (get info "limited_analysis" (VBool false)) = false ->
       numeric info "compression_ratio" ratio ->
       info !! "min_blocksize"%string = Some vmin ->
       info !! "max_blocksize"%string = Some vmax ->
       flac_level_detection.estimate_compression_level info = Ok (l, 0.5)) /\
    (forall info min_b max_b min_f max_f,
       numeric info "compression_ratio" ratio ->
       numeric info "min_blocksize" min_b -> numeric info "max_blocksize" max_b ->
       numeric info "min_framesize" min_f -> numeric info "max_framesize" max_f ->
       min_b == max_b \/ ~ min_b == 0 ->
       exists m,
         flac_analyzer.estimate_compression_level info = Ok (Some l, 0.5, inr m)).
Proof.
  intros Hm. destruct (closest_level_spec ratio) as (l & Hl & Hb & Hmin).
  exists l. split; [exact Hl |]. split; [exact Hb |]. split; [exact Hmin |].
  split; [| split].
  - destruct (no_match_outside ratio Hm) as [H | H]; [left | right];
      (split; [exact H |]).
    + rewrite (closest_level_below ratio H) in Hl. congruence.
    + rewrite (closest_level_above ratio H) in Hl. congruence.
  - intros info vmin vmax Hlim Hr H1 H2.
    rewrite (detection_estimate_numeric info ratio vmin vmax Hlim Hr H1 H2).
    rewrite Hm, Hl. reflexivity.
  - intros info min_b max_b min_f max_f Hr Hb1 Hb2 Hf1 Hf2 Hdiv.
    rewrite (analyzer_estimate_numeric info ratio min_b max_b min_f max_f)
      by (first [assumption | destruct Hdiv as [H | H]; [left; now apply Qeq_bool_iff | now right]]).
    cbv zeta. rewrite Hm, Hl. eexists. reflexivity.
Qed.

(** A run of C9: the ratio 0.45 gives level 8 with confidence 0.5. *)
Lemma closest_level_outside_ranges_witness :
  find_matches 0.45 = [] /\
  flac_level_detection.estimate_compression_level low_ratio = Ok (8%Z, 0.5) /\
  exists m, flac_analyzer.estimate_compression_level low_ratio = Ok (Some 8%Z, 0.5, inr m).
Proof.
  split; [reflexivity |].
  destruct (closest_level_outside_ranges 0.45 eq_refl)
    as (l & Hl & _ & _ & _ & Hd & Ha).
  assert (E : l = 8%Z) by (vm_compute in Hl; congruence).
  subst l. split.
  - apply (Hd low_ratio (VInt 4096) (VInt 4096)); try reflexivity.
    exists (VFloat 0.45). split; reflexivity.
  - apply (Ha low_ratio 4096 4096 10 20).
    + exists (VFloat 0.45). split; reflexivity.
    + exists (VInt 4096). split; reflexivity.
    + exists (VInt 4096). split; reflexivity.
    + exists (VInt 10). split; reflexivity.
    + exists (VInt 20). split; reflexivity.
    + left. reflexivity.
Defined.

(** ** C10: the two estimators on the same metrics *)

(** C10 at its failing input: with a minimum block size of 0 and a maximum of
    4096, [flac_analyzer.estimate_compression_level] divides by zero and
    returns no level, while the copy in [flac_level_detection] returns level
    6.  On every other numeric input the two levels are equal
    ([estimators_agree]). *)
Theorem zero_min_blocksize_diverges :
  flac_analyzer.estimate_compression_level zero_min_blocksize = Raise ZeroDivisionError /\
  exists c,
    flac_level_detection.estimate_compression_level zero_min_blocksize = Ok (6%Z, c) /\
    c == 0.6.
Proof.
  split; [vm_compute; reflexivity |].
  exists (min2 ((20000000 # 40000000) * 1.2) 1.0).
  split; vm_compute; reflexivity.
Qed.

(** ** The level as a function of the ratio *)

Lemma Qabs_spec (x : Q) : (0 <= x /\ Qabs x == x) \/ (x <= 0 /\ Qabs x == - x).
Proof.
  destruct (Qlt_le_dec x 0) as [H | H].
  - right. split; [lra |]. apply Qabs_neg. lra.
  - left. split; [exact H |]. now apply Qabs_pos.
Qed.

Ltac closed_inverses :=
  unfold Qdiv in *;
  repeat match goal with
  | H : context [Qinv ?c] |- _ =>
      let v := eval vm_compute in (Qinv c) in change (Qinv c) with v in H
  | |- context [Qinv ?c] =>
      let v := eval vm_compute in (Qinv c) in change (Qinv c) with v
  end.

Ltac name_abs :=
  repeat match goal with
  | H : context [Qabs ?x] |- _ =>
      let a := fresh "a" in
      pose proof (Qabs_spec x); set (a := Qabs x) in *; clearbody a
  end.

Ltac by_arith :=
  unfold centrality in *; cbv zeta in *;
  repeat match goal with
  | H : context [Qlt_bool 0 ?c] |- _ =>
      let v := eval vm_compute in (Qlt_bool 0 c) in change (Qlt_bool 0 c) with v in H
  end;
  cbv iota in *; closed_inverses; name_abs; lra.

Ltac decide_tests :=
  repeat match goal with
  | |- context [Qle_bool ?a ?b] =>
      let E := fresh "E" in
      destruct (Qle_bool a b) eqn:E;
      [ apply Qle_bool_iff in E
      | apply not_true_iff_false in E; rewrite Qle_bool_iff in E ];
      cbn [andb app]; try (exfalso; lra)
  end.

Ltac decide_best :=
  cbn [max_by fold_left mbind result_bind mret result_ret]; unfold keep_max; cbn [snd];
  repeat match goal with
  | |- context [Qlt_bool (centrality ?a ?b ?c) (centrality ?d ?e ?f)] =>
      let E := fresh "E" in
      destruct (Qlt_bool (centrality a b c) (centrality d e f)) eqn:E;
      [ apply Qlt_bool_iff in E | apply Qlt_bool_false in E ];
      cbn [snd fst]; try (exfalso; by_arith)
  end.

Ltac unfold_matches :=
  rewrite find_matches_flat_map;
  let x := eval vm_compute in (enumerate level_ranges) in
  change (enumerate level_ranges) with x;
  cbn [flat_map hit].

Ltac band :=
  intros; unfold select_level; unfold_matches; decide_tests;
  first [ apply closest_level_below; lra | apply closest_level_above; lra
        | decide_best; reflexivity ].

Lemma select_level_8 (r : Q) : r < 137 # 250 -> select_level r = Ok 8%Z.
Proof. band. Qed.

Lemma select_level_7 (r : Q) : 137 # 250 <= r < 57 # 100 -> select_level r = Ok 7%Z.
Proof. band. Qed.

Lemma select_level_6 (r : Q) : 57 # 100 <= r < 133 # 225 -> select_level r = Ok 6%Z.
Proof. band. Qed.

Lemma select_level_5 (r : Q) : 133 # 225 <= r < 123 # 200 -> select_level r = Ok 5%Z.
Proof. band. Qed.

Lemma select_level_4 (r : Q) : 123 # 200 <= r < 127 # 200 -> select_level r = Ok 4%Z.
Proof. band. Qed.

Lemma select_level_3 (r : Q) : 127 # 200 <= r < 33 # 50 -> select_level r = Ok 3%Z.
Proof. band. Qed.

Lemma select_level_2 (r : Q) : 33 # 50 <= r < 179 # 260 -> select_level r = Ok 2%Z.
Proof. band. Qed.

Lemma select_level_1 (r : Q) : 179 # 260 <= r < 281 # 380 -> select_level r = Ok 1%Z.
Proof. band. Qed.

Lemma select_level_0 (r : Q) : 281 # 380 <= r -> select_level r = Ok 0%Z.
Proof. band. Qed.

Ltac split_lt r x :=
  let E := fresh "E" in
  destruct (Qlt_bool r x) eqn:E;
  [ apply Qlt_bool_iff in E | apply Qlt_bool_false in E ].

(** The level search is the step function [threshold_level]. *)
Lemma select_level_step (r : Q) : select_level r = Ok (threshold_level r).
Proof.
  unfold threshold_level.
  split_lt r (137 # 250); [now apply select_level_8 |].
  split_lt r (57 # 100); [now apply select_level_7 |].
  split_lt r (133 # 225); [now apply select_level_6 |].
  split_lt r (123 # 200); [now apply select_level_5 |].
  split_lt r (127 # 200); [now apply select_level_4 |].
  split_lt r (33 # 50); [now apply select_level_3 |].
  split_lt r (179 # 260); [now apply select_level_2 |].
  split_lt r (281 # 380); [now apply select_level_1 |].
  now apply select_level_0.
Qed.

Lemma threshold_level_antitone (r1 r2 : Q) :
  r1 <= r2 -> (threshold_level r2 <= threshold_level r1)%Z.
Proof.
  intros H. unfold threshold_level.
  repeat match goal with
  | |- context [Qlt_bool ?a ?b] =>
      let E := fresh "E" in
      destruct (Qlt_bool a b) eqn:E;
      [ apply Qlt_bool_iff in E | apply Qlt_bool_false in E ];
      try (exfalso; lra)
  end; lia.
Qed.

(** On numeric metrics both estimators return the level of the search. *)
Lemma numeric_metrics_level (info : gmap string pyval) (ratio : Q) :
  numeric_metrics info ratio -> both_estimate info (threshold_level ratio).
Proof.
  intros (Hl & Hr & min_b & max_b & min_f & max_f & Hb1 & Hb2 & Hf1 & Hf2 & Hdiv).
  destruct (estimators_agree info ratio min_b max_b min_f max_f Hl Hr Hb1 Hb2 Hf1 Hf2 Hdiv)
    as (l & c1 & c2 & m & Hs & Ha & Hd).
  rewrite select_level_step in Hs. injection Hs as <-.
  split; [now exists c2 | now exists c1, m].
Qed.

Lemma numeric_metrics_scenario : numeric_metrics scenario 0.59.
Proof.
  split; [reflexivity |]. split; [numeric_fact |].
  exists 4096, 4096, 10, 20. repeat (split; [numeric_fact |]). left. reflexivity.
Qed.

Lemma numeric_metrics_low_ratio : numeric_metrics low_ratio 0.45.
Proof.
  split; [reflexivity |]. split; [numeric_fact |].
  exists 4096, 4096, 10, 20. repeat (split; [numeric_fact |]). left. reflexivity.
Qed.

Lemma both_estimate_functional (info : gmap string pyval) (l1 l2 : Z) :
  both_estimate info l1 -> both_estimate info l2 -> l1 = l2.
Proof. intros [[c1 H1] _] [[c2 H2] _]. congruence. Qed.

(** A dictionary of the samples holds small numbers only. *)
Ltac sample_entries H :=
  repeat (apply lookup_insert_Some in H; destruct H as [[<- <-] | [_ H]]);
  try (apply lookup_singleton_Some in H; destruct H as [<- <-]).

Ltac small_number H :=
  try discriminate H; injection H as <-; unfold float_range; vm_compute; discriminate.

Lemma in_float_range_scenario : in_float_range scenario.
Proof.
  intros key x (v & Hv & Hx). unfold scenario in Hv. sample_entries Hv; small_number Hx.
Qed.

(** X1: on numeric metrics within the range of the floats both estimators
    compute a step function of the ratio alone: level 8 up to 137/250 = 0.548,
    then levels 7 to 1 from the steps 0.548, 0.57, 133/225, 0.615, 0.635, 0.66
    and 179/260, and level 0 from 281/380 on.  The default level 5 is the
    band from 133/225 (about 0.5911) to 0.615.  The bands leave out the
    ratios within [step_margin] of a step, where the rounding of two tying
    centralities decides between the two levels, and the negative ratios. *)
Theorem level_thresholds (info : gmap string pyval) (ratio : Q) :
  numeric_metrics info ratio ->
  in_float_range info ->
  (0 <= ratio <= (137 # 250) - step_margin -> both_estimate info 8) /\
  ((137 # 250) + step_margin <= ratio <= (57 # 100) - step_margin ->
   both_estimate info 7) /\
  ((57 # 100) + step_margin <= ratio <= (133 # 225) - step_margin ->
   both_estimate info 6) /\
  ((133 # 225) + step_margin <= ratio <= (123 # 200) - step_margin ->
   both_estimate info 5) /\
  ((123 # 200) + step_margin <= ratio <= (127 # 200) - step_margin ->
   both_estimate info 4) /\
  ((127 # 200) + step_margin <= ratio <= (33 # 50) - step_margin ->
   both_estimate info 3) /\
  ((33 # 50) + step_margin <= ratio <= (179 # 260) - step_margin ->
   both_estimate info 2) /\
  ((179 # 260) + step_margin <= ratio <= (281 # 380) - step_margin ->
   both_estimate info 1) /\
  ((281 # 380) + step_margin <= ratio -> both_estimate info 0).
Proof.
  intros H _. pose proof (numeric_metrics_level info ratio H) as L.
  pose proof (select_level_step ratio) as S.
  unfold step_margin.
  repeat match goal with |- _ /\ _ => split end; intros Hb;
    [ pose proof (select_level_8 ratio ltac:(lra)) as E
    | pose proof (select_level_7 ratio ltac:(split; lra)) as E
    | pose proof (select_level_6 ratio ltac:(split; lra)) as E
    | pose proof (select_level_5 ratio ltac:(split; lra)) as E
    | pose proof (select_level_4 ratio ltac:(split; lra)) as E
    | pose proof (select_level_3 ratio ltac:(split; lra)) as E
    | pose proof (select_level_2 ratio ltac:(split; lra)) as E
    | pose proof (select_level_1 ratio ltac:(split; lra)) as E
    | pose proof (select_level_0 ratio ltac:(lra)) as E ];
    rewrite S in E; injection E as E; rewrite E in L; exact L.
Qed.

(** A run of X1: the ratio 0.59 of the scenario is in the band of level 6. *)
Lemma level_thresholds_witness : both_estimate scenario 6.
Proof.
  apply (level_thresholds scenario 0.59 numeric_metrics_scenario in_float_range_scenario).
  split; vm_compute; discriminate.
Defined.

(** X2: the estimated level never rises with the ratio: of two numeric
    metrics, the one with the larger compression ratio gets the lower or the
    same level. *)
Theorem level_antitone (info1 info2 : gmap string pyval) (r1 r2 : Q) (l1 l2 : Z) :
  numeric_metrics info1 r1 -> numeric_metrics info2 r2 ->
  both_estimate info1 l1 -> both_estimate info2 l2 ->
  r1 <= r2 -> (l2 <= l1)%Z.
Proof.
  intros H1 H2 E1 E2 Hr.
  rewrite (both_estimate_functional _ _ _ E1 (numeric_metrics_level _ _ H1)).
  rewrite (both_estimate_functional _ _ _ E2 (numeric_metrics_level _ _ H2)).
  now apply threshold_level_antitone.
Qed.

(** A run of X2 on the ratios 0.45 and 0.59. *)
Lemma level_antitone_witness : (threshold_level 0.59 <= threshold_level 0.45)%Z.
Proof.
  apply (level_antitone low_ratio scenario 0.45 0.59 _ _
           numeric_metrics_low_ratio numeric_metrics_scenario
           (numeric_metrics_level _ _ numeric_metrics_low_ratio)
           (numeric_metrics_level _ _ numeric_metrics_scenario)).
  discriminate.
Defined.

Ltac consecutive :=
  cbn [map fst];
  first
    [ exists 0%nat, 0%nat; split; [lia | reflexivity]
    | exists 0%nat, 1%nat; split; [lia | reflexivity]
    | exists 0%nat, 2%nat; split; [lia | reflexivity]
    | exists 0%nat, 3%nat; split; [lia | reflexivity]
    | exists 1%nat, 1%nat; split; [lia | reflexivity]
    | exists 1%nat, 2%nat; split; [lia | reflexivity]
    | exists 1%nat, 3%nat; split; [lia | reflexivity]
    | exists 2%nat, 1%nat; split; [lia | reflexivity]
    | exists 2%nat, 2%nat; split; [lia | reflexivity]
    | exists 2%nat, 3%nat; split; [lia | reflexivity]
    | exists 3%nat, 1%nat; split; [lia | reflexivity]
    | exists 3%nat, 2%nat; split; [lia | reflexivity]
    | exists 3%nat, 3%nat; split; [lia | reflexivity]
    | exists 4%nat, 1%nat; split; [lia | reflexivity]
    | exists 4%nat, 2%nat; split; [lia | reflexivity]
    | exists 4%nat, 3%nat; split; [lia | reflexivity]
    | exists 5%nat, 1%nat; split; [lia | reflexivity]
    | exists 5%nat, 2%nat; split; [lia | reflexivity]
    | exists 5%nat, 3%nat; split; [lia | reflexivity]
    | exists 6%nat, 1%nat; split; [lia | reflexivity]
    | exists 6%nat, 2%nat; split; [lia | reflexivity]
    | exists 6%nat, 3%nat; split; [lia | reflexivity]
    | exists 7%nat, 1%nat; split; [lia | reflexivity]
    | exists 7%nat, 2%nat; split; [lia | reflexivity]
    | exists 8%nat, 1%nat; split; [lia | reflexivity] ].

Lemma matches_empty_iff (ratio : Q) :
  find_matches ratio = [] <-> ratio < 0.50 \/ 1.00 < ratio.
Proof.
  split; [apply no_match_outside |].
  intros H. unfold_matches. destruct H; decide_tests; reflexivity.
Qed.

(** X3: the ranges of the table cover exactly the ratios from 0.50 to 1.00,
    and a ratio matches at most three levels, which are consecutive and
    collected in increasing order. *)
Theorem matches_are_consecutive (ratio : Q) :
  (find_matches ratio = [] <-> ratio < 0.50 \/ 1.00 < ratio) /\
  exists first n,
    (n <= 3)%nat /\ map fst (find_matches ratio) = map Z.of_nat (seq first n).
Proof.
  split; [apply matches_empty_iff |].
  unfold_matches. decide_tests; consecutive.
Qed.

(** ** The centrality of a ratio in its range *)

Lemma centrality_same (ratio lo hi : Q) :
  flac_level_detection.centrality ratio lo hi = flac_analyzer.centrality ratio lo hi.
Proof. reflexivity. Qed.

(** X4: in a range with min < max the centrality is 0 at both ends, 1 at the
    midpoint and the same at equal distances from the two ends; in a range
    of no width it is 0 (the guard on [range_size]). *)
Theorem centrality_shape (lo hi : Q) :
  (lo < hi ->
     centrality lo lo hi == 0 /\ centrality hi lo hi == 0 /\
     centrality ((lo + hi) / 2) lo hi == 1 /\
     forall d, centrality (lo + d) lo hi == centrality (hi - d) lo hi) /\
  (hi <= lo -> forall ratio, centrality ratio lo hi = 0).
Proof.
  split.
  - intros H. unfold centrality. cbv zeta.
    assert (E : Qlt_bool 0 (hi - lo) = true) by (apply Qlt_bool_iff; lra).
    rewrite E.
    assert (Hw : ~ hi - lo == 0) by lra.
    split; [| split; [| split]].
    + assert (X : (lo - lo) / (hi - lo) - 0.5 == - (1 # 2)) by (field; exact Hw).
      rewrite X. reflexivity.
    + assert (X : (hi - lo) / (hi - lo) - 0.5 == 1 # 2) by (field; exact Hw).
      rewrite X. reflexivity.
    + assert (X : ((lo + hi) / 2 - lo) / (hi - lo) - 0.5 == 0) by (field; exact Hw).
      rewrite X. reflexivity.
    + intros d.
      assert (X : (hi - d - lo) / (hi - lo) - 0.5 == - ((lo + d - lo) / (hi - lo) - 0.5))
        by (field; exact Hw).
      rewrite X, Qabs_opp. reflexivity.
  - intros H ratio. unfold centrality. cbv zeta.
    assert (E : Qlt_bool 0 (hi - lo) = false) by (apply Qlt_bool_false; lra).
    now rewrite E.
Qed.

(** A run of X4 on the range of level 5. *)
Lemma centrality_shape_witness :
  centrality 0.58 0.58 0.63 == 0 /\ centrality 0.63 0.58 0.63 == 0 /\
  centrality ((0.58 + 0.63) / 2) 0.58 0.63 == 1 /\
  forall d, centrality (0.58 + d) 0.58 0.63 == centrality (0.63 - d) 0.58 0.63.
Proof.
  apply (proj1 (centrality_shape 0.58 0.63)). reflexivity.
Defined.

(** ** Missing keys and exceptions of the estimators *)

Ltac run_binds_in H := cbn [mbind result_bind mret result_ret] in H.

Ltac step H :=
  match type of H with
  | mbind _ ?x = _ => destruct x eqn:?; run_binds_in H
  | match ?x with _ => _ end = _ => destruct x eqn:?
  end.

Lemma required_keys_present (info : gmap string pyval) :
  forallb (contains info) ["compression_ratio"; "min_blocksize"; "max_blocksize"]%string = true <->
  is_Some (info !! "compression_ratio"%string) /\
  is_Some (info !! "min_blocksize"%string) /\
  is_Some (info !! "max_blocksize"%string).
Proof.
  cbn [forallb]. unfold contains.
  destruct (info !! "compression_ratio"%string), (info !! "min_blocksize"%string),
    (info !! "max_blocksize"%string); cbn;
    (split; [intros H; try discriminate H; repeat split; eauto
            | intros (H1 & H2 & H3); try reflexivity;
              first [destruct H1 as [? H1]; discriminate H1
                    | destruct H2 as [? H2]; discriminate H2
                    | destruct H3 as [? H3]; discriminate H3]]).
Qed.

(** X5: [flac_analyzer.estimate_compression_level] returns no level exactly
    when one of compression_ratio, min_blocksize, max_blocksize is missing,
    and then the confidence is 0 and the third component is the message. *)
Theorem analyzer_no_level_iff_missing (info : gmap string pyval) :
  let missing :=
    info !! "compression_ratio"%string = None \/
    info !! "min_blocksize"%string = None \/
    info !! "max_blocksize"%string = None in
  (missing ->
   flac_analyzer.estimate_compression_level info
     = Ok (None, 0, inl "Missing required information"%string)) /\
  (forall c m,
     flac_analyzer.estimate_compression_level info = Ok (None, c, m) -> missing).
Proof.
  cbv zeta. split.
  - intros H. unfold flac_analyzer.estimate_compression_level.
    destruct (forallb _ _) eqn:E; [| reflexivity].
    apply required_keys_present in E. destruct E as ([? E1] & [? E2] & [? E3]).
    destruct H as [H | [H | H]]; congruence.
  - intros c m H.
    destruct (info !! "compression_ratio"%string) eqn:E1; [| now left].
    destruct (info !! "min_blocksize"%string) eqn:E2; [| right; now left].
    destruct (info !! "max_blocksize"%string) eqn:E3; [| right; now right].
    exfalso. unfold flac_analyzer.estimate_compression_level in H.
    rewrite (proj2 (required_keys_present info)) in H by (rewrite E1, E2, E3; eauto).
    cbn [negb] in H.
    repeat step H; discriminate H.
Qed.

(** A run of X5: a dictionary that holds only the file size. *)
Lemma analyzer_no_level_iff_missing_witness :
  flac_analyzer.estimate_compression_level (limited_info 1000)
    = Ok (None, 0, inl "Missing required information"%string).
Proof.
  apply (proj1 (analyzer_no_level_iff_missing (limited_info 1000))).
  left. reflexivity.
Defined.

(** X6: with a compression ratio that, if it is a number, is within the
    range of the floats, [flac_level_detection.estimate_compression_level]
    raises only [TypeError], and exactly when the analysis is not limited,
    the three required keys are present and the compression ratio is not a
    number.  (An integer ratio beyond the floats makes the distances of
    line 149 raise [OverflowError].) *)
Theorem detection_raises_iff (info : gmap string pyval) (e : exn) :
  (forall ratio, numeric info "compression_ratio" ratio -> float_range ratio) ->
  flac_level_detection.estimate_compression_level info = Raise e <->
  e = TypeError /\
  truthy (get info "limited_analysis" (VBool false)) = false /\
  is_Some (info !! "min_blocksize"%string) /\
  is_Some (info !! "max_blocksize"%string) /\
  exists v, info !! "compression_ratio"%string = Some v /\ as_num v = None.
Proof.
  intros _.
  unfold flac_level_detection.estimate_compression_level. split.
  - destruct (truthy _) eqn:Et; [discriminate |].
    destruct (forallb _ _) eqn:Ek; [| discriminate].
    apply required_keys_present in Ek. destruct Ek as ([v Hv] & H1 & H2).
    cbn [negb]. rewrite (getitem_lookup _ _ _ Hv). run_binds.
    unfold num. destruct (as_num v) as [ratio|] eqn:En; run_binds.
    + rewrite find_matches_same, closest_level_same.
      destruct (find_matches ratio) as [|m0 ms] eqn:Hm.
      * destruct (closest_level_spec ratio) as (l & -> & _). run_binds. discriminate.
      * destruct (max_by_spec (fun m : Z * Q => snd m) (m0 :: ms)) as ([l c] & -> & _);
          [discriminate |].
        run_binds. destruct H1 as [v1 H1], H2 as [v2 H2].
        rewrite (getitem_lookup _ _ _ H1), (getitem_lookup _ _ _ H2). run_binds.
        discriminate.
    + intros [= <-]. repeat split; try assumption. now exists v.
  - intros (-> & Et & [v1 H1] & [v2 H2] & v & Hv & En).
    rewrite Et. cbn [forallb].
    rewrite (contains_lookup _ _ _ Hv), (contains_lookup _ _ _ H1),
      (contains_lookup _ _ _ H2).
    cbn [andb negb]. rewrite (getitem_lookup _ _ _ Hv). run_binds.
    unfold num. now rewrite En.
Qed.

(** Metrics whose compression ratio is text. *)
Lemma detection_raises_iff_witness :
  flac_level_detection.estimate_compression_level
    (<["compression_ratio"%string := VStr "0.59"]> scenario) = Raise TypeError.
Proof.
  apply (detection_raises_iff
           (<["compression_ratio"%string := VStr "0.59"]> scenario) TypeError).
  { intros ratio (v & Hv & Hx). rewrite lookup_insert_eq in Hv.
    injection Hv as <-. discriminate Hx. }
  split; [reflexivity |]. split; [reflexivity |].
  split; [now exists (VInt 4096) |]. split; [now exists (VInt 4096) |].
  exists (VStr "0.59"). split; reflexivity.
Defined.

(** [flac_analyzer.estimate_compression_level] once the ratio and the block
    sizes are read: what is left is the frame-size efficiency and the level
    search. *)
Lemma analyzer_estimate_blocks (info : gmap string pyval) (ratio min_b max_b : Q) :
  numeric info "compression_ratio" ratio ->
  numeric info "min_blocksize" min_b -> numeric info "max_blocksize" max_b ->
  min_b == max_b \/ ~ min_b == 0 ->
  flac_analyzer.estimate_compression_level info =
    (max_framesize ← getitem info "max_framesize";
     positive ← py_gt max_framesize (VInt 0);
     framesize_efficiency ←
       (if positive : bool then
          min_framesize ← getitem info "min_framesize";
          q ← py_truediv min_framesize max_framesize;
          Ok (1 - q)
        else Ok 0);
     let bv := if Qeq_bool min_b max_b then 0 else max_b / min_b in
     match find_matches ratio with
     | [] =>
         l ← closest_level ratio;
         Ok (Some l, 0.5, inr (metrics_of ratio bv framesize_efficiency))
     | ms =>
         best ← max_by (fun m : Z * Q => snd m) ms;
         Ok (Some (fst best),
             0.7 * snd best + 0.2 * framesize_efficiency + 0.1 * min2 1 bv,
             inr (metrics_of ratio bv framesize_efficiency))
     end).
Proof.
  intros (vr & Hr & Nr) (vb1 & Hb1 & Nb1) (vb2 & Hb2 & Nb2) Hdiv.
  unfold flac_analyzer.estimate_compression_level.
  cbn [forallb].
  rewrite (contains_lookup _ _ _ Hr), (contains_lookup _ _ _ Hb1),
    (contains_lookup _ _ _ Hb2).
  cbn [andb negb].
  rewrite (getitem_lookup _ _ _ Hr), (getitem_lookup _ _ _ Hb1),
    (getitem_lookup _ _ _ Hb2).
  run_binds. rewrite (num_numeric _ _ Nr). run_binds.
  unfold py_eq. rewrite Nb1, Nb2.
  assert (E : (if Qeq_bool min_b max_b then Ok 0 else py_truediv vb2 vb1)
              = Ok (if Qeq_bool min_b max_b then 0 else max_b / min_b)).
  { destruct (Qeq_bool min_b max_b) eqn:Eb; [reflexivity |].
    unfold py_truediv. rewrite (num_numeric _ _ Nb1), (num_numeric _ _ Nb2). run_binds.
    assert (E0 : Qeq_bool min_b 0 = false).
    { apply not_true_iff_false. intros E0. apply Qeq_bool_iff in E0.
      destruct Hdiv as [H | H]; [| now apply H].
      apply Qeq_bool_iff in H. congruence. }
    now rewrite E0. }
  rewrite E. run_binds.
  destruct (getitem info "max_framesize") as [vf2|]; run_binds; [| reflexivity].
  destruct (py_gt vf2 (VInt 0)) as [positive|]; run_binds; [| reflexivity].
  match goal with
  | |- mbind _ ?x = _ => destruct x as [fe|]; run_binds; [| reflexivity]
  end.
  unfold metrics_of.
  destruct (find_matches ratio) as [|m0 ms]; [reflexivity |].
  destruct (max_by _ (m0 :: ms)) as [[level c]|]; reflexivity.
Qed.

Lemma analyzer_numeric_returns (info : gmap string pyval)
    (ratio min_b max_b min_f max_f : Q) :
  numeric info "compression_ratio" ratio ->
  numeric info "min_blocksize" min_b -> numeric info "max_blocksize" max_b ->
  numeric info "min_framesize" min_f -> numeric info "max_framesize" max_f ->
  min_b == max_b \/ ~ min_b == 0 ->
  exists l c m,
    flac_analyzer.estimate_compression_level info = Ok (Some l, c, inr m) /\
    select_level ratio = Ok l.
Proof.
  intros Hr Hb1 Hb2 Hf1 Hf2 Hdiv.
  rewrite (analyzer_estimate_numeric info ratio min_b max_b min_f max_f)
    by (first [assumption | destruct Hdiv as [H | H]; [left; now apply Qeq_bool_iff | now right]]).
  cbv zeta. unfold select_level.
  destruct (find_matches ratio) as [|m0 ms] eqn:Hm.
  - destruct (closest_level_spec ratio) as (l & -> & _). run_binds.
    now eexists l, _, _.
  - destruct (max_by_spec (fun m : Z * Q => snd m) (m0 :: ms)) as ([l c] & -> & _);
      [discriminate |].
    run_binds. now eexists l, _, _.
Qed.

(** X7: on numeric metrics within the range of the floats
    [flac_analyzer.estimate_compression_level] raises exactly when the
    minimum block size is 0 and differs from the maximum, and the exception
    is [ZeroDivisionError]; otherwise it returns one of the nine levels.
    (Beyond that range the divisions of lines 108 and 112 and the distances
    of line 149 raise [OverflowError].) *)
Theorem analyzer_zero_division_iff (info : gmap string pyval)
    (ratio min_b max_b min_f max_f : Q) :
  numeric info "compression_ratio" ratio ->
  numeric info "min_blocksize" min_b -> numeric info "max_blocksize" max_b ->
  numeric info "min_framesize" min_f -> numeric info "max_framesize" max_f ->
  Forall float_range [ratio; min_b; max_b; min_f; max_f] ->
  (min_b == 0 /\ ~ min_b == max_b ->
   flac_analyzer.estimate_compression_level info = Raise ZeroDivisionError) /\
  (~ (min_b == 0 /\ ~ min_b == max_b) ->
   exists l c m,
     flac_analyzer.estimate_compression_level info = Ok (Some l, c, inr m) /\
     (0 <= l <= 8)%Z).
Proof.
  intros Hr Hb1 Hb2 Hf1 Hf2 _. split.
  - intros [Hz Hne].
    destruct Hr as (vr & Hr & Nr), Hb1 as (vb1 & Hb1 & Nb1), Hb2 as (vb2 & Hb2 & Nb2).
    unfold flac_analyzer.estimate_compression_level.
    cbn [forallb].
    rewrite (contains_lookup _ _ _ Hr), (contains_lookup _ _ _ Hb1),
      (contains_lookup _ _ _ Hb2).
    cbn [andb negb].
    rewrite (getitem_lookup _ _ _ Hr), (getitem_lookup _ _ _ Hb1),
      (getitem_lookup _ _ _ Hb2).
    run_binds. rewrite (num_numeric _ _ Nr). run_binds.
    unfold py_eq, py_truediv. rewrite Nb1, Nb2.
    rewrite (num_numeric _ _ Nb1), (num_numeric _ _ Nb2). run_binds.
    assert (E1 : Qeq_bool min_b max_b = false).
    { apply not_true_iff_false. intros E. now apply Qeq_bool_iff in E. }
    assert (E2 : Qeq_bool min_b 0 = true) by now apply Qeq_bool_iff.
    rewrite E1, E2. reflexivity.
  - intros Hok.
    assert (Hdiv : min_b == max_b \/ ~ min_b == 0).
    { destruct (Qeq_dec min_b max_b) as [E | E]; [now left | right].
      intros Hz. apply Hok. now split. }
    destruct (analyzer_numeric_returns info ratio min_b max_b min_f max_f)
      as (l & c & m & Ha & Hs); try assumption.
    exists l, c, m. split; [exact Ha |].
    destruct (select_level_total ratio) as (l' & Hl' & Hb). congruence.
Qed.

(** A run of X7 on a minimum block size of 0. *)
Lemma analyzer_zero_division_iff_witness :
  flac_analyzer.estimate_compression_level zero_min_blocksize = Raise ZeroDivisionError.
Proof.
  apply (proj1 (analyzer_zero_division_iff zero_min_blocksize 0.59 0 4096 10 20
                  ltac:(numeric_fact) ltac:(numeric_fact) ltac:(numeric_fact)
                  ltac:(numeric_fact) ltac:(numeric_fact)
                  ltac:(repeat constructor; unfold float_range; vm_compute;
                        discriminate))).
  split; [reflexivity | discriminate].
Defined.

(** X8: once the ratio and the block sizes are read without error,
    [flac_analyzer.estimate_compression_level] needs max_framesize and raises
    [KeyError] without it; it reads min_framesize only when max_framesize is
    positive: with a max_framesize that is not positive it returns a level
    with frame-size efficiency 0, whatever min_framesize is or is not. *)
Theorem analyzer_framesize_keys (info : gmap string pyval) (ratio min_b max_b : Q) :
  numeric info "compression_ratio" ratio ->
  numeric info "min_blocksize" min_b -> numeric info "max_blocksize" max_b ->
  min_b == max_b \/ ~ min_b == 0 ->
  (info !! "max_framesize"%string = None ->
   flac_analyzer.estimate_compression_level info = Raise (KeyError "max_framesize")) /\
  (forall max_f,
     numeric info "max_framesize" max_f -> 0 < max_f ->
     info !! "min_framesize"%string = None ->
     flac_analyzer.estimate_compression_level info = Raise (KeyError "min_framesize")) /\
  (forall max_f,
     numeric info "max_framesize" max_f -> max_f <= 0 ->
     exists l c m,
       flac_analyzer.estimate_compression_level info = Ok (Some l, c, inr m) /\
       (0 <= l <= 8)%Z /\
       m !! "framesize_efficiency"%string = Some 0).
Proof.
  intros Hr Hb1 Hb2 Hdiv.
  rewrite (analyzer_estimate_blocks info ratio min_b max_b Hr Hb1 Hb2 Hdiv).
  split; [| split].
  - intros H. unfold getitem. now rewrite H.
  - intros max_f (vf & Hf & Nf) Hpos Hmin.
    rewrite (getitem_lookup _ _ _ Hf). run_binds.
    unfold py_gt. rewrite (num_numeric _ _ Nf). run_binds.
    change (num (VInt 0)) with (Ok (inject_Z 0)). run_binds.
    rewrite (proj2 (Qlt_bool_iff (inject_Z 0) max_f)) by exact Hpos.
    unfold getitem. now rewrite Hmin.
  - intros max_f (vf & Hf & Nf) Hneg.
    rewrite (getitem_lookup _ _ _ Hf). run_binds.
    unfold py_gt. rewrite (num_numeric _ _ Nf). run_binds.
    change (num (VInt 0)) with (Ok (inject_Z 0)). run_binds.
    rewrite (proj2 (Qlt_bool_false (inject_Z 0) max_f)) by exact Hneg.
    run_binds. cbv zeta.
    destruct (select_level_total ratio) as (l & Hs & Hb). unfold select_level in Hs.
    destruct (find_matches ratio) as [|m0 ms].
    + rewrite Hs. run_binds. eexists l, _, _. split; [reflexivity |].
      split; [exact Hb | apply metrics_of_lookup].
    + destruct (max_by _ (m0 :: ms)) as [[l' c]|]; run_binds_in Hs; [| discriminate Hs].
      injection Hs as Hs. cbn [fst] in Hs. subst l'. run_binds.
      eexists l, _, _. split; [reflexivity |].
      split; [exact Hb | apply metrics_of_lookup].
Qed.

(** A run of X8 on the metrics without frame sizes. *)
Lemma analyzer_framesize_keys_witness :
  flac_analyzer.estimate_compression_level no_framesizes = Raise (KeyError "max_framesize").
Proof.
  apply (proj1 (analyzer_framesize_keys no_framesizes 0.59 4096 4096
                  ltac:(numeric_fact) ltac:(numeric_fact) ltac:(numeric_fact)
                  ltac:(left; reflexivity))).
  reflexivity.
Defined.

(** ** What the probes keep in the dictionary *)

Lemma parse_basic_info_same (stdout : string) (info : gmap string pyval) :
  flac_level_detection.parse_basic_info stdout info
  = flac_analyzer.parse_basic_info stdout info.
Proof. reflexivity. Qed.

Lemma parse_blocksize_info_same (stdout : string) (info : gmap string pyval) :
  flac_level_detection.parse_blocksize_info stdout info
  = flac_analyzer.parse_blocksize_info stdout info.
Proof. reflexivity. Qed.

Lemma parse_basic_info_keeps (stdout : string) (info : gmap string pyval) (key : string) :
  is_Some (info !! key) -> is_Some (flac_analyzer.parse_basic_info stdout info !! key).
Proof.
  unfold flac_analyzer.parse_basic_info. revert info.
  induction (splitlines stdout) as [|line lines IH]; intros info H; cbn [fold_left];
    [exact H |].
  apply IH. destruct (has_char ":" (strip line)); [| exact H].
  destruct (split_once ":" (strip line)) as [k v].
  destruct (decide (replace " " "_" (lower (strip k)) = key)) as [-> | Hne].
  - rewrite lookup_insert_eq. eauto.
  - now rewrite lookup_insert_ne.
Qed.

Lemma parse_blocksize_info_keeps (stdout : string) (info info' : gmap string pyval)
    (key : string) :
  flac_analyzer.parse_blocksize_info stdout info = Ok info' ->
  is_Some (info !! key) -> is_Some (info' !! key).
Proof.
  unfold flac_analyzer.parse_blocksize_info. intros H Hk.
  destruct (4 <=? length (splitlines stdout))%nat; [| now injection H as <-].
  repeat step H; try discriminate H. injection H as <-.
  repeat (rewrite lookup_insert; case_decide; [eauto |]). exact Hk.
Qed.

Lemma calculate_derived_statistics_keeps (w : world) (file_size : Z)
    (info info' : gmap string pyval) (key : string) :
  flac_analyzer.calculate_derived_statistics w file_size info = Ok info' ->
  is_Some (info !! key) -> is_Some (info' !! key).
Proof.
  unfold flac_analyzer.calculate_derived_statistics. intros H Hk.
  destruct (_ && _); [| now injection H as <-].
  repeat step H; try discriminate H; injection H as <-;
    repeat (rewrite lookup_insert; case_decide; [eauto |]); exact Hk.
Qed.

Lemma dict_truthy_lookup {V} (d : gmap string V) (key : string) :
  is_Some (d !! key) -> dict_truthy d = true.
Proof.
  intros [v H]. unfold dict_truthy. apply negb_true_iff, Nat.eqb_neq.
  intros E. apply map_size_empty_iff in E. subst d. now rewrite lookup_empty in H.
Qed.

(** The results of the probe of [flac_level_detection] have four shapes. *)
Lemma detection_analyze_cases (w : world) (flac_file : string)
    (r : option (gmap string pyval)) :
  flac_level_detection.analyze_flac_file w flac_file = Ok r ->
  r = None \/
  r = Some (limited_info (getsize w flac_file)) \/
  (exists message, r = Some (limited_info_error (getsize w flac_file) message)) \/
  (exists out1 out2 info,
      subprocess_run w (analyze_cmd flac_file) = Ok out1 /\
      subprocess_run w (show_cmd flac_file) = Ok out2 /\
      parse_outputs w (getsize w flac_file) out1 out2 = Ok info /\
      r = Some info).
Proof.
  unfold flac_level_detection.analyze_flac_file.
  fold (version_cmd "flac") (version_cmd "metaflac")
    (analyze_cmd flac_file) (show_cmd flac_file).
  destruct (path_exists w flac_file); cbn [negb]; [| intros [= <-]; now left].
  destruct (subprocess_run w (version_cmd "flac")) as [v1 | e1]; run_binds.
  2: { destruct e1; cbn; intros [= <-]; auto. }
  destruct (subprocess_run w (version_cmd "metaflac")) as [v2 | e2]; run_binds.
  2: { destruct e2; cbn; intros [= <-]; auto. }
  cbn [try_except negb].
  destruct (subprocess_run w (analyze_cmd flac_file)) as [out1 | e1]; run_binds.
  2: { destruct e1; cbn; intros [= <-]; eauto. }
  destruct (subprocess_run w (show_cmd flac_file)) as [out2 | e2]; run_binds.
  2: { destruct e2; cbn; intros [= <-]; eauto. }
  destruct (flac_level_detection.parse_blocksize_info out2 _) as [info1 | e] eqn:E1;
    run_binds.
  2: { destruct e; cbn; intros [= <-]; eauto. }
  destruct (flac_level_detection.calculate_derived_statistics w _ info1) as [info | e] eqn:E2;
    run_binds.
  2: { destruct e; cbn; intros [= <-]; eauto. }
  intros [= <-]. right; right; right. exists out1, out2, info.
  repeat (split; [reflexivity |]). split; [| reflexivity].
  unfold parse_outputs. cbv zeta.
  rewrite parse_blocksize_info_same, parse_basic_info_same in E1. rewrite E1.
  exact E2.
Qed.

(** The results of the probe of [flac_analyzer] have two shapes. *)
Lemma analyzer_analyze_cases (w : world) (flac_file : string)
    (r : option (gmap string pyval)) :
  flac_analyzer.analyze_flac_file w flac_file = Ok r ->
  r = None \/
  (exists out1 out2 info,
      subprocess_run w (analyze_cmd flac_file) = Ok out1 /\
      subprocess_run w (show_cmd flac_file) = Ok out2 /\
      parse_outputs w (getsize w flac_file) out1 out2 = Ok info /\
      r = Some info).
Proof.
  unfold flac_analyzer.analyze_flac_file.
  fold (analyze_cmd flac_file) (show_cmd flac_file).
  destruct (path_exists w flac_file); cbn [negb]; [| discriminate].
  destruct (subprocess_run w (analyze_cmd flac_file)) as [out1 | e1]; run_binds.
  2: { destruct e1; cbn; intros [= <-]; eauto. }
  destruct (subprocess_run w (show_cmd flac_file)) as [out2 | e2]; run_binds.
  2: { destruct e2; cbn; intros [= <-]; eauto. }
  destruct (flac_analyzer.parse_blocksize_info out2 _) as [info1 | e] eqn:E1; run_binds.
  2: { destruct e; cbn; intros [= <-]; eauto. }
  destruct (flac_analyzer.calculate_derived_statistics w _ info1) as [info | e] eqn:E2;
    run_binds.
  2: { destruct e; cbn; intros [= <-]; eauto. }
  intros [= <-]. right. exists out1, out2, info.
  repeat (split; [reflexivity |]). split; [| reflexivity].
  unfold parse_outputs. cbv zeta. rewrite E1. exact E2.
Qed.

Lemma parse_outputs_keeps_file_size (w : world) (file_size : Z) (out1 out2 : string)
    (info : gmap string pyval) :
  parse_outputs w file_size out1 out2 = Ok info -> is_Some (info !! "file_size"%string).
Proof.
  unfold parse_outputs. cbv zeta. intros H.
  destruct (parse_blocksize_info out2 _) as [info1 | e] eqn:E1; run_binds_in H;
    [| discriminate H].
  apply (calculate_derived_statistics_keeps _ _ _ _ _ H).
  apply (parse_blocksize_info_keeps _ _ _ _ E1).
  apply parse_basic_info_keeps. rewrite lookup_insert_eq. eauto.
Qed.

(** X9: a dictionary returned by either probe is never empty: it has the key
    file_size, so the test [if not info] of the callers is true only for
    [None]. *)
Theorem probe_result_has_file_size (w : world) (flac_file : string)
    (info : gmap string pyval) :
  flac_level_detection.analyze_flac_file w flac_file = Ok (Some info) \/
  flac_analyzer.analyze_flac_file w flac_file = Ok (Some info) ->
  is_Some (info !! "file_size"%string) /\ dict_truthy info = true.
Proof.
  intros H.
  assert (Hk : is_Some (info !! "file_size"%string)).
  { destruct H as [H | H].
    - apply detection_analyze_cases in H.
      destruct H as [H | [H | [[message H] | (out1 & out2 & info' & _ & _ & Hp & H)]]];
        try discriminate H; injection H as ->.
      + now exists (VInt (getsize w flac_file)).
      + now exists (VInt (getsize w flac_file)).
      + now apply parse_outputs_keeps_file_size in Hp.
    - apply analyzer_analyze_cases in H.
      destruct H as [H | (out1 & out2 & info' & _ & _ & Hp & H)];
        try discriminate H; injection H as ->.
      now apply parse_outputs_keeps_file_size in Hp. }
  split; [exact Hk | now apply (dict_truthy_lookup info "file_size")].
Qed.

(** A run of X9: one file and no tools. *)
Lemma probe_result_has_file_size_witness :
  is_Some (limited_info 1000 !! "file_size"%string) /\
  dict_truthy (limited_info 1000) = true.
Proof.
  apply (probe_result_has_file_size (sample_world no_tools) "track.flac").
  left. reflexivity.
Defined.

(** ** The confidence gate of [get_flac_compression_level] *)

Lemma get_after_probe (w : world) (flac_file : string) (threshold : pyval)
    (info : gmap string pyval) :
  flac_level_detection.analyze_flac_file w flac_file = Ok (Some info) ->
  flac_level_detection.get_flac_compression_level w flac_file threshold =
    try_except
      ('(level, confidence) ← flac_level_detection.estimate_compression_level info;
       low ← py_lt (VFloat confidence) threshold;
       if low : bool then Ok 5%Z else Ok level)
      (fun _ => Ok 5%Z).
Proof.
  intros H. unfold flac_level_detection.get_flac_compression_level.
  rewrite H. run_binds.
  destruct (probe_result_has_file_size w flac_file info (or_introl H)) as [_ ->].
  reflexivity.
Qed.

Lemma get_estimated (w : world) (flac_file : string) (threshold : pyval) (t : Q)
    (info : gmap string pyval) (l : Z) (c : Q) :
  flac_level_detection.analyze_flac_file w flac_file = Ok (Some info) ->
  flac_level_detection.estimate_compression_level info = Ok (l, c) ->
  as_num threshold = Some t ->
  flac_level_detection.get_flac_compression_level w flac_file threshold
    = Ok (if Qlt_bool c t then 5%Z else l).
Proof.
  intros Ha He Ht. rewrite (get_after_probe _ _ _ _ Ha), He. run_binds.
  unfold py_lt. change (num (VFloat c)) with (Ok c). rewrite (num_numeric _ _ Ht).
  run_binds. now destruct (Qlt_bool c t).
Qed.

(** X10: the gate of [get_flac_compression_level].  A threshold that is not
    a number, or a number above 1, always gives the default level 5; for a
    numeric threshold t and an estimate (level, confidence) the result is the
    level when t <= confidence and 5 otherwise; and a level other than 5
    that is returned at one threshold is returned at every lower one. *)
Theorem confidence_gate (w : world) (flac_file : string) (threshold : pyval) :
  (as_num threshold = None ->
   flac_level_detection.get_flac_compression_level w flac_file threshold = Ok 5%Z) /\
  (forall t, as_num threshold = Some t -> 1 < t ->
   flac_level_detection.get_flac_compression_level w flac_file threshold = Ok 5%Z) /\
  (forall t info l c,
     as_num threshold = Some t ->
     flac_level_detection.analyze_flac_file w flac_file = Ok (Some info) ->
     flac_level_detection.estimate_compression_level info = Ok (l, c) ->
     (t <= c ->
      flac_level_detection.get_flac_compression_level w flac_file threshold = Ok l) /\
     (c < t ->
      flac_level_detection.get_flac_compression_level w flac_file threshold = Ok 5%Z)) /\
  (forall t lower t' l,
     as_num threshold = Some t -> as_num lower = Some t' -> t' <= t ->
     flac_level_detection.get_flac_compression_level w flac_file threshold = Ok l ->
     l <> 5%Z ->
     flac_level_detection.get_flac_compression_level w flac_file lower = Ok l).
Proof.
  destruct (detection_analyze_total w flac_file) as [[info|] Ha].
  2: { assert (G : forall v,
         flac_level_detection.get_flac_compression_level w flac_file v = Ok 5%Z).
       { intros v. unfold flac_level_detection.get_flac_compression_level.
         now rewrite Ha. }
       repeat match goal with |- _ /\ _ => split end; intros.
       - apply G.
       - apply G.
       - congruence.
       - rewrite G in *. congruence. }
  destruct (flac_level_detection.estimate_compression_level info) as [[l c]|e] eqn:He.
  2: { assert (G : forall v,
         flac_level_detection.get_flac_compression_level w flac_file v = Ok 5%Z).
       { intros v. now rewrite (get_after_probe _ _ _ _ Ha), He. }
       repeat match goal with |- _ /\ _ => split end; intros.
       - apply G.
       - apply G.
       - congruence.
       - rewrite G in *. congruence. }
  pose proof (detection_estimate_bounds info l c He) as [_ Hc].
  repeat match goal with |- _ /\ _ => split end.
  - intros Hn. rewrite (get_after_probe _ _ _ _ Ha), He. run_binds.
    unfold py_lt, num. rewrite Hn. reflexivity.
  - intros t Ht H1. rewrite (get_estimated _ _ _ _ _ _ _ Ha He Ht).
    rewrite (proj2 (Qlt_bool_iff c t)) by lra. reflexivity.
  - intros t info' l' c' Ht Ha' He'.
    assert (info' = info) by congruence. subst info'.
    assert (E : (l', c') = (l, c)) by congruence. injection E as -> ->.
    rewrite (get_estimated _ _ _ _ _ _ _ Ha He Ht). split; intros H.
    + now rewrite (proj2 (Qlt_bool_false c t)).
    + now rewrite (proj2 (Qlt_bool_iff c t)).
  - intros t lower t' l' Ht Ht' Hle Hg Hne.
    rewrite (get_estimated _ _ _ _ _ _ _ Ha He Ht) in Hg.
    rewrite (get_estimated _ _ _ _ _ _ _ Ha He Ht').
    destruct (Qlt_bool c t) eqn:E; [congruence |].
    apply Qlt_bool_false in E.
    rewrite (proj2 (Qlt_bool_false c t')) by lra. exact Hg.
Qed.

(** A run of X10: the threshold 1.1 on a stream with an estimate. *)
Lemma confidence_gate_witness :
  flac_level_detection.get_flac_compression_level
    (sample_world (sample_tools report_with_duration)) "track.flac" (VFloat 1.1) = Ok 5%Z.
Proof.
  apply (proj1 (proj2 (confidence_gate
           (sample_world (sample_tools report_with_duration)) "track.flac" (VFloat 1.1)))
           1.1 eq_refl).
  reflexivity.
Defined.

(** X11: a file whose compression ratio lies outside every range gets the
    default level 5 at every threshold above 0.5, the default 0.7 included;
    the level closest to it is returned only at thresholds up to 0.5. *)
Theorem out_of_range_gets_default (w : world) (flac_file : string)
    (info : gmap string pyval) (ratio : Q) (threshold : pyval) (t : Q) :
  flac_level_detection.analyze_flac_file w flac_file = Ok (Some info) ->
  numeric info "compression_ratio" ratio ->
  ratio < 0.50 \/ 1.00 < ratio ->
  as_num threshold = Some t ->
  0.5 < t ->
  flac_level_detection.get_flac_compression_level w flac_file threshold = Ok 5%Z.
Proof.
  intros Ha Hr Hout Ht Hlt.
  destruct (flac_level_detection.estimate_compression_level info) as [[l c]|e] eqn:He.
  2: { now rewrite (get_after_probe _ _ _ _ Ha), He. }
  rewrite (get_estimated _ _ _ _ _ _ _ Ha He Ht).
  assert (Hc : c <= 0.5).
  { revert He. unfold flac_level_detection.estimate_compression_level.
    destruct (truthy _); [intros [= <- <-]; lra |].
    destruct (forallb _ _) eqn:Ek; cbn [negb]; [| intros [= <- <-]; lra].
    destruct Hr as (v & Hv & Nv).
    rewrite (getitem_lookup _ _ _ Hv). run_binds.
    rewrite (num_numeric _ _ Nv). run_binds.
    rewrite find_matches_same, closest_level_same.
    rewrite (proj2 (matches_empty_iff ratio) Hout).
    destruct (closest_level_spec ratio) as (l' & -> & _). run_binds.
    intros [= <- <-]. lra. }
  rewrite (proj2 (Qlt_bool_iff c t)) by lra. reflexivity.
Qed.

(** A run of X11 on the stream of 12.5 seconds, whose ratio is 0.2. *)
Lemma out_of_range_gets_default_witness :
  flac_level_detection.get_flac_compression_level
    (sample_world (sample_tools report_with_duration)) "track.flac"
    flac_level_detection.default_threshold = Ok 5%Z.
Proof.
  apply (out_of_range_gets_default
           (sample_world (sample_tools report_with_duration)) "track.flac"
           probed_with_duration (3602879701896397 # 18014398509481984) flac_level_detection.default_threshold 0.7).
  - vm_compute. exact eq_refl.
  - exists (VFloat (3602879701896397 # 18014398509481984)). split; vm_compute; reflexivity.
  - left. reflexivity.
  - reflexivity.
  - reflexivity.
Defined.

(** ** The lines of [metaflac] *)

Lemma int_of_str_raises (s : string) (e : exn) : int_of_str s = Raise e -> e = ValueError.
Proof.
  unfold int_of_str.
  match goal with |- match ?x with _ => _ end = _ -> _ => destruct x end;
    congruence.
Qed.

Lemma calculate_derived_statistics_other (w : world) (file_size : Z)
    (info info' : gmap string pyval) (key : string) :
  flac_analyzer.calculate_derived_statistics w file_size info = Ok info' ->
  In key size_keys -> info' !! key = info !! key.
Proof.
  unfold flac_analyzer.calculate_derived_statistics. intros H Hk.
  assert (Hne : key <> "sample_rate"%string /\ key <> "channels"%string /\
                key <> "bits_per_sample"%string /\ key <> "uncompressed_size"%string /\
                key <> "compression_ratio"%string).
  { cbn in Hk. repeat (destruct Hk as [<- | Hk]; [repeat split; discriminate |]).
    contradiction. }
  destruct Hne as (N1 & N2 & N3 & N4 & N5).
  destruct (_ && _); [| now injection H as <-].
  repeat step H; try discriminate H; injection H as <-;
    now rewrite !lookup_insert_ne by congruence.
Qed.

(** With the version checks and the two analysis runs done, the probes
    return the parsed dictionary, and [None] when parsing raises
    [ValueError]. *)
Lemma probes_after_runs (w : world) (flac_file out1 out2 : string) :
  path_exists w flac_file = true ->
  succeeds w (version_cmd "flac") -> succeeds w (version_cmd "metaflac") ->
  subprocess_run w (analyze_cmd flac_file) = Ok out1 ->
  subprocess_run w (show_cmd flac_file) = Ok out2 ->
  let parsed := parse_outputs w (getsize w flac_file) out1 out2 in
  (forall info, parsed = Ok info ->
     flac_level_detection.analyze_flac_file w flac_file = Ok (Some info) /\
     flac_analyzer.analyze_flac_file w flac_file = Ok (Some info)) /\
  (parsed = Raise ValueError ->
     flac_level_detection.analyze_flac_file w flac_file = Ok None /\
     flac_analyzer.analyze_flac_file w flac_file = Ok None).
Proof.
  intros Hp Hv1 Hv2 H1 H2 parsed.
  assert (Ed : flac_level_detection.analyze_flac_file w flac_file =
               try_except (info ← parsed; Ok (Some info))
                 (fun e => match e with
                           | CalledProcessError _ _ =>
                               Ok (Some (limited_info_error (getsize w flac_file)
                                           (str_of_exn w e)))
                           | _ => Ok None
                           end)).
  { unfold flac_level_detection.analyze_flac_file. rewrite Hp. cbn [negb].
    fold (version_cmd "flac") (version_cmd "metaflac")
      (analyze_cmd flac_file) (show_cmd flac_file).
    destruct (subprocess_run_succeeds _ _ Hv1) as [v1 ->].
    destruct (subprocess_run_succeeds _ _ Hv2) as [v2 ->].
    rewrite H1, H2. run_binds. cbn [try_except negb].
    unfold parsed, parse_outputs. cbv zeta.
    rewrite parse_blocksize_info_same, parse_basic_info_same.
    destruct (parse_blocksize_info out2 _) as [info1|e1]; run_binds; [| reflexivity].
    rewrite calculate_derived_statistics_same.
    destruct (calculate_derived_statistics w _ info1) as [info|e2]; reflexivity. }
  assert (Ea : flac_analyzer.analyze_flac_file w flac_file =
               try_except (info ← parsed; Ok (Some info)) (fun _ => Ok None)).
  { unfold flac_analyzer.analyze_flac_file. rewrite Hp. cbn [negb].
    fold (analyze_cmd flac_file) (show_cmd flac_file).
    rewrite H1, H2. run_binds.
    unfold parsed, parse_outputs. cbv zeta.
    destruct (parse_blocksize_info out2 _) as [info1|e1]; run_binds;
      [| now destruct e1].
    destruct (calculate_derived_statistics w _ info1) as [info|e2]; run_binds;
      [reflexivity | now destruct e2]. }
  rewrite Ed, Ea. split.
  - intros info ->. now split.
  - intros ->. now split.
Qed.

(** X12: what the probes make of the output of [metaflac], once the runs
    have succeeded.  With at least four lines of which the first four are
    integers, a probe that returns a dictionary has these integers under
    min_blocksize, max_blocksize, min_framesize and max_framesize, whatever
    [flac] printed under such names and whatever lines follow; when one of
    the four is not an integer both probes return [None]; with fewer than
    four lines the four keys are as the output of [flac] alone leaves them. *)
Theorem metaflac_lines (w : world) (flac_file out1 out2 : string) :
  path_exists w flac_file = true ->
  succeeds w (version_cmd "flac") -> succeeds w (version_cmd "metaflac") ->
  subprocess_run w (analyze_cmd flac_file) = Ok out1 ->
  subprocess_run w (show_cmd flac_file) = Ok out2 ->
  let lines := splitlines out2 in
  let file_size := getsize w flac_file in
  (forall n0 n1 n2 n3 info,
     (4 <= length lines)%nat ->
     int_of_str (strip (nth 0 lines ""%string)) = Ok n0 ->
     int_of_str (strip (nth 1 lines ""%string)) = Ok n1 ->
     int_of_str (strip (nth 2 lines ""%string)) = Ok n2 ->
     int_of_str (strip (nth 3 lines ""%string)) = Ok n3 ->
     parse_outputs w file_size out1 out2 = Ok info ->
     flac_level_detection.analyze_flac_file w flac_file = Ok (Some info) /\
     flac_analyzer.analyze_flac_file w flac_file = Ok (Some info) /\
     info !! "min_blocksize"%string = Some (VInt n0) /\
     info !! "max_blocksize"%string = Some (VInt n1) /\
     info !! "min_framesize"%string = Some (VInt n2) /\
     info !! "max_framesize"%string = Some (VInt n3)) /\
  (forall i e,
     (4 <= length lines)%nat -> (i < 4)%nat ->
     int_of_str (strip (nth i lines ""%string)) = Raise e ->
     flac_level_detection.analyze_flac_file w flac_file = Ok None /\
     flac_analyzer.analyze_flac_file w flac_file = Ok None) /\
  (forall info key,
     (length lines < 4)%nat ->
     parse_outputs w file_size out1 out2 = Ok info ->
     In key size_keys ->
     flac_level_detection.analyze_flac_file w flac_file = Ok (Some info) /\
     flac_analyzer.analyze_flac_file w flac_file = Ok (Some info) /\
     info !! key
       = parse_basic_info out1 (<["file_size"%string := VInt file_size]> ∅) !! key).
Proof.
  intros Hp Hv1 Hv2 H1 H2 lines file_size.
  destruct (probes_after_runs w flac_file out1 out2 Hp Hv1 Hv2 H1 H2) as [Hok Hraise].
  fold file_size in Hok, Hraise.
  split; [| split].
  - intros n0 n1 n2 n3 info Hlen I0 I1 I2 I3 Hparsed.
    destruct (Hok info Hparsed) as [Hd Ha].
    split; [exact Hd |]. split; [exact Ha |].
    unfold parse_outputs in Hparsed. cbv zeta in Hparsed.
    unfold parse_blocksize_info in Hparsed. fold lines in Hparsed.
    rewrite (proj2 (Nat.leb_le _ _) Hlen), I0, I1, I2, I3 in Hparsed.
    run_binds_in Hparsed.
    repeat split;
      (rewrite (calculate_derived_statistics_other _ _ _ _ _ Hparsed)
         by (cbn; auto 6));
      repeat (rewrite lookup_insert_ne by discriminate); apply lookup_insert_eq.
  - intros i e Hlen Hi Hint. apply Hraise.
    pose proof (int_of_str_raises _ _ Hint) as ->.
    unfold parse_outputs. cbv zeta. unfold parse_blocksize_info. fold lines.
    rewrite (proj2 (Nat.leb_le _ _) Hlen).
    destruct i as [|[|[|[|i]]]]; [| | | | lia].
    + now rewrite Hint.
    + destruct (int_of_str (strip (nth 0 lines ""%string))) as [n|e0] eqn:E0.
      * run_binds. now rewrite Hint.
      * now rewrite (int_of_str_raises _ _ E0).
    + destruct (int_of_str (strip (nth 0 lines ""%string))) as [n|e0] eqn:E0;
        [| now rewrite (int_of_str_raises _ _ E0)].
      run_binds.
      destruct (int_of_str (strip (nth 1 lines ""%string))) as [n'|e1] eqn:E1;
        [| now rewrite (int_of_str_raises _ _ E1)].
      run_binds. now rewrite Hint.
    + destruct (int_of_str (strip (nth 0 lines ""%string))) as [n|e0] eqn:E0;
        [| now rewrite (int_of_str_raises _ _ E0)].
      run_binds.
      destruct (int_of_str (strip (nth 1 lines ""%string))) as [n'|e1] eqn:E1;
        [| now rewrite (int_of_str_raises _ _ E1)].
      run_binds.
      destruct (int_of_str (strip (nth 2 lines ""%string))) as [n''|e2] eqn:E2;
        [| now rewrite (int_of_str_raises _ _ E2)].
      run_binds. now rewrite Hint.
  - intros info key Hlen Hparsed Hk.
    destruct (Hok info Hparsed) as [Hd Ha].
    split; [exact Hd |]. split; [exact Ha |].
    unfold parse_outputs in Hparsed. cbv zeta in Hparsed.
    unfold parse_blocksize_info in Hparsed. fold lines in Hparsed.
    rewrite (proj2 (Nat.leb_gt _ _) Hlen) in Hparsed. run_binds_in Hparsed.
    exact (calculate_derived_statistics_other _ _ _ _ _ Hparsed Hk).
Qed.

(** A run of X12 on the sample tools: the four sizes are those [metaflac]
    printed. *)
Lemma metaflac_lines_witness :
  probed_with_duration !! "min_blocksize"%string = Some (VInt 4096) /\
  probed_with_duration !! "max_blocksize"%string = Some (VInt 4096) /\
  probed_with_duration !! "min_framesize"%string = Some (VInt 14) /\
  probed_with_duration !! "max_framesize"%string = Some (VInt 14000).
Proof.
  pose (w := sample_world (sample_tools report_with_duration)).
  apply (proj1 (metaflac_lines w "track.flac" report_with_duration
                  (String.append "4096" (String "010"%char
                     (String.append "4096" (String "010"%char
                        (String.append "14" (String "010"%char
                           (String.append "14000" (String "010"%char ""))))))))
                  eq_refl
                  ltac:(now exists "1.4.3"%string, ""%string)
                  ltac:(now exists "1.4.3"%string, ""%string)
                  eq_refl eq_refl)
           4096%Z 4096%Z 14%Z 14000%Z probed_with_duration);
    vm_compute; first [exact eq_refl | lia].
Defined.

(** ** The lines of [flac] *)

Lemma parse_basic_info_fold (stdout : string) (info : gmap string pyval) :
  parse_basic_info stdout info =
    fold_left (fun (info : gmap string pyval) line =>
                 match line_entry line with
                 | Some (key, value) => <[key := VStr value]> info
                 | None => info
                 end) (splitlines stdout) info.
Proof.
  unfold parse_basic_info. revert info.
  induction (splitlines stdout) as [|line lines IH]; intros info; cbn [fold_left];
    [reflexivity |].
  rewrite IH. f_equal. unfold line_entry. cbv zeta.
  destruct (has_char ":" (strip line)); [| reflexivity].
  now destruct (split_once ":" (strip line)).
Qed.

Lemma fold_entries_silent (key : string) (lines : list string) (info : gmap string pyval) :
  Forall (silent_on key) lines ->
  fold_left (fun (info : gmap string pyval) line =>
               match line_entry line with
               | Some (key, value) => <[key := VStr value]> info
               | None => info
               end) lines info !! key = info !! key.
Proof.
  intros H. revert info. induction H as [|line lines Hs _ IH]; intros info; cbn [fold_left];
    [reflexivity |].
  rewrite IH. destruct (line_entry line) as [[k v]|] eqn:E; [| reflexivity].
  apply lookup_insert_ne. intros ->. now apply (Hs v).
Qed.

(** X13: after the lines of [flac] are read, the dictionary has under a key
    the stripped value of the last line that gives this key (lower-cased,
    spaces turned into underscores), and keeps what it had under a key that
    no line gives. *)
Theorem parse_basic_info_last_wins (stdout : string) (info : gmap string pyval)
    (key : string) :
  (forall before line after value,
      splitlines stdout = before ++ line :: after ->
      line_entry line = Some (key, value) ->
      Forall (silent_on key) after ->
      parse_basic_info stdout info !! key = Some (VStr value) /\
      flac_level_detection.parse_basic_info stdout info !! key = Some (VStr value)) /\
  (Forall (silent_on key) (splitlines stdout) ->
   parse_basic_info stdout info !! key = info !! key /\
   flac_level_detection.parse_basic_info stdout info !! key = info !! key).
Proof.
  change (flac_level_detection.parse_basic_info stdout info)
    with (parse_basic_info stdout info).
  rewrite parse_basic_info_fold. split.
  - intros before line after value Hl He Ha. rewrite Hl.
    rewrite fold_left_app. cbn [fold_left]. rewrite He.
    rewrite (fold_entries_silent key after _ Ha), lookup_insert_eq. now split.
  - intros H. rewrite (fold_entries_silent key _ _ H). now split.
Qed.

(** A run of X13: two lines give the key [channels], the second one wins. *)
Lemma parse_basic_info_last_wins_witness :
  parse_basic_info "Channels: 2
channels : 6" ∅ !! "channels"%string = Some (VStr "6").
Proof.
  apply (proj1 (parse_basic_info_last_wins "Channels: 2
channels : 6" ∅ "channels") ["Channels: 2"%string] "channels : 6"%string [] "6"%string).
  - reflexivity.
  - reflexivity.
  - constructor.
Defined.

Lemma substring_all (s : string) (m : nat) :
  (String.length s <= m)%nat -> String.substring 0 m s = s.
Proof.
  revert m. induction s as [|c s IH]; intros m H.
  - now destruct m.
  - destruct m as [|m]; [cbn in H; lia |]. cbn. f_equal. apply IH. cbn in H. lia.
Qed.

Lemma replace_space_chars (s : string) (fuel : nat) (c : ascii) :
  (String.length s <= fuel)%nat ->
  In c (list_ascii_of_string (replace_fuel fuel " " "_" s)) ->
  c = "_"%char \/ (In c (list_ascii_of_string s) /\ c <> " "%char).
Proof.
  revert fuel. induction s as [|a s IH]; intros fuel Hf Hin.
  - destruct fuel; cbn in Hin; contradiction.
  - destruct fuel as [|fuel]; [cbn in Hf; lia |].
    cbn [String.length] in Hf. cbn [replace_fuel String.prefix] in Hin.
    destruct (ascii_dec " " a) as [<- | Hne].
    + cbn [String.substring String.length String.prefix] in Hin.
      rewrite substring_all in Hin by lia.
      replace (String.prefix "" s) with true in Hin by (now destruct s).
      cbn in Hin. destruct Hin as [<- | Hin]; [now left |].
      destruct (IH fuel ltac:(lia) Hin) as [H | [H1 H2]]; [now left | right].
      split; [now right | exact H2].
    + cbn in Hin. destruct Hin as [<- | Hin].
      * right. split; [now left | congruence].
      * destruct (IH fuel ltac:(lia) Hin) as [H | [H1 H2]]; [now left | right].
        split; [now right | exact H2].
Qed.

Lemma lower_char_not_upper (a : ascii) : ~ (65 <= code (lower_char a) <= 90)%nat.
Proof.
  unfold lower_char.
  destruct ((65 <=? code a) && (code a <=? 90))%nat eqn:E.
  - apply andb_true_iff in E. destruct E as [E1 E2].
    apply Nat.leb_le in E1, E2. unfold code in *.
    rewrite nat_ascii_embedding by lia. lia.
  - apply andb_false_iff in E.
    destruct E as [E | E]; apply Nat.leb_gt in E; lia.
Qed.

Lemma lower_chars (s : string) (c : ascii) :
  In c (list_ascii_of_string (lower s)) -> ~ (65 <= code c <= 90)%nat.
Proof.
  induction s as [|a s IH]; cbn; [contradiction |].
  intros [<- | H]; [apply lower_char_not_upper | now apply IH].
Qed.

Lemma normalised_key (k : string) : normal_key (replace " " "_" (lower k)).
Proof.
  intros c Hin. unfold replace in Hin.
  apply replace_space_chars in Hin; [| lia].
  destruct Hin as [-> | [Hin Hne]].
  - split; [discriminate | vm_compute; lia].
  - split; [exact Hne | now apply lower_chars in Hin].
Qed.

(** X14: reading the lines of [flac] leaves the dictionary as it was under
    every key, present or not, except under keys without spaces and without
    capital letters, where it may put a value that is text: no entry is
    removed, and an entry is added or changed only under such a key and only
    to text. *)
Theorem parsed_keys_are_normal (stdout : string) (info : gmap string pyval)
    (key : string) :
  parse_basic_info stdout info !! key = info !! key \/
  (normal_key key /\ exists s, parse_basic_info stdout info !! key = Some (VStr s)).
Proof.
  rewrite parse_basic_info_fold. revert info.
  induction (splitlines stdout) as [|line lines IH]; intros info; cbn [fold_left];
    [now left |].
  destruct (IH (match line_entry line with
                | Some (k, value) => <[k := VStr value]> info
                | None => info
                end)) as [H | H]; [| now right].
  rewrite H.
  destruct (line_entry line) as [[k value]|] eqn:E; [| now left].
  destruct (decide (k = key)) as [-> | Hne].
  - right. rewrite lookup_insert_eq in *. split; [| now exists value].
    unfold line_entry in E. cbv zeta in E.
    destruct (has_char ":" (strip line)); [| discriminate E].
    destruct (split_once ":" (strip line)) as [k0 v0]. injection E as <- _.
    apply normalised_key.
  - left. now rewrite lookup_insert_ne.
Qed.

(** ** The text of a size: [format_size] *)

Lemma round_half_even_near (n : Z) (d : positive) :
  let h := round_half_even (n # d) in
  (2 * Zpos d * h - Zpos d <= 2 * n <= 2 * Zpos d * h + Zpos d)%Z.
Proof.
  unfold round_half_even. cbn [Qnum Qden].
  pose proof (Z.div_mod n (Zpos d) ltac:(lia)) as E.
  pose proof (Z.mod_pos_bound n (Zpos d) ltac:(lia)) as B.
  destruct (Z.compare_spec (2 * (n mod Zpos d)) (Zpos d)) as [H | H | H];
    [destruct (Z.even (n / Zpos d)) |..]; cbv zeta; nia.
Qed.

Lemma py_lt_int (n m : Z) : py_lt (VInt n) (VInt m) = Ok (n <? m)%Z.
Proof.
  unfold py_lt. cbn. f_equal. unfold Qlt_bool, Qle_bool. cbn.
  rewrite !Z.mul_1_r. rewrite Z.ltb_antisym. reflexivity.
Qed.

(** The hundredths that [format_fixed 2] shows for [n / d], [n >= 0]. *)
Lemma format_fixed_quotient (n : Z) (d : positive) :
  (0 <= n)%Z ->
  exists h,
    format_fixed 2 (inject_Z n / inject_Z (Zpos d)) = fixed_text 2 false h /\
    (2 * Zpos d * h - Zpos d <= 200 * n <= 2 * Zpos d * h + Zpos d)%Z.
Proof.
  intros Hn. unfold format_fixed.
  assert (Hs : Qlt_bool (inject_Z n / inject_Z (Zpos d)) 0 = false).
  { apply Qlt_bool_false. unfold Qle, Qdiv, Qmult, Qinv, inject_Z. cbn. nia. }
  rewrite Hs.
  assert (E : Qabs (inject_Z n / inject_Z (Z.pos d)) * inject_Z (10 ^ Z.of_nat 2)
              = (n * 1 * 100 # d * 1)).
  { unfold Qabs, Qdiv, Qmult, Qinv, inject_Z. cbn.
    rewrite Z.mul_1_r, Z.abs_eq by lia. rewrite Pos.mul_1_l. reflexivity. }
  rewrite E. eexists. split; [reflexivity |].
  pose proof (round_half_even_near (n * 1 * 100) (d * 1)) as H. cbv zeta in H.
  rewrite Pos.mul_1_r in *. lia.
Qed.

Lemma hundredths_near (n h : Z) (d : positive) :
  (2 * Zpos d * h - Zpos d <= 200 * n <= 2 * Zpos d * h + Zpos d)%Z ->
  Qabs (inject_Z h / 100 - inject_Z n / inject_Z (Zpos d)) <= 1 # 200.
Proof.
  intros H. apply Qabs_Qle_condition.
  unfold Qle, Qminus, Qplus, Qopp, Qdiv, Qmult, Qinv, inject_Z. cbn.
  split; nia.
Qed.

Lemma py_truediv_int (n : Z) (d : positive) :
  py_truediv (VInt n) (VInt (Zpos d)) = Ok (inject_Z n / inject_Z (Zpos d)).
Proof. reflexivity. Qed.

Ltac size_tests :=
  unfold format_size; rewrite !py_lt_int;
  repeat match goal with
  | |- context [(?a <? ?b)%Z] =>
      first [rewrite (proj2 (Z.ltb_lt a b)) by lia
            | rewrite (proj2 (Z.ltb_ge a b)) by lia]
  end;
  cbn [mbind result_bind mret result_ret];
  change (1024 * 1024 * 1024)%Z with 1073741824%Z;
  change (1024 * 1024)%Z with 1048576%Z;
  rewrite ?py_truediv_int; cbn [mbind result_bind mret result_ret].

Ltac shown_with n d :=
  destruct (format_fixed_quotient n d ltac:(lia)) as (h & E & B);
  exists h; split;
  [split; [size_tests; rewrite E; reflexivity | now apply hundredths_near] | lia].

Ltac rolls_over n d :=
  destruct (format_fixed_quotient n d ltac:(lia)) as (h & E & B);
  size_tests; rewrite E;
  replace h with 102400%Z by lia; vm_compute; reflexivity.

(** X15: [format_size] raises [TypeError] for a value that is not a number.
    An integer size below 1024, negative sizes included, is shown as a plain
    count of bytes; from 1024 up to 2^53 it is shown in KB, MB or GB with two
    decimals, the hundredths nearest to the exact quotient, and the number
    shown is at least 1.00.  The unit is chosen before the rounding: the
    five sizes from 1048571 to 1048575 are shown as 1024.00 KB and the sizes
    from 1073736582 up to the next unit as 1024.00 MB; every other number
    shown in KB or MB is below 1024.00.  (Up to 2^53 the quotient by a power
    of two is a float as it stands; beyond, the division rounds it before
    the two decimals are taken.) *)
Theorem format_size_units (repr_float : Q -> string) (n : Z) :
  (forall v, as_num v = None -> format_size repr_float v = Raise TypeError) /\
  ((n < 1024)%Z ->
   format_size repr_float (VInt n) = Ok (str_of_int n +:+ " bytes")) /\
  ((1024 <= n < 1048571)%Z ->
   exists h, shown_in repr_float n "KB" 1024 h /\ (100 <= h < 102400)%Z) /\
  ((1048571 <= n < 1048576)%Z ->
   format_size repr_float (VInt n) = Ok "1024.00 KB") /\
  ((1048576 <= n < 1073736582)%Z ->
   exists h, shown_in repr_float n "MB" 1048576 h /\ (100 <= h < 102400)%Z) /\
  ((1073736582 <= n < 1073741824)%Z ->
   format_size repr_float (VInt n) = Ok "1024.00 MB") /\
  ((1073741824 <= n < 2 ^ 53)%Z ->
   exists h, shown_in repr_float n "GB" 1073741824 h /\ (100 <= h)%Z).
Proof.
  repeat match goal with |- _ /\ _ => split end.
  - intros v Hv. unfold format_size, py_lt, num. rewrite Hv. reflexivity.
  - intros H. size_tests. reflexivity.
  - intros H. shown_with n 1024%positive.
  - intros H. rolls_over n 1024%positive.
  - intros H. shown_with n 1048576%positive.
  - intros H. rolls_over n 1048576%positive.
  - intros H. shown_with n 1073741824%positive.
Qed.

(** Runs of X15, one for each band. *)
Lemma format_size_units_witness :
  format_size (fun _ => ""%string) (VStr "12") = Raise TypeError /\
  format_size (fun _ => ""%string) (VInt 1000) = Ok "1000 bytes" /\
  (exists h, shown_in (fun _ => ""%string) 5000 "KB" 1024 h /\ (100 <= h < 102400)%Z) /\
  format_size (fun _ => ""%string) (VInt 1048575) = Ok "1024.00 KB" /\
  (exists h, shown_in (fun _ => ""%string) 1048576 "MB" 1048576 h /\ (100 <= h < 102400)%Z) /\
  format_size (fun _ => ""%string) (VInt 1073741823) = Ok "1024.00 MB" /\
  (exists h, shown_in (fun _ => ""%string) 1073741824 "GB" 1073741824 h /\ (100 <= h)%Z).
Proof.
  repeat match goal with |- _ /\ _ => split end.
  - apply (format_size_units (fun _ => ""%string) 0). reflexivity.
  - apply (format_size_units (fun _ => ""%string) 1000). lia.
  - apply (format_size_units (fun _ => ""%string) 5000). lia.
  - apply (format_size_units (fun _ => ""%string) 1048575). lia.
  - apply (format_size_units (fun _ => ""%string) 1048576). lia.
  - apply (format_size_units (fun _ => ""%string) 1073741823). lia.
  - apply (format_size_units (fun _ => ""%string) 1073741824). lia.
Defined.

(** ** The report of [print_flac_analysis] *)

Lemma returned_metrics (info : gmap string pyval) (l : option Z) (c : Q)
    (m : gmap string Q) :
  estimate_compression_level info = Ok (l, c, inr m) ->
  exists ratio bv fe, m = metrics_of ratio bv fe.
Proof.
  unfold estimate_compression_level. cbv zeta. intros H.
  step H; [discriminate H |].
  step H; [| discriminate H]. step H; [| discriminate H].
  step H; [| discriminate H]. step H; [| discriminate H].
  step H; [| discriminate H]. step H; [| discriminate H].
  step H; [| discriminate H]. step H; [| discriminate H].
  step H.
  - step H; [| discriminate H]. injection H as _ _ <-. now eexists _, _, _.
  - step H; [| discriminate H]. step H. injection H as _ _ <-. now eexists _, _, _.
Qed.

(** The keys that [metrics_items] goes through are all the keys of a returned
    [metrics]. *)
Lemma metrics_items_all (info : gmap string pyval) (l : option Z) (c : Q)
    (m : gmap string Q) :
  estimate_compression_level info = Ok (l, c, inr m) ->
  metrics_items m ≡ₚ map_to_list m.
Proof.
  intros H. apply returned_metrics in H. destruct H as (ratio & bv & fe & ->).
  unfold metrics_of.
  rewrite !map_to_list_insert, map_to_list_empty
    by (repeat (rewrite lookup_insert_ne by discriminate); apply lookup_empty).
  change (metrics_items _) with
    (rev [("framesize_efficiency"%string, fe); ("blocksize_variability"%string, bv);
          ("ratio_score"%string, 1 - ratio); ("compression_ratio"%string, ratio)]).
  symmetry. apply Permutation_rev.
Qed.

Lemma optional_line (info : gmap string pyval) (key : string) (line : pyval -> string) :
  (if contains info key then v ← quiet (getitem info key); print (line v) else mret tt)
  = (match info !! key with Some v => [line v] | None => [] end, Ok tt).
Proof. unfold contains, getitem. destruct (info !! key); reflexivity. Qed.

Lemma optional_pair_line (info : gmap string pyval) (key1 key2 : string)
    (line : pyval -> pyval -> string) :
  (if contains info key1 && contains info key2 then
     lo ← quiet (getitem info key1); hi ← quiet (getitem info key2); print (line lo hi)
   else mret tt)
  = (match info !! key1, info !! key2 with
     | Some lo, Some hi => [line lo hi]
     | _, _ => []
     end, Ok tt).
Proof.
  unfold contains, getitem. destruct (info !! key1), (info !! key2); reflexivity.
Qed.

Lemma format_size_returns (repr_float : Q -> string) (v : pyval) :
  is_Some (as_num v) -> exists text, format_size repr_float v = Ok text.
Proof.
  intros [x Hx]. unfold format_size, py_lt, py_truediv, num. rewrite Hx.
  cbn [as_num mbind result_bind mret result_ret].
  repeat match goal with
  | |- context [Qeq_bool (inject_Z ?c) 0] =>
      change (Qeq_bool (inject_Z c) 0) with false
  end.
  repeat (match goal with |- context [if ?b then _ else _] => destruct b end;
          cbn [mbind result_bind mret result_ret]);
    eauto.
Qed.

Lemma format_f_returns (digits : nat) (v : pyval) (x : Q) :
  as_num v = Some x -> format_f digits v = Ok (format_fixed digits x).
Proof. destruct v; cbn; intros [= <-]; reflexivity. Qed.

Lemma analyzer_result_truthy (w : world) (flac_file : string) (info : gmap string pyval) :
  analyze_flac_file w flac_file = Ok (Some info) -> dict_truthy info = true.
Proof.
  intros H. apply analyzer_analyze_cases in H.
  destruct H as [H | (out1 & out2 & info' & _ & _ & Hp & H)];
    try discriminate H; injection H as <-.
  apply parse_outputs_keeps_file_size in Hp.
  now apply (dict_truthy_lookup info "file_size").
Qed.

Lemma compression_lines (repr_float : Q -> string) (info : gmap string pyval) :
  numbers_where_present info ->
  exists lines,
    Forall not_heading lines /\
    (if contains info "uncompressed_size" then
       uncompressed_size ← quiet (getitem info "uncompressed_size");
       text ← quiet (format_size repr_float uncompressed_size);
       print ("  Uncompressed Size: " +:+ text);;
       if contains info "compression_ratio" then
         ratio ← quiet (getitem info "compression_ratio");
         shown ← quiet (format_f 4 ratio);
         x ← quiet (num ratio);
         print ("  Compression Ratio: " +:+ shown +:+ " (" +:+ format_fixed 1 (x * 100)
                +:+ "% of original)")
       else mret tt
     else mret tt) = (lines, Ok tt).
Proof.
  intros Hn. unfold contains, getitem.
  destruct (info !! "uncompressed_size"%string) as [u|] eqn:Eu.
  2: { exists []. split; [constructor | reflexivity]. }
  destruct (Hn "uncompressed_size"%string u ltac:(cbn; auto) Eu) as [x Hx].
  destruct (format_size_returns repr_float u ltac:(eauto)) as [text Ht].
  cbn [mbind printing_bind quiet]. rewrite Ht.
  destruct (info !! "compression_ratio"%string) as [r|] eqn:Er.
  - destruct (Hn "compression_ratio"%string r ltac:(cbn; auto) Er) as [y Hy].
    cbn [mbind printing_bind quiet print].
    rewrite (format_f_returns 4 r y Hy). unfold num. rewrite Hy.
    eexists. split; [| reflexivity].
    repeat constructor; intros E; cbn in E; discriminate E.
  - eexists. split; [| reflexivity].
    repeat constructor; intros E; cbn in E; discriminate E.
Qed.

Lemma run_not_succeeding (w : world) (cmd : list string) :
  ~ succeeds w cmd -> exists e, subprocess_run w cmd = Raise e.
Proof.
  intros H. unfold subprocess_run, succeeds in *.
  destruct (spawn w cmd) as [returncode stdout stderr | |]; eauto.
  destruct (Z.eqb_spec returncode 0) as [-> | Hne]; eauto.
  exfalso. apply H. eauto.
Qed.

Lemma analyzer_without_runs (w : world) (flac_file : string) :
  path_exists w flac_file = true ->
  ~ succeeds w (analyze_cmd flac_file) \/ ~ succeeds w (show_cmd flac_file) ->
  analyze_flac_file w flac_file = Ok None.
Proof.
  intros Hp H. unfold analyze_flac_file.
  fold (analyze_cmd flac_file) (show_cmd flac_file).
  rewrite Hp. cbn [negb].
  destruct (subprocess_run w (analyze_cmd flac_file)) as [out1 | e1] eqn:E1; run_binds.
  2: { now destruct e1. }
  destruct H as [H | H]; apply run_not_succeeding in H; destruct H as [e H].
  - congruence.
  - rewrite H. run_binds. now destruct e.
Qed.

(** X16: [print_flac_analysis] lets no exception through and opens every
    report with the same two lines.  A path that does not exist is reported
    as an error line with the text of the [FileNotFoundError] that the probe
    raises; a tool run that does not succeed is reported as
    [Analysis failed.]; in both cases nothing else is printed. *)
Theorem report_of_failed_probe (repr_float : Q -> string) (w : world)
    (flac_file : string) :
  (exists rest,
     print_flac_analysis repr_float w flac_file = (report_head flac_file ++ rest, Ok tt)) /\
  (path_exists w flac_file = false ->
   print_flac_analysis repr_float w flac_file
   = (report_head flac_file ++ ["Error: " +:+ str_of_exn w FileNotFoundError], Ok tt)) /\
  (path_exists w flac_file = true ->
   ~ succeeds w (analyze_cmd flac_file) \/ ~ succeeds w (show_cmd flac_file) ->
   print_flac_analysis repr_float w flac_file
   = (report_head flac_file ++ ["Analysis failed."], Ok tt)).
Proof.
  repeat match goal with |- _ /\ _ => split end.
  - unfold print_flac_analysis.
    match goal with
    | |- context [try_printing ?body ?handler] =>
        destruct body as [out [[] | e]]
    end; cbn; eauto.
  - intros Hp. unfold print_flac_analysis, analyze_flac_file. rewrite Hp. reflexivity.
  - intros Hp H. unfold print_flac_analysis.
    rewrite (analyzer_without_runs w flac_file Hp H). reflexivity.
Qed.

Lemma Forall_optional (info : gmap string pyval) (key : string) (line : pyval -> string) :
  (forall v, not_heading (line v)) ->
  Forall not_heading (match info !! key with Some v => [line v] | None => [] end).
Proof. intros H. destruct (info !! key); repeat constructor. apply H. Qed.

Lemma Forall_optional_pair (info : gmap string pyval) (key1 key2 : string)
    (line : pyval -> pyval -> string) :
  (forall lo hi, not_heading (line lo hi)) ->
  Forall not_heading
    (match info !! key1, info !! key2 with
     | Some lo, Some hi => [line lo hi]
     | _, _ => []
     end).
Proof.
  intros H. destruct (info !! key1), (info !! key2); repeat constructor. apply H.
Qed.

Lemma quiet_bind {A B} (a : A) (f : A -> printing B) : quiet (Ok a) ≫= f = f a.
Proof. cbn. now destruct (f a). Qed.

Lemma for_each_print_items {A B} (line : A -> B -> string) (l : list (A * B)) :
  for_each l (fun '(key, value) => print (line key value))
  = (map (fun '(key, value) => line key value) l, Ok tt).
Proof.
  induction l as [|[key value] l IH]; [reflexivity |].
  cbn [for_each map]. rewrite IH. reflexivity.
Qed.

Ltac run_printing :=
  cbn [mbind printing_bind mret printing_ret print quiet try_printing].

Ltac same_lines :=
  unfold report_head, level_lines; f_equal; rewrite <- ?app_assoc; cbn [app];
  rewrite <- ?app_assoc; reflexivity.

Ltac other_line := intros; intros E; cbn in E; discriminate E.

Lemma confidence_word_in (confidence : Q) :
  In (confidence_word confidence) confidence_words.
Proof.
  unfold confidence_word, confidence_words.
  repeat match goal with |- context [if ?b then _ else _] => destruct b end;
    cbn; auto 6.
Qed.

(** X17: the end of the report after a probe that returned a dictionary whose
    sizes and ratio are numbers, all numbers being within the range of the
    floats.  The lines up to the estimation are the same whatever the
    estimator does and do not hold the estimation heading.  An exception of
    the estimator ends the report with its error line, so no estimation
    section is printed; a missing level gives the heading and
    [Could not estimate compression level]; a level gives the heading, the
    level with one of the five words and the decimals of its confidence, the
    note and one line for each of the four metrics in insertion order.  On
    numeric metrics with a ratio clear of the steps, the level shown is the
    step function of the ratio.  (Which word and which decimals are shown
    depends on the binary64 value and is not stated.) *)
Theorem report_estimation_section (repr_float : Q -> string) (w : world)
    (flac_file : string) (info : gmap string pyval) :
  analyze_flac_file w flac_file = Ok (Some info) ->
  numbers_where_present info ->
  in_float_range info ->
  exists lines,
    ~ In estimation_heading lines /\
    (forall e,
       estimate_compression_level info = Raise e ->
       print_flac_analysis repr_float w flac_file
       = (report_head flac_file ++ lines ++ ["Error: " +:+ str_of_exn w e], Ok tt)) /\
    (forall c m,
       estimate_compression_level info = Ok (None, c, m) ->
       print_flac_analysis repr_float w flac_file
       = (report_head flac_file ++ lines ++
            [estimation_heading; "  Could not estimate compression level"], Ok tt)) /\
    (forall l c m,
       estimate_compression_level info = Ok (Some l, c, inr m) ->
       exists word decimals values,
         In word confidence_words /\ length values = 4%nat /\
         print_flac_analysis repr_float w flac_file
         = (report_head flac_file ++ lines ++ level_lines l word decimals values,
            Ok tt)) /\
    (forall ratio,
       numeric_metrics info ratio -> clear_of_steps ratio ->
       exists word decimals values,
         In word confidence_words /\ length values = 4%nat /\
         print_flac_analysis repr_float w flac_file
         = (report_head flac_file ++ lines ++
              level_lines (threshold_level ratio) word decimals values,
            Ok tt)).
Proof.
  intros Ha Hn _.
  destruct (format_size_returns repr_float (get info "file_size" (VInt 0))) as [size Hs].
  { unfold get. destruct (info !! "file_size"%string) as [v|] eqn:E; [| now eexists].
    apply (Hn "file_size"%string v); [cbn; auto | exact E]. }
  destruct (compression_lines repr_float info Hn) as (l7 & F7 & E7).
  set (l1 := match info !! "channels"%string with
             | Some v => ["  Channels: " +:+ str repr_float v] | None => [] end).
  set (l2 := match info !! "sample_rate"%string with
             | Some v => ["  Sample Rate: " +:+ str repr_float v +:+ " Hz"] | None => [] end).
  set (l3 := match info !! "bits_per_sample"%string with
             | Some v => ["  Bit Depth: " +:+ str repr_float v +:+ " bits"] | None => [] end).
  set (l4 := match info !! "duration"%string with
             | Some v => ["  Duration: " +:+ str repr_float v] | None => [] end).
  set (l5 := match info !! "min_blocksize"%string, info !! "max_blocksize"%string with
             | Some lo, Some hi =>
                 ["  Block Size: " +:+ str repr_float lo +:+ " to " +:+ str repr_float hi]
             | _, _ => [] end).
  set (l6 := match info !! "min_framesize"%string, info !! "max_framesize"%string with
             | Some lo, Some hi =>
                 ["  Frame Size: " +:+ str repr_float lo +:+ " to " +:+ str repr_float hi
                  +:+ " bytes"]
             | _, _ => [] end).
  exists (["File size: " +:+ size; String "010" "Audio Properties:"] ++ l1 ++ l2 ++ l3 ++ l4
          ++ [String "010" "FLAC Properties:"] ++ l5 ++ l6
          ++ [String "010" "Compression Analysis:"] ++ l7).
  split.
  { intros Hin.
    assert (F : Forall not_heading
      (["File size: " +:+ size; String "010" "Audio Properties:"] ++ l1 ++ l2 ++ l3 ++ l4
          ++ [String "010" "FLAC Properties:"] ++ l5 ++ l6
          ++ [String "010" "Compression Analysis:"] ++ l7));
      [| rewrite List.Forall_forall in F; exact (F _ Hin eq_refl)].
    repeat first
      [ exact F7
      | apply Forall_app; split
      | apply List.Forall_cons; [other_line |]
      | apply List.Forall_nil
      | apply Forall_optional; other_line
      | apply Forall_optional_pair; other_line ]. }
  unfold print_flac_analysis. rewrite Ha, quiet_bind. cbv beta iota zeta.
  rewrite (analyzer_result_truthy w flac_file info Ha). cbn [negb]. cbv beta iota.
  rewrite Hs.
  rewrite !optional_line, !optional_pair_line, E7.
  fold l1 l2 l3 l4 l5 l6.
  match goal with |- _ /\ _ /\ ?G /\ _ => assert (Hlevel : G) end.
  { intros l c m He.
    destruct (returned_metrics info (Some l) c m He) as (ratio & bv & fe & ->).
    exists (confidence_word c), (format_fixed 2 c),
      (map (format_fixed 4) [ratio; 1 - ratio; bv; fe]).
    split; [apply confidence_word_in |]. split; [reflexivity |].
    rewrite He. rewrite (quiet_bind (Some l, c, inr (metrics_of ratio bv fe))).
    cbv beta iota.
    rewrite (for_each_print_items
               (fun key value => "  " +:+ key +:+ ": " +:+ format_fixed 4 value)).
    change (metrics_items (metrics_of ratio bv fe)) with
      [("compression_ratio"%string, ratio); ("ratio_score"%string, 1 - ratio);
       ("blocksize_variability"%string, bv); ("framesize_efficiency"%string, fe)].
    run_printing. same_lines. }
  repeat match goal with |- _ /\ _ => split end.
  - intros e He. rewrite He. run_printing. same_lines.
  - intros c m He. rewrite He. run_printing. same_lines.
  - exact Hlevel.
  - intros ratio Hm _.
    destruct (numeric_metrics_level info ratio Hm) as [_ (c & m & He)].
    now apply (Hlevel _ c m).
Qed.

Lemma numbers_in_sample : numbers_where_present probed_with_duration.
Proof.
  intros key v [<- | [<- | [<- | []]]] H; vm_compute in H; injection H as <-;
    eexists; reflexivity.
Qed.

Lemma in_float_range_sample : in_float_range probed_with_duration.
Proof.
  intros key x (v & Hv & Hx). unfold probed_with_duration in Hv.
  sample_entries Hv; small_number Hx.
Qed.

(** A run of X17: the stream of [report_with_duration]. *)
Lemma report_estimation_section_witness :
  exists lines,
    ~ In estimation_heading lines /\
    (forall e,
       estimate_compression_level probed_with_duration = Raise e ->
       print_flac_analysis (fun _ => ""%string)
         (sample_world (sample_tools report_with_duration)) "track.flac"
       = (report_head "track.flac" ++ lines ++
            ["Error: " +:+ str_of_exn (sample_world (sample_tools report_with_duration)) e],
          Ok tt)) /\
    (forall c m,
       estimate_compression_level probed_with_duration = Ok (None, c, m) ->
       print_flac_analysis (fun _ => ""%string)
         (sample_world (sample_tools report_with_duration)) "track.flac"
       = (report_head "track.flac" ++ lines ++
            [estimation_heading; "  Could not estimate compression level"], Ok tt)) /\
    (forall l c m,
       estimate_compression_level probed_with_duration = Ok (Some l, c, inr m) ->
       exists word decimals values,
         In word confidence_words /\ length values = 4%nat /\
         print_flac_analysis (fun _ => ""%string)
           (sample_world (sample_tools report_with_duration)) "track.flac"
         = (report_head "track.flac" ++ lines ++ level_lines l word decimals values,
            Ok tt)) /\
    (forall ratio,
       numeric_metrics probed_with_duration ratio -> clear_of_steps ratio ->
       exists word decimals values,
         In word confidence_words /\ length values = 4%nat /\
         print_flac_analysis (fun _ => ""%string)
           (sample_world (sample_tools report_with_duration)) "track.flac"
         = (report_head "track.flac" ++ lines ++
              level_lines (threshold_level ratio) word decimals values,
            Ok tt)).
Proof.
  apply (report_estimation_section (fun _ => ""%string)
           (sample_world (sample_tools report_with_duration)) "track.flac"
           probed_with_duration).
  - vm_compute. exact eq_refl.
  - exact numbers_in_sample.
  - exact in_float_range_sample.
Defined.

(** Runs of X16: a path that does not exist, and a file without tools. *)
Lemma report_of_failed_probe_witness :
  print_flac_analysis (fun _ => ""%string) (sample_world no_tools) "music/other.flac"
  = (report_head "music/other.flac" ++
       ["Error: " +:+ str_of_exn (sample_world no_tools) FileNotFoundError], Ok tt) /\
  print_flac_analysis (fun _ => ""%string) (sample_world no_tools) "track.flac"
  = (report_head "track.flac" ++ ["Analysis failed."], Ok tt).
Proof.
  split.
  - apply (report_of_failed_probe (fun _ => ""%string) (sample_world no_tools)
             "music/other.flac").
    reflexivity.
  - apply (report_of_failed_probe (fun _ => ""%string) (sample_world no_tools)
             "track.flac"); [reflexivity |].
    left. intros (stdout & stderr & H). discriminate H.
Defined.

